(** * RentEase: the listing query engine, the account rules and the message rules

    A shallow embedding of the back end of the RentEase marketplace
    (controllers/FlatController.js, controllers/AdminController.js,
    controllers/MessageController.js, controllers/AuthController.js,
    models/UserModel.js, models/FlatModel.js, models/MessageModel.js).

    The handlers are transcribed as functions over an explicit model of the
    document store and of the model layer that casts a filter before a
    count.  What belongs to JavaScript, to the model layer or to the store
    rather than to the repository (the conversions [Number] and [String],
    the regular-expression engine, the order in which [$sort] leaves equal
    keys in one request, the identifier format, the cast of a term on a
    path that holds no string, number or boolean) is a [Variable] of the
    section that needs it, so every theorem holds for each such
    collaborator; small concrete collaborators are supplied further down
    to evaluate the handlers on examples. *)

From Stdlib Require Import List String Ascii Bool Arith ZArith QArith Qround Lia.
From Stdlib Require Import Permutation Sorted.
From Stdlib Require DecimalString.
Import ListNotations.

Local Close Scope Q_scope.
Local Open Scope nat_scope.
Local Open Scope string_scope.
Local Open Scope list_scope.

(* ================================================================== *)
(** * JavaScript values and string primitives                          *)
(* ================================================================== *)

Module JS.

(** A JavaScript number as the handlers use it: the result of [Number(s)]
    is either [NaN] or a finite value (the infinities are not
    represented).  Only the order of the finite values, their difference
    and their product matter below, so a finite value is a rational. *)
Inductive num : Type :=
| NaN
| Num (q : Q).

Definition sub (a b : num) : num :=
  match a, b with
  | Num x, Num y => Num (x - y)%Q
  | _, _ => NaN
  end.

Definition mul (a b : num) : num :=
  match a, b with
  | Num x, Num y => Num (x * y)%Q
  | _, _ => NaN
  end.

(** [s.includes(sub)] *)
Fixpoint includes (sub s : string) : bool :=
  prefix sub s ||
  match s with
  | EmptyString => false
  | String _ s' => includes sub s'
  end.

(** [s.startsWith(p)] *)
Definition startsWith (p s : string) : bool := prefix p s.

(** [s.split(sep)] for a one-character separator: always at least one
    segment, the empty string splits into one empty segment. *)
Fixpoint split (sep : ascii) (s : string) : list string :=
  match s with
  | EmptyString => [EmptyString]
  | String c s' =>
      if Ascii.eqb c sep then EmptyString :: split sep s'
      else match split sep s' with
           | seg :: segs => String c seg :: segs
           | [] => [String c EmptyString]
           end
  end.

(** [s.replace(c, '')] with a string pattern: only the first occurrence
    is removed. *)
Fixpoint removeFirst (c : ascii) (s : string) : string :=
  match s with
  | EmptyString => EmptyString
  | String d s' => if Ascii.eqb d c then s' else String d (removeFirst c s')
  end.

(** The class [\s] restricted to the ASCII range: tab, line feed, vertical
    tab, form feed, carriage return and space. *)
Definition isSpace (c : ascii) : bool :=
  let n := nat_of_ascii c in
  ((9 <=? n)%nat && (n <=? 13)%nat) || (n =? 32)%nat.

(** The class [[-\s]]. *)
Definition isDashOrSpace (c : ascii) : bool :=
  Ascii.eqb c "-" || isSpace c.

(** [s.replace(/[-\s]+/g, rep)]: every maximal run of dashes and white
    space is replaced by one copy of [rep]. *)
Fixpoint replaceRuns (rep : string) (inRun : bool) (s : string) : string :=
  match s with
  | EmptyString => EmptyString
  | String c s' =>
      if isDashOrSpace c then
        if inRun then replaceRuns rep true s'
        else rep ++ replaceRuns rep true s'
      else String c (replaceRuns rep false s')
  end.

(** [s.trim()], for ASCII white space (strings are sequences of ASCII
    characters throughout; the white space beyond ASCII that [trim] also
    strips is outside them). *)
Fixpoint trimStart (s : string) : string :=
  match s with
  | EmptyString => EmptyString
  | String c s' => if isSpace c then trimStart s' else s
  end.

Fixpoint trimEnd (s : string) : string :=
  match s with
  | EmptyString => EmptyString
  | String c s' =>
      let t := trimEnd s' in
      if isSpace c && String.eqb t EmptyString then EmptyString else String c t
  end.

Definition trim (s : string) : string := trimEnd (trimStart s).

(** [s.toLowerCase()], for ASCII letters. *)
Definition lowerChar (c : ascii) : ascii :=
  let n := nat_of_ascii c in
  if (65 <=? n)%nat && (n <=? 90)%nat then ascii_of_nat (n + 32) else c.

Fixpoint toLowerCase (s : string) : string :=
  match s with
  | EmptyString => EmptyString
  | String c s' => String (lowerChar c) (toLowerCase s')
  end.

(** Assignment [o[k] = v] on an object used as a dictionary: an existing
    key keeps its place, a new key goes last.  JavaScript does so for
    every key but two kinds: an array index ([0], [1], ...), which an
    object lists before its other keys, and [__proto__], whose assignment
    on a plain object creates no key.  Both are outside this definition;
    a statement below that depends on the order or on the presence of a
    key says so. *)
Fixpoint objSet {V : Type} (k : string) (v : V) (o : list (string * V))
  : list (string * V) :=
  match o with
  | [] => [(k, v)]
  | (k', v') :: o' =>
      if String.eqb k k' then (k, v) :: o' else (k', v') :: objSet k v o'
  end.

(** Property read [o[k]]; [None] is [undefined]. *)
Fixpoint objGet {V : Type} (k : string) (o : list (string * V)) : option V :=
  match o with
  | [] => None
  | (k', v) :: o' => if String.eqb k k' then Some v else objGet k o'
  end.

End JS.

(* ================================================================== *)
(** * Stored documents                                                 *)
(* ================================================================== *)

(** Identifiers are kept as their string form. *)
Definition ObjectId := string.

(** A calendar date (the components [$year], [$month], [$dayOfMonth] of a
    stored date; [getFullYear], [getMonth() + 1], [getDate] of a
    JavaScript one). *)
Record Date : Type := mkDate { year : Z; month : Z; day : Z }.

(** The values a field of a stored document can hold.  [VUndefined] is not
    stored: it is the sort key of an empty array. *)
Inductive value : Type :=
| VUndefined
| VMissing
| VNum (q : Q)
| VStr (s : string)
| VObj (fields : list (string * string))
| VIds (ids : list ObjectId)
| VId (id : ObjectId)
| VBool (b : bool)
| VDate (t : Z).

Record Image : Type := mkImage { url : string; public_id : string }.

(** models/FlatModel.js, [flatSchema], with the fields the store adds
    ([_id], the timestamps). Numeric fields pass the schema's [Number]
    cast, which refuses [NaN]: they are plain rationals. *)
Record Flat : Type := mkFlat {
  flat_id : ObjectId;
  adTitle : string;
  city : string;
  streetName : string;
  streetNumber : Q;
  areaSize : Q;
  hasAC : bool;
  yearBuilt : Q;
  rentPrice : Q;
  dateAvailable : Q;
  image : Image;
  owner : ObjectId;
  messages : list ObjectId;
  flat_createdAt : Z;
  flat_updatedAt : Z
}.

(** models/UserModel.js, [userSchema]. [addedFlats] may be absent or
    null in a stored document (the listing guards it with [$ifNull]). *)
Record User : Type := mkUser {
  user_id : ObjectId;
  firstName : string;
  lastName : string;
  birthDate : Date;
  email : string;
  password : string;
  role : string;
  favoriteFlats : list ObjectId;
  addedFlats : option (list ObjectId);
  user_createdAt : Z;
  user_updatedAt : Z
}.

(** models/MessageModel.js, [messageSchema]. *)
Record Message : Type := mkMessage {
  message_id : ObjectId;
  content : string;
  flatId : ObjectId;
  senderId : ObjectId;
  message_createdAt : Z
}.

(** Reading a field of a flat by its name, as [$match] and [$sort] do. *)
Definition flatField (k : string) (f : Flat) : value :=
  if k =? "_id" then VId (flat_id f)
  else if k =? "adTitle" then VStr (adTitle f)
  else if k =? "city" then VStr (city f)
  else if k =? "streetName" then VStr (streetName f)
  else if k =? "streetNumber" then VNum (streetNumber f)
  else if k =? "areaSize" then VNum (areaSize f)
  else if k =? "hasAC" then VBool (hasAC f)
  else if k =? "yearBuilt" then VNum (yearBuilt f)
  else if k =? "rentPrice" then VNum (rentPrice f)
  else if k =? "dateAvailable" then VNum (dateAvailable f)
  else if k =? "image" then
    VObj [("url", url (image f)); ("public_id", public_id (image f))]
  else if k =? "image.url" then VStr (url (image f))
  else if k =? "image.public_id" then VStr (public_id (image f))
  else if k =? "owner" then VId (owner f)
  else if k =? "messages" then VIds (messages f)
  else if k =? "createdAt" then VDate (flat_createdAt f)
  else if k =? "updatedAt" then VDate (flat_updatedAt f)
  else VMissing.

(* ================================================================== *)
(** * The document store: filters, sort keys, page windows             *)
(* ================================================================== *)

Module Store.

(** The store is described at the level of its query language.  A filter
    is a conjunction of terms on named fields; a stage of a pipeline is a
    function of the documents that reach it.  Field names are plain names
    of top-level fields (the version key [__v], paths into arrays and
    names that begin with [$] are left out).  An aggregation hands its
    [$match] to the store as the handler wrote it; a count goes through
    the model layer first, which casts the filter against the schema (see
    [Cast] below). *)

(** A call on the store either returns or throws; the handlers catch the
    exception at their boundary. *)
Inductive result (A : Type) : Type :=
| Ok (a : A)
| Throw (error : string).
Arguments Ok {A} a.
Arguments Throw {A} error.

Definition bind {A B : Type} (r : result A) (k : A -> result B) : result B :=
  match r with
  | Ok a => k a
  | Throw e => Throw e
  end.

(** The constants a handler writes into a filter. *)
Inductive literal : Type :=
| LStr (s : string)
| LNum (q : Q)
| LBool (b : bool).

(** The four shapes of filter term the handlers build. *)
Inductive condition : Type :=
| CEq (l : literal)                 (* field: literal *)
| CIn (ls : list literal)           (* field: { $in: [...] } *)
| CRange (lo hi : JS.num)           (* field: { $gte: lo, $lte: hi } *)
| CRegex (pattern : string).        (* field: { $regex: pattern, $options: 'i' } *)

Definition filterDoc := list (string * condition).

(** Equality of a stored value with a literal.  Values of different types
    are never equal, and arrays of identifiers hold no literal. *)
Definition equalsLiteral (l : literal) (v : value) : bool :=
  match l, v with
  | LStr s, VStr t => String.eqb s t
  | LNum q, VNum r => Qeq_bool q r
  | LBool b, VBool c => Bool.eqb b c
  | _, _ => false
  end.

(** [$gte] and [$lte] against a number: only numeric values are compared,
    and a comparison with [NaN] holds for no stored number. *)
Definition gte (bound : JS.num) (v : value) : bool :=
  match bound, v with
  | JS.Num a, VNum x => Qle_bool a x
  | _, _ => false
  end.

Definition lte (bound : JS.num) (v : value) : bool :=
  match bound, v with
  | JS.Num b, VNum x => Qle_bool x b
  | _, _ => false
  end.

Section Matching.

(** [regexTest pattern subject]: does the pattern, compiled with the
    option [i], match somewhere in the subject. *)
Variable regexTest : string -> string -> bool.

Definition holds (c : condition) (v : value) : bool :=
  match c with
  | CEq l => equalsLiteral l v
  | CIn ls => existsb (fun l => equalsLiteral l v) ls
  | CRange lo hi => gte lo v && lte hi v
  | CRegex p => match v with VStr s => regexTest p s | _ => false end
  end.

(** A document satisfies a filter when every term holds of its field. *)
Definition matches {A : Type} (field : string -> A -> value)
           (filter : filterDoc) (d : A) : bool :=
  forallb (fun term => holds (snd term) (field (fst term) d)) filter.

End Matching.

(** ** Sort keys *)

Inductive direction : Type := Asc | Desc.

Definition sortSpec := list (string * direction).

(** The rank of a value's type in the store's comparison order. *)
Definition rank (v : value) : nat :=
  match v with
  | VUndefined => 0
  | VMissing => 5
  | VNum _ => 10
  | VStr _ => 15
  | VObj _ => 20
  | VIds _ => 25
  | VId _ => 35
  | VBool _ => 40
  | VDate _ => 45
  end.

Fixpoint compareList {A : Type} (cmp : A -> A -> comparison)
         (l1 l2 : list A) : comparison :=
  match l1, l2 with
  | [], [] => Eq
  | [], _ :: _ => Lt
  | _ :: _, [] => Gt
  | x :: l1', y :: l2' =>
      match cmp x y with
      | Eq => compareList cmp l1' l2'
      | c => c
      end
  end.

Definition comparePair (p1 p2 : string * string) : comparison :=
  match String.compare (fst p1) (fst p2) with
  | Eq => String.compare (snd p1) (snd p2)
  | c => c
  end.

(** Values of one type compare by content, values of different types by
    the rank of their types. *)
Definition compareValue (a b : value) : comparison :=
  match a, b with
  | VNum x, VNum y => (x ?= y)%Q
  | VStr s, VStr t => String.compare s t
  | VObj f, VObj g => compareList comparePair f g
  | VIds l, VIds m => compareList String.compare l m
  | VId i, VId j => String.compare i j
  | VBool x, VBool y => Bool.compare x y
  | VDate s, VDate t => (s ?= t)%Z
  | _, _ => Nat.compare (rank a) (rank b)
  end.

Definition isArray (v : value) : bool :=
  match v with
  | VIds _ => true
  | _ => false
  end.

(** An array sorts by its smallest element in an ascending sort and by its
    largest in a descending one; an empty array sorts below a missing
    field. *)
Definition sortKey (d : direction) (v : value) : value :=
  match v with
  | VIds [] => VUndefined
  | VIds (i :: ids) =>
      VId (fold_left
             (fun best j =>
                match d with
                | Asc => if String.ltb j best then j else best
                | Desc => if String.ltb best j then j else best
                end) ids i)
  | _ => v
  end.

Definition compareField {A : Type} (field : string -> A -> value)
           (k : string) (d : direction) (a b : A) : comparison :=
  match d with
  | Asc => compareValue (sortKey Asc (field k a)) (sortKey Asc (field k b))
  | Desc => compareValue (sortKey Desc (field k b)) (sortKey Desc (field k a))
  end.

(** The order a [$sort] stage asks for: the fields of the sort object in
    their order, each in its direction. *)
Fixpoint compareBy {A : Type} (field : string -> A -> value)
         (spec : sortSpec) (a b : A) : comparison :=
  match spec with
  | [] => Eq
  | (k, d) :: rest =>
      match compareField field k d a b with
      | Eq => compareBy field rest a b
      | c => c
      end
  end.

(** What a [$sort] stage promises of its output [out] on the input [inp]:
    the same documents, none later than a document that follows it. *)
Definition sortedBy {A : Type} (cmp : A -> A -> comparison)
           (inp out : list A) : Prop :=
  Permutation inp out /\ StronglySorted (fun a b => cmp a b <> Gt) out.

(** ** Page windows *)

(** The argument of [$skip] and [$limit] must be a whole number that is
    not negative. *)
Definition toCount (n : JS.num) : option nat :=
  match n with
  | JS.NaN => None
  | JS.Num q =>
      if Qeq_bool q (inject_Z (Qfloor q)) && Qle_bool 0 q
      then Some (Z.to_nat (Qfloor q))
      else None
  end.

(** [{ $skip: n }] *)
Definition skipStage {A : Type} (n : JS.num) (docs : list A) : result (list A) :=
  match toCount n with
  | Some k => Ok (skipn k docs)
  | None => Throw "Argument to $skip must be a non-negative integer"
  end.

(** [{ $limit: n }]: the limit must moreover be positive. *)
Definition limitStage {A : Type} (n : JS.num) (docs : list A) : result (list A) :=
  match toCount n with
  | Some (S k) => Ok (firstn (S k) docs)
  | _ => Throw "the limit must be a positive integer"
  end.

End Store.

(* ================================================================== *)
(** * The model layer: the cast of a filter before a count            *)
(* ================================================================== *)

Module Cast.
Import Store.

(** [Model.countDocuments(filter)] does not hand the filter to the store
    as the handler wrote it.  The model layer first casts the value of
    every term to the type that the schema declares for the path of the
    term, running the setters of the path ([trim]) on the way, and throws
    a CastError when a value cannot be cast; the handler then answers
    500.  [Model.aggregate(pipeline)] performs no cast.  This module
    follows the casts of the three types whose values the handlers write
    themselves: strings, numbers and booleans (lib/cast/string.js,
    number.js and boolean.js of the model layer, and the [castForQuery]
    of the three schema types). *)

Inductive schemaType : Type :=
| SString (trim : bool)    (* type: String, with or without trim: true *)
| SNumber                  (* type: Number *)
| SBoolean.                (* type: Boolean *)

(** A JavaScript value as a filter holds it before the cast. *)
Inductive jsValue : Type :=
| JNum (n : JS.num)
| JStr (s : string)
| JBool (b : bool).

Definition ofLiteral (l : literal) : jsValue :=
  match l with
  | LStr s => JStr s
  | LNum q => JNum (JS.Num q)
  | LBool b => JBool b
  end.

(** A value after the cast; [QNull] is [null]. *)
Inductive castValue : Type :=
| QNull
| QNum (q : Q)
| QStr (s : string)
| QBool (b : bool).

(** A term after the cast. *)
Inductive castCondition : Type :=
| QEq (v : castValue)               (* field: value *)
| QIn (vs : list castValue)         (* field: { $in: [...] } *)
| QRange (lo hi : castValue)        (* field: { $gte: lo, $lte: hi } *)
| QRegex (pattern : string).        (* field: { $regex: pattern, $options: 'i' } *)

Section Casts.

(** [Number(s)] on a string. *)
Variable Number : string -> JS.num.
(** [String(n)] on a finite number. *)
Variable numberToString : Q -> string.

(** [castNumber]: the empty string is [null], another string or a boolean
    goes through [Number], and [NaN] is refused. *)
Definition castNumber (v : jsValue) : result castValue :=
  let refuseNaN (n : JS.num) :=
    match n with
    | JS.NaN => Throw "Cast to Number failed"
    | JS.Num q => Ok (QNum q)
    end in
  match v with
  | JNum n => refuseNaN n
  | JStr s => if s =? "" then Ok QNull else refuseNaN (Number s)
  | JBool b => Ok (QNum (if b then 1 else 0))
  end.

(** [value.toString()] *)
Definition toString (v : jsValue) : string :=
  match v with
  | JNum JS.NaN => "NaN"
  | JNum (JS.Num q) => numberToString q
  | JStr s => s
  | JBool b => if b then "true" else "false"
  end.

(** [castString], after the setter [trim] when the path has it: every
    value the handlers write has a text, so nothing is refused. *)
Definition castString (trim : bool) (v : jsValue) : result castValue :=
  Ok (QStr (if trim then JS.trim (toString v) else toString v)).

(** [castBoolean]: [true], ['true'], [1], ['1'] and ['yes'] are true,
    [false], ['false'], [0], ['0'] and ['no'] are false, and every other
    value is refused. *)
Definition castBoolean (v : jsValue) : result castValue :=
  match v with
  | JBool b => Ok (QBool b)
  | JNum (JS.Num q) =>
      if Qeq_bool q 1 then Ok (QBool true)
      else if Qeq_bool q 0 then Ok (QBool false)
      else Throw "Cast to Boolean failed"
  | JNum JS.NaN => Throw "Cast to Boolean failed"
  | JStr s =>
      if (s =? "true") || (s =? "1") || (s =? "yes") then Ok (QBool true)
      else if (s =? "false") || (s =? "0") || (s =? "no") then Ok (QBool false)
      else Throw "Cast to Boolean failed"
  end.

Definition castAs (t : schemaType) (v : jsValue) : result castValue :=
  match t with
  | SString trim => castString trim v
  | SNumber => castNumber v
  | SBoolean => castBoolean v
  end.

(** The cast of the elements of an array, as [$in] has it. *)
Fixpoint castEach (t : schemaType) (vs : list jsValue)
  : result (list castValue) :=
  match vs with
  | [] => Ok []
  | v :: vs' =>
      bind (castAs t v)
           (fun c => bind (castEach t vs') (fun cs => Ok (c :: cs)))
  end.

(** [schematype.castForQuery]: a plain value and the operands of [$in],
    [$gte] and [$lte] are cast to the type of the path.  [$regex] with
    [$options] stays as it is on a string (the one pattern the handlers
    write for a path of the schema, that of [city], holds no white space
    for [trim] to strip) and is refused on a number and on a boolean. *)
Definition castForQuery (t : schemaType) (c : condition)
  : result castCondition :=
  match c with
  | CEq l => bind (castAs t (ofLiteral l)) (fun v => Ok (QEq v))
  | CIn ls => bind (castEach t (map ofLiteral ls)) (fun vs => Ok (QIn vs))
  | CRange lo hi =>
      bind (castAs t (JNum lo))
           (fun a => bind (castAs t (JNum hi)) (fun b => Ok (QRange a b)))
  | CRegex p =>
      match t with
      | SString _ => Ok (QRegex p)
      | _ => Throw "Can't use $regex"
      end
  end.

End Casts.

(** What the store makes of a cast term.  [null] equals a field that is
    missing; [$gte] and [$lte] compare a value with a bound of its own
    type only: numbers by size, strings byte by byte, and [false] before
    [true]. *)
Definition equalsCast (c : castValue) (v : value) : bool :=
  match c, v with
  | QNull, VMissing => true
  | QNum q, VNum r => Qeq_bool q r
  | QStr s, VStr t => String.eqb s t
  | QBool b, VBool d => Bool.eqb b d
  | _, _ => false
  end.

Definition atLeast (bound : castValue) (v : value) : bool :=
  match bound, v with
  | QNum a, VNum x => Qle_bool a x
  | QStr s, VStr t => String.leb s t
  | QBool b, VBool d => implb b d
  | _, _ => false
  end.

Definition atMost (bound : castValue) (v : value) : bool :=
  match bound, v with
  | QNum b, VNum x => Qle_bool x b
  | QStr s, VStr t => String.leb t s
  | QBool b, VBool d => implb d b
  | _, _ => false
  end.

Section Selecting.

Variable regexTest : string -> string -> bool.

Definition holdsCast (c : castCondition) (v : value) : bool :=
  match c with
  | QEq q => equalsCast q v
  | QIn qs => existsb (fun q => equalsCast q v) qs
  | QRange lo hi => atLeast lo v && atMost hi v
  | QRegex p => match v with VStr s => regexTest p s | _ => false end
  end.

End Selecting.

End Cast.

(* ================================================================== *)
(** * The listing handlers                                             *)
(* ================================================================== *)

Module Listing.
Import Store.
Import Cast.

(** The three collections. *)
Record Db : Type := mkDb {
  Flats : list Flat;
  Users : list User;
  Messages : list Message
}.

(** [req.query]: the parameters in the order of the query string. *)
Definition query := list (string * string).

(** What [res.status(..).json(..)] sends back. *)
Inductive response (A : Type) : Type :=
| Page (status : nat) (page limit : JS.num) (totalCount count : nat)
       (data : list A)
| Failed (status : nat) (message : string).
Arguments Page {A} status page limit totalCount count data.
Arguments Failed {A} status message.

Definition statusOf {A : Type} (r : response A) : nat :=
  match r with
  | Page s _ _ _ _ _ => s
  | Failed s _ => s
  end.

Definition dataOf {A : Type} (r : response A) : list A :=
  match r with
  | Page _ _ _ _ _ d => d
  | Failed _ _ => []
  end.

Definition totalCountOf {A : Type} (r : response A) : option nat :=
  match r with
  | Page _ _ _ t _ _ => Some t
  | Failed _ _ => None
  end.

(** The owner fields that [$lookup] projects into a listed flat. *)
Record OwnerInfo : Type := mkOwnerInfo {
  owner_id : ObjectId;
  owner_firstName : string;
  owner_lastName : string;
  owner_email : string
}.

(** A flat after [$lookup] and [$unwind]: [owner] is the owner document. *)
Record ListedFlat : Type := mkListedFlat {
  listed : Flat;
  ownerInfo : OwnerInfo
}.

(** A row of the user listing after [$addFields]. *)
Record UserRow : Type := mkUserRow {
  account : User;
  publishedFlatsCount : nat;
  age : Z
}.

(** A row of the user listing after [$project]. *)
Record UserSummary : Type := mkUserSummary {
  summary_id : ObjectId;
  summary_firstName : string;
  summary_lastName : string;
  summary_email : string;
  summary_birthDate : Date;
  summary_age : Z;
  summary_role : string;
  summary_publishedFlatsCount : nat;
  summary_createdAt : Z
}.

(** An order-preserving number for a calendar date, used where the store
    compares dates. *)
Definition ordinal (d : Date) : Z :=
  ((year d * 12 + (month d - 1)) * 31 + (day d - 1))%Z.

Definition userRowField (k : string) (r : UserRow) : value :=
  let u := account r in
  if k =? "_id" then VId (user_id u)
  else if k =? "firstName" then VStr (firstName u)
  else if k =? "lastName" then VStr (lastName u)
  else if k =? "birthDate" then VDate (ordinal (birthDate u))
  else if k =? "email" then VStr (email u)
  else if k =? "password" then VStr (password u)
  else if k =? "role" then VStr (role u)
  else if k =? "favoriteFlats" then VIds (favoriteFlats u)
  else if k =? "addedFlats" then
    match addedFlats u with Some l => VIds l | None => VMissing end
  else if k =? "createdAt" then VDate (user_createdAt u)
  else if k =? "updatedAt" then VDate (user_updatedAt u)
  else if k =? "publishedFlatsCount" then
    VNum (inject_Z (Z.of_nat (publishedFlatsCount r)))
  else if k =? "age" then VNum (inject_Z (age r))
  else VMissing.

(** The age expression of the [$addFields] stage of [getAllUsers]
    (AdminController.js, lines 41-78): the difference of the years, less
    one when the birthday has not yet come this year. *)
Definition ageExpr (now birth : Date) : Z :=
  let birthYear := year birth in
  let birthMonth := month birth in
  let birthDay := day birth in
  let nowYear := year now in
  let nowMonth := month now in
  let nowDay := day now in
  ((nowYear - birthYear) -
   (if (nowMonth <? birthMonth) ||
       ((nowMonth =? birthMonth) && (nowDay <? birthDay))
    then 1 else 0))%Z.

Definition addFields (now : Date) (u : User) : UserRow :=
  {| account := u;
     publishedFlatsCount :=
       List.length (match addedFlats u with Some l => l | None => [] end);
     age := ageExpr now (birthDate u) |}.

Definition project (r : UserRow) : UserSummary :=
  let u := account r in
  {| summary_id := user_id u;
     summary_firstName := firstName u;
     summary_lastName := lastName u;
     summary_email := email u;
     summary_birthDate := birthDate u;
     summary_age := age r;
     summary_role := role u;
     summary_publishedFlatsCount := publishedFlatsCount r;
     summary_createdAt := user_createdAt u |}.

Definition isLeap (y : Z) : bool :=
  (((y mod 4 =? 0) && negb (y mod 100 =? 0)) || (y mod 400 =? 0))%Z.

Definition daysInMonth (y m : Z) : Z :=
  (if m =? 2 then (if isLeap y then 29 else 28)
   else if (m =? 4) || (m =? 6) || (m =? 9) || (m =? 11) then 30
   else 31)%Z.



(** [new Date(y, m - 1, d)] for a month and a day taken from today's date:
    [None] is an Invalid Date; a fractional year is truncated, a year from
    0 to 99 counts from 1900, and the 29th of February of a common year is
    the 1st of March.  (Years beyond the range of a Date are not told
    apart.) *)
Definition newDate (y : JS.num) (m d : Z) : option Date :=
  match y with
  | JS.NaN => None
  | JS.Num q =>
      let t := (if Qle_bool 0 q then Qfloor q else Qceiling q) in
      let y' := (if (0 <=? t) && (t <=? 99) then 1900 + t else t)%Z in
      if (daysInMonth y' m <? d)%Z
      then Some (mkDate y' (m + 1) (d - daysInMonth y' m))
      else Some (mkDate y' m d)
  end.

(** The first [$match] of [getAllUsers]: an optional role and an optional
    window of birth dates.  A bound of the window is [None] when it is an
    Invalid Date; the aggregation is taken to select nothing through such
    a window, and no answer shows it, because the count that follows
    refuses the window. *)
Record MatchStage : Type := mkMatchStage {
  match_role : option string;
  match_birthDate : option (option Date * option Date)
}.

Definition matchUser (m : MatchStage) (u : User) : bool :=
  match match_role m with
  | Some r => role u =? r
  | None => true
  end &&
  match match_birthDate m with
  | Some (Some minDate, Some maxDate) =>
      (ordinal minDate <=? ordinal (birthDate u))%Z &&
      (ordinal (birthDate u) <=? ordinal maxDate)%Z
  | Some _ => false
  | None => true
  end.

Definition defaultSort : sortSpec := [("createdAt", Desc)].

(** The parameters that are not filters. *)
Definition filtersOf (q : query) : query :=
  filter (fun p => negb ((fst p =? "page") || (fst p =? "limit")
                         || (fst p =? "sort"))) q.

(** The request for page [p] with the limit [L] added to a query. *)
Definition pageRequest (page limit : string) (q : query) : query :=
  ("page", page) :: ("limit", limit) :: q.

(** models/FlatModel.js, [flatSchema]: the paths that are declared as a
    string (with [trim: true] or without), as a number or as a boolean.
    Every other name is [None]: a path of another type ([_id], [owner],
    [messages], the timestamps, the version key), the nested [image], or a
    name that the schema does not declare. *)
Definition flatSchema (k : string) : option schemaType :=
  if k =? "adTitle" then Some (SString true)
  else if k =? "city" then Some (SString true)
  else if k =? "streetName" then Some (SString true)
  else if k =? "streetNumber" then Some SNumber
  else if k =? "areaSize" then Some SNumber
  else if k =? "hasAC" then Some SBoolean
  else if k =? "yearBuilt" then Some SNumber
  else if k =? "rentPrice" then Some SNumber
  else if k =? "dateAvailable" then Some SNumber
  else if k =? "image.url" then Some (SString false)
  else if k =? "image.public_id" then Some (SString false)
  else None.

(** A flat as the schema stores it: the setter [trim] has run over the
    three strings that have it. *)
Definition trimmed (f : Flat) : Prop :=
  JS.trim (adTitle f) = adTitle f /\
  JS.trim (city f) = city f /\
  JS.trim (streetName f) = streetName f.

(** A stored value of the type that the schema declares for its path; a
    string on a path with [trim] is trimmed. *)
Definition typed (t : schemaType) (v : value) : Prop :=
  match t, v with
  | SString trim, VStr s => trim = true -> JS.trim s = s
  | SNumber, VNum _ => True
  | SBoolean, VBool _ => True
  | _, _ => False
  end.

Section Engine.

(** [Number(s)] on a string. *)
Variable Number : string -> JS.num.
(** The store's regular-expression match under the option [i]. *)
Variable regexTest : string -> string -> bool.
(** The store's [$sort] in one request: a function of the order asked for
    and of the documents it is given.  The handlers add no key of their
    own to the order, so nothing makes the store leave documents that are
    level under it in the same order in two requests: two requests may be
    served by two such functions. *)
Variable sortDocs : forall A : Type, (A -> A -> comparison) -> list A -> list A.
(** [String(n)] on a finite number. *)
Variable numberToString : Q -> string.
(** The cast of a term on a name for which [flatSchema] is [None]: the
    flats that the term selects in a count, or the refusal of the term.
    What becomes of such a term depends on conversions that are not
    followed here (a text read as an identifier or as a date) and, for a
    name outside the schema, on the version of the model layer (whether
    [strictQuery] drops the term or keeps it as it is written). *)
Variable castElsewhere : string -> condition -> result (Flat -> bool).

(** [Number(x)] where [x] may be [undefined]. *)
Definition numberOf (x : option string) : JS.num :=
  match x with
  | Some s => Number s
  | None => JS.NaN
  end.

(** [isNaN(v) ? v : Number(v)] *)
Definition coerce (v : string) : literal :=
  match Number v with
  | JS.NaN => LStr v
  | JS.Num q => LNum q
  end.

(** The body of the loop of [getAllFlats] (FlatController.js, lines
    71-103): the filter term for one query parameter. *)
Definition filterTerm (key value : string) : condition :=
  if JS.includes "," value then
    CIn (map coerce (JS.split "," value))
  else if JS.includes "-" value then
    let segments := JS.split "-" value in
    CRange (numberOf (nth_error segments 0)) (numberOf (nth_error segments 1))
  else if key =? "city" then
    CRegex (JS.replaceRuns "[-\s]?" false value)
  else if (key =? "title") || (key =? "address") then
    CRegex value
  else if (value =? "true") || (value =? "false") then
    CEq (LBool (value =? "true"))
  else
    CEq (coerce value).

(** [for (const key in filters) { ... filter[key] = ... }].  The terms of
    a filter are a conjunction, so the order in which the loop visits the
    keys does not matter. *)
Definition buildFilter (filters : query) : filterDoc :=
  fold_left
    (fun filter p => JS.objSet (fst p) (filterTerm (fst p) (snd p)) filter)
    filters [].

(** The sort object built from [sort=field,-field,...]: a field named
    twice keeps its first place and takes its last direction.  (Field
    names that are array indices, which an object lists first, are left
    out.) *)
Definition parseSort (sort : string) : sortSpec :=
  fold_left
    (fun sortObj field =>
       let order := if JS.startsWith "-" field then Desc else Asc in
       let fieldName := JS.removeFirst "-" field in
       JS.objSet fieldName order sortObj)
    (JS.split "," sort) [].

Definition sortStage (sort : option string) : sortSpec :=
  match sort with
  | Some s => if s =? "" then defaultSort else parseSort s
  | None => defaultSort
  end.

(** [const { page = 1, limit = 100000 } = req.query], then [Number]. *)
Definition pageOf (q : query) : JS.num :=
  match JS.objGet "page" q with
  | Some s => Number s
  | None => JS.Num 1
  end.

Definition limitOf (q : query) : JS.num :=
  match JS.objGet "limit" q with
  | Some s => Number s
  | None => JS.Num 100000
  end.

Definition skipOf (q : query) : JS.num :=
  JS.mul (JS.sub (pageOf q) (JS.Num 1)) (limitOf q).

(** ** Flats *)

Definition matchFlats (db : Db) (filter : filterDoc) : list Flat :=
  match filter with
  | [] => Flats db
  | _ => List.filter (matches regexTest flatField filter) (Flats db)
  end.

Definition lookupOwner (db : Db) (f : Flat) : list OwnerInfo :=
  map (fun u => mkOwnerInfo (user_id u) (firstName u) (lastName u) (email u))
      (List.filter (fun u => user_id u =? owner f) (Users db)).

Definition unwindOwner (rows : list (Flat * list OwnerInfo)) : list ListedFlat :=
  flat_map (fun row => map (mkListedFlat (fst row)) (snd row)) rows.

(** Stages 1 to 5 of the pipeline of [getAllFlats]: the filtered, sorted
    flats with their owners, before any page is cut out. *)
Definition allListedFlats (db : Db) (filter : filterDoc) (sortObj : sortSpec)
  : list ListedFlat :=
  let matched := matchFlats db filter in
  let sorted := sortDocs Flat (compareBy flatField sortObj) matched in
  unwindOwner (map (fun f => (f, lookupOwner db f)) sorted).

(** [Flat.aggregate(pipeline)] *)
Definition aggregateFlats (db : Db) (filter : filterDoc) (sortObj : sortSpec)
           (skip limit : JS.num) : result (list ListedFlat) :=
  bind (skipStage skip (allListedFlats db filter sortObj))
       (fun skipped => limitStage limit skipped).

(** The cast of one term of a filter on flats: what the term selects
    once it is cast. *)
Definition castTerm (k : string) (c : condition) : result (Flat -> bool) :=
  match flatSchema k with
  | Some t =>
      bind (castForQuery Number numberToString t c)
           (fun c' => Ok (fun f => holdsCast regexTest c' (flatField k f)))
  | None => castElsewhere k c
  end.

(** The cast of a filter: every term is cast, and one term that is refused
    makes the whole cast throw. *)
Fixpoint castFilter (filter : filterDoc) : result (Flat -> bool) :=
  match filter with
  | [] => Ok (fun _ => true)
  | (k, c) :: rest =>
      bind (castTerm k c)
           (fun term =>
              bind (castFilter rest)
                   (fun others => Ok (fun f => term f && others f)))
  end.

(** [Flat.countDocuments(filter)]: the filter is cast, and the flats that
    the cast filter selects are counted. *)
Definition countFlats (db : Db) (filter : filterDoc) : result nat :=
  bind (castFilter filter)
       (fun selects => Ok (List.length (List.filter selects (Flats db)))).

(** [exports.getAllFlats]: the aggregation runs first, then the count;
    what either of them throws is caught and answered with 500. *)
Definition getAllFlats (db : Db) (q : query) : response ListedFlat :=
  let filter := buildFilter (filtersOf q) in
  let sortObj := sortStage (JS.objGet "sort" q) in
  match aggregateFlats db filter sortObj (skipOf q) (limitOf q) with
  | Ok flats =>
      match countFlats db filter with
      | Ok totalCount =>
          Page 200 (pageOf q) (limitOf q) totalCount (List.length flats) flats
      | Throw _ => Failed 500 "Error fetching flats"
      end
  | Throw _ => Failed 500 "Error fetching flats"
  end.

(** ** Users *)

(** [filters.role] and [filters.age] (AdminController.js, lines 15-29);
    a parameter counts when it is a non-empty string. *)
Definition buildMatchStage (now : Date) (filters : query) : MatchStage :=
  {| match_role :=
       match JS.objGet "role" filters with
       | Some r => if r =? "" then None else Some r
       | None => None
       end;
     match_birthDate :=
       match JS.objGet "age" filters with
       | Some a =>
           if a =? "" then None
           else
             let bounds := map Number (JS.split "-" a) in
             let min := nth 0 bounds JS.NaN in
             let max := nth 1 bounds JS.NaN in
             let minDate :=
               newDate (JS.sub (JS.Num (inject_Z (year now))) max)
                       (month now) (day now) in
             let maxDate :=
               newDate (JS.sub (JS.Num (inject_Z (year now))) min)
                       (month now) (day now) in
             Some (minDate, maxDate)
       | None => None
       end |}.

(** The optional second [$match], on [publishedFlatsCount]. *)
Definition flatsCountStage (filters : query) : filterDoc :=
  match JS.objGet "flatsCount" filters with
  | Some c =>
      if c =? "" then []
      else
        let bounds := map Number (JS.split "-" c) in
        [("publishedFlatsCount",
          CRange (nth 0 bounds JS.NaN) (nth 1 bounds JS.NaN))]
  | None => []
  end.

(** The pipeline of [getAllUsers] before [$sort]: the first [$match],
    [$addFields], and the second [$match] when there is one. *)
Definition selectedUserRows (now : Date) (db : Db) (filters : query)
  : list UserRow :=
  let matched := List.filter (matchUser (buildMatchStage now filters)) (Users db) in
  let rows := map (addFields now) matched in
  List.filter (matches regexTest userRowField (flatsCountStage filters)) rows.

(** The pipeline of [getAllUsers] up to and including [$sort]. *)
Definition allUserRows (now : Date) (db : Db) (filters : query)
           (sortObj : sortSpec) : list UserRow :=
  sortDocs UserRow (compareBy userRowField sortObj)
           (selectedUserRows now db filters).

(** [User.aggregate(pipeline)] *)
Definition aggregateUsers (now : Date) (db : Db) (filters : query)
           (sortObj : sortSpec) (skip limit : JS.num)
  : result (list UserSummary) :=
  bind (skipStage skip (allUserRows now db filters sortObj))
       (fun skipped =>
          bind (limitStage limit skipped)
               (fun page => Ok (map project page))).

(** The cast of the first match stage against [userSchema]: [role] is a
    string on a path without setters and stays as it is; the two bounds
    on [birthDate] are dates already, and the cast to a date refuses an
    Invalid Date. *)
Definition castMatchStage (m : MatchStage) : result MatchStage :=
  match match_birthDate m with
  | Some (Some _, Some _) | None => Ok m
  | Some _ => Throw "Cast to date failed"
  end.

(** [User.countDocuments(matchStage)] *)
Definition countUsers (db : Db) (m : MatchStage) : result nat :=
  bind (castMatchStage m)
       (fun m' => Ok (List.length (List.filter (matchUser m') (Users db)))).

(** [exports.getAllUsers]: the aggregation runs first, then the count;
    what either of them throws is caught and answered with 500. *)
Definition getAllUsers (now : Date) (db : Db) (q : query)
  : response UserSummary :=
  let filters := filtersOf q in
  let sortObj := sortStage (JS.objGet "sort" q) in
  match aggregateUsers now db filters sortObj (skipOf q) (limitOf q) with
  | Ok users =>
      match countUsers db (buildMatchStage now filters) with
      | Ok totalCount =>
          Page 200 (pageOf q) (limitOf q) totalCount (List.length users) users
      | Throw _ => Failed 500 "Error retrieving users"
      end
  | Throw _ => Failed 500 "Error retrieving users"
  end.

End Engine.

End Listing.

(* ================================================================== *)
(** * Handlers that read or write single documents                     *)
(* ================================================================== *)

Module Api.
Import Store.
Import Listing.

(** The calls a handler makes on the store, in the order it makes them. *)
Inductive storeCall : Type :=
| FlatFindById (id : string)
| UserFindById (id : string)
| MessageCreate (flat sender : string)
| FlatPushMessage (flat message : string)
| UserCreate (email : option string).

Record World : Type := mkWorld {
  db : Db;
  calls : list storeCall
}.

(** A computation that may call the store and may throw. *)
Definition M (A : Type) : Type := World -> result A * World.

Definition ret {A : Type} (a : A) : M A := fun w => (Ok a, w).

Definition throw {A : Type} (e : string) : M A := fun w => (Throw e, w).

Definition mbind {A B : Type} (m : M A) (k : A -> M B) : M B :=
  fun w =>
    match m w with
    | (Ok a, w') => k a w'
    | (Throw e, w') => (Throw e, w')
    end.

Notation "x <- m ;; k" := (mbind m (fun x => k))
  (at level 61, m at next level, right associativity).

Definition call (c : storeCall) : M unit :=
  fun w => (Ok tt, mkWorld (db w) (calls w ++ [c])).

Definition getDb : M Db := fun w => (Ok (db w), w).

Definition putDb (d : Db) : M unit := fun w => (Ok tt, mkWorld d (calls w)).

(** What a handler sends back. *)
Inductive response (A : Type) : Type :=
| Success (status : nat) (data : A)
| Failed (status : nat) (message : string).
Arguments Success {A} status data.
Arguments Failed {A} status message.

Definition statusOf {A : Type} (r : response A) : nat :=
  match r with
  | Success s _ => s
  | Failed s _ => s
  end.

(** [try { body } catch (error) { handler(error) }] around a whole
    handler: what was written to the store before the throw stays. *)
Definition tryCatch {A : Type} (body : M (response A))
           (handler : string -> response A) : World -> response A * World :=
  fun w =>
    match body w with
    | (Ok r, w') => (r, w')
    | (Throw e, w') => (handler e, w')
    end.

(** A flat with [owner] and [messages] populated. *)
Record PopulatedFlat : Type := mkPopulatedFlat {
  populated : Flat;
  populatedOwner : option OwnerInfo;
  populatedMessages : list Message
}.

(** A document is looked up by the identifier as the request writes it.
    The store compares identifiers, not their texts: it reads a text in
    capital letters as the identifier that it prints in small letters.
    The lookup below is that of the store for the identifiers that are
    written as the store prints them ([Documents.printed]). *)
Definition findFlat (d : Db) (id : string) : option Flat :=
  find (fun f => flat_id f =? id) (Flats d).

Definition findUser (d : Db) (id : string) : option User :=
  find (fun u => user_id u =? id) (Users d).

Definition populateFlat (d : Db) (f : Flat) : PopulatedFlat :=
  {| populated := f;
     populatedOwner :=
       option_map
         (fun u => mkOwnerInfo (user_id u) (firstName u) (lastName u) (email u))
         (findUser d (owner f));
     populatedMessages :=
       flat_map
         (fun id =>
            match find (fun m => message_id m =? id) (Messages d) with
            | Some m => [m]
            | None => []
            end)
         (messages f) |}.

Definition pushMessage (flat message : string) (f : Flat) (now : Z) : Flat :=
  if flat_id f =? flat then
    mkFlat (flat_id f) (adTitle f) (city f) (streetName f) (streetNumber f)
           (areaSize f) (hasAC f) (yearBuilt f) (rentPrice f) (dateAvailable f)
           (image f) (owner f) (messages f ++ [message])
           (flat_createdAt f) now
  else f.

Section Identifiers.

(** The identifier format of the store: [mongoose.Types.ObjectId.isValid],
    which is also what the store's own cast of an identifier accepts. *)
Variable isValid : string -> bool.

(** [Flat.findById(id)]: the store casts the identifier and throws a
    cast error when it has not the format. *)
Definition Flat_findById (id : string) : M (option Flat) :=
  _ <- call (FlatFindById id) ;;
  if isValid id then d <- getDb ;; ret (findFlat d id)
  else throw "CastError".

(** [User.findById(id)] *)
Definition User_findById (id : string) : M (option User) :=
  _ <- call (UserFindById id) ;;
  if isValid id then d <- getDb ;; ret (findUser d id)
  else throw "CastError".

(** [exports.getFlatById] (FlatController.js) *)
Definition getFlatById (flatId : string) : World -> response PopulatedFlat * World :=
  tryCatch
    (if negb (isValid flatId) then
       ret (Failed 400 "Invalid flat ID format")
     else
       flat <- Flat_findById flatId ;;
       match flat with
       | None => ret (Failed 404 "Flat not found")
       | Some f => d <- getDb ;; ret (Success 200 (populateFlat d f))
       end)
    (fun _ => Failed 500 "Error retrieving flat details").

(** [exports.getUserById] (AdminController.js) *)
Definition getUserById (id : string) : World -> response User * World :=
  tryCatch
    (user <- User_findById id ;;
     match user with
     | None => ret (Failed 404 "User not found")
     | Some u => ret (Success 200 u)
     end)
    (fun _ => Failed 500 "Error retrieving user").

(** [Message.create({ content, flatId, senderId })] with the validation
    of [messageSchema]: the content is trimmed, must not be empty and
    must not exceed 1000 characters.  [newId] and [now] are the
    identifier and the time stamp the store gives the document. *)
Definition Message_create (newId : ObjectId) (now : Z)
           (content : option string) (flat sender : string) : M Message :=
  _ <- call (MessageCreate flat sender) ;;
  match content with
  | None => throw "ValidationError"
  | Some c =>
      let c' := JS.trim c in
      if (c' =? "") || (1000 <? String.length c')%nat || negb (isValid flat)
      then throw "ValidationError"
      else
        let message := mkMessage newId c' flat sender now in
        d <- getDb ;;
        _ <- putDb (mkDb (Flats d) (Users d) (Messages d ++ [message])) ;;
        ret message
  end.

(** [Flat.findByIdAndUpdate(flatId, { $push: { messages: id } })] *)
Definition Flat_pushMessage (now : Z) (flat message : string) : M unit :=
  _ <- call (FlatPushMessage flat message) ;;
  if isValid flat then
    d <- getDb ;;
    putDb (mkDb (map (fun f => pushMessage flat message f now) (Flats d))
                (Users d) (Messages d))
  else throw "CastError".

(** [exports.addMessage] (MessageController.js); [sender] is
    [req.currentUser._id], set by the [protect] middleware of the
    route. *)
Definition addMessage (newId : ObjectId) (now : Z) (flatId : string)
           (sender : ObjectId) (content : option string)
  : World -> response Message * World :=
  tryCatch
    (flat <- Flat_findById flatId ;;
     match flat with
     | None => ret (Failed 404 "Flat not found")
     | Some f =>
         if owner f =? sender then
           ret (Failed 403 "Owners cannot send messages to their own flats")
         else
           message <- Message_create newId now content flatId sender ;;
           _ <- Flat_pushMessage now flatId (message_id message) ;;
           ret (Success 201 message)
     end)
    (fun _ => Failed 500 "Server error while sending message").

End Identifiers.

End Api.

(* ================================================================== *)
(** * Accounts: the user schema and registration                       *)
(* ================================================================== *)

Module Account.
Import Store.
Import Listing.
Import Api.

(** [req.body] of a registration: every path of the schema that the
    client may send; [None] is an absent property. *)
Record Body : Type := mkBody {
  body_firstName : option string;
  body_lastName : option string;
  body_birthDate : option Date;
  body_email : option string;
  body_password : option string;
  body_role : option string;
  body_favoriteFlats : option (list ObjectId);
  body_addedFlats : option (list ObjectId)
}.

(** A user document in memory: its paths, whether it is new, and the
    paths that were set since it was built or loaded. *)
Record UserDoc : Type := mkUserDoc {
  doc_id : ObjectId;
  doc_firstName : option string;
  doc_lastName : option string;
  doc_birthDate : option Date;
  doc_email : option string;
  doc_password : option string;
  doc_role : string;
  doc_favoriteFlats : list ObjectId;
  doc_addedFlats : list ObjectId;
  isNew : bool;
  modifiedPaths : list string
}.

Definition isModified (path : string) (doc : UserDoc) : bool :=
  existsb (String.eqb path) (modifiedPaths doc).

Definition present {A : Type} (path : string) (x : option A) : list string :=
  match x with
  | Some _ => [path]
  | None => []
  end.

(** [new User(body)]: the setters of the schema ([trim], [lowercase]) are
    applied, [role] takes its default when absent, and each path the body
    gives is marked as modified. *)
Definition newUser (newId : ObjectId) (body : Body) : UserDoc :=
  {| doc_id := newId;
     doc_firstName := option_map JS.trim (body_firstName body);
     doc_lastName := option_map JS.trim (body_lastName body);
     doc_birthDate := body_birthDate body;
     doc_email :=
       option_map (fun e => JS.trim (JS.toLowerCase e)) (body_email body);
     doc_password := option_map JS.trim (body_password body);
     doc_role :=
       match body_role body with
       | Some r => r
       | None => "user"
       end;
     doc_favoriteFlats :=
       match body_favoriteFlats body with Some l => l | None => [] end;
     doc_addedFlats :=
       match body_addedFlats body with Some l => l | None => [] end;
     isNew := true;
     modifiedPaths :=
       present "firstName" (body_firstName body) ++
       present "lastName" (body_lastName body) ++
       present "birthDate" (body_birthDate body) ++
       present "email" (body_email body) ++
       present "password" (body_password body) ++
       present "role" (body_role body) ++
       present "favoriteFlats" (body_favoriteFlats body) ++
       present "addedFlats" (body_addedFlats body) |}.

(** The age computed by the validator of [birthDate] (UserModel.js, lines
    46-51).  [getMonth] counts the months from 0. *)
Definition validatorAge (today dob : Date) : Z :=
  let getFullYear (d : Date) := year d in
  let getMonth (d : Date) := (month d - 1)%Z in
  let getDate (d : Date) := day d in
  let age := (getFullYear today - getFullYear dob)%Z in
  let monthDiff := (getMonth today - getMonth dob)%Z in
  if ((monthDiff <? 0) ||
      ((monthDiff =? 0) && (getDate today <? getDate dob)))%Z
  then (age - 1)%Z
  else age.

Section Schema.

(** The pattern of the name validators, the check [validator.isEmail],
    the pattern of the password validator, and [bcrypt.hash]. *)
Variable nameOk : string -> bool.
Variable isEmail : string -> bool.
Variable passwordOk : string -> bool.
Variable bcryptHash : string -> nat -> string.

Definition required (x : option string) : bool :=
  match x with
  | Some s => negb (s =? "")
  | None => false
  end.

Definition validName (x : option string) : bool :=
  match x with
  | Some s =>
      negb (s =? "") && (2 <=? String.length s)%nat
      && (String.length s <=? 50)%nat && nameOk s
  | None => false
  end.

(** The validator of [birthDate]: it only runs on a new document or when
    the path was modified. *)
Definition validBirthDate (today : Date) (doc : UserDoc) : bool :=
  match doc_birthDate doc with
  | None => false
  | Some dob =>
      if negb (isNew doc) && negb (isModified "birthDate" doc) then true
      else
        let age := validatorAge today dob in
        negb (age <? 18)%Z && negb (120 <? age)%Z
  end.

(** [doc.validate()] against [userSchema]. *)
Definition validate (today : Date) (doc : UserDoc) : bool :=
  validName (doc_firstName doc)
  && validName (doc_lastName doc)
  && validBirthDate today doc
  && match doc_email doc with
     | Some e => negb (e =? "") && isEmail e
     | None => false
     end
  && match doc_password doc with
     | Some p =>
         negb (p =? "") && negb (String.length p <? 6)%nat && passwordOk p
     | None => false
     end
  && ((doc_role doc =? "user") || (doc_role doc =? "admin")).

(** [userSchema.pre('save', ...)] (UserModel.js, lines 121-137). *)
Definition preSave (doc : UserDoc) : UserDoc :=
  if negb (isModified "password" doc) then doc
  else
    let hashed := option_map (fun p => bcryptHash p 12) (doc_password doc) in
    mkUserDoc (doc_id doc) (doc_firstName doc) (doc_lastName doc)
              (doc_birthDate doc) (doc_email doc) hashed
              (if isNew doc then "user" else doc_role doc)
              (doc_favoriteFlats doc) (doc_addedFlats doc)
              (isNew doc) (modifiedPaths doc).

(** The stored form of a document whose required paths are present. *)
Definition stored (now : Z) (doc : UserDoc) : option User :=
  match doc_firstName doc, doc_lastName doc, doc_birthDate doc,
        doc_email doc, doc_password doc with
  | Some first, Some last, Some dob, Some mail, Some pass =>
      Some {| user_id := doc_id doc;
              firstName := first;
              lastName := last;
              birthDate := dob;
              email := mail;
              password := pass;
              role := doc_role doc;
              favoriteFlats := doc_favoriteFlats doc;
              addedFlats := Some (doc_addedFlats doc);
              user_createdAt := now;
              user_updatedAt := now |}
  | _, _, _, _, _ => None
  end.

(** [doc.save()] of a new document: validation first, then the pre-save
    hook, then the insertion, which the unique index on [email] may
    refuse. *)
Definition save (now : Z) (today : Date) (doc : UserDoc) : M User :=
  _ <- call (UserCreate (doc_email doc)) ;;
  if negb (validate today doc) then throw "ValidationError"
  else
    match stored now (preSave doc) with
    | None => throw "ValidationError"
    | Some user =>
        d <- getDb ;;
        if existsb (fun u => email u =? email user) (Users d)
        then throw "E11000"
        else
          _ <- putDb (mkDb (Flats d) (Users d ++ [user]) (Messages d)) ;;
          ret user
    end.

(** [User.create(body)] *)
Definition User_create (newId : ObjectId) (now : Z) (today : Date)
           (body : Body) : M User :=
  save now today (newUser newId body).

Definition withoutPassword (u : User) : User :=
  mkUser (user_id u) (firstName u) (lastName u) (birthDate u) (email u)
         "" (role u) (favoriteFlats u) (addedFlats u)
         (user_createdAt u) (user_updatedAt u).

(** [exports.register] (AuthController.js) *)
Definition register (newId : ObjectId) (now : Z) (today : Date)
           (body : Body) : World -> response User * World :=
  tryCatch
    (newUser <- User_create newId now today body ;;
     ret (Success 200 (withoutPassword newUser)))
    (fun error =>
       if error =? "ValidationError" then Failed 400 "Validation error"
       else if error =? "E11000" then Failed 400 "Email already exists"
       else Failed 500 "Error adding user").

End Schema.

End Account.

(* ================================================================== *)
(** * Concrete collaborators and sample data                           *)
(* ================================================================== *)

Module Sample.
Import Store.
Import Listing.

(** ** A [Number] for the examples

    It agrees with [Number] on the empty string (0), on strings of decimal
    digits and on words that are not numeric literals, which is all the
    examples feed it. *)
Definition digitValue (c : ascii) : option Z :=
  let n := nat_of_ascii c in
  if (48 <=? n)%nat && (n <=? 57)%nat then Some (Z.of_nat (n - 48)) else None.

Fixpoint digitsFrom (acc : Z) (s : string) : option Z :=
  match s with
  | EmptyString => Some acc
  | String c s' =>
      match digitValue c with
      | Some d => digitsFrom (acc * 10 + d)%Z s'
      | None => None
      end
  end.

Definition digitsNumber (s : string) : JS.num :=
  match digitsFrom 0 s with
  | Some z => JS.Num (inject_Z z)
  | None => JS.NaN
  end.

(** ** A [String] for the examples

    It agrees with [String] on the whole numbers, which is all the
    examples feed it. *)
Definition wholeNumberString (q : Q) : string :=
  DecimalString.NilZero.string_of_int (Z.to_int (Qfloor q)).

(** ** A regular-expression engine for the patterns of the city filter

    A pattern is a sequence of literal characters and of the optional
    class [[-\s]?] that [getAllFlats] writes; a pattern with any other
    metacharacter is outside this engine and matches nothing. *)
Inductive atom : Type :=
| Lit (c : ascii)
| OptDashOrSpace.

Definition isMeta (c : ascii) : bool :=
  existsb (Ascii.eqb c)
          ["."; "*"; "+"; "?"; "("; ")"; "["; "]"; "{"; "}"; "^"; "$"; "|"; "\"]%char.

Fixpoint parsePattern (p : string) : option (list atom) :=
  match p with
  | EmptyString => Some []
  | String "[" (String "-" (String "\" (String "s" (String "]" (String "?" rest))))) =>
      option_map (cons OptDashOrSpace) (parsePattern rest)
  | String c rest =>
      if isMeta c then None else option_map (cons (Lit c)) (parsePattern rest)
  end.

Definition sameLetter (c d : ascii) : bool :=
  Ascii.eqb (JS.lowerChar c) (JS.lowerChar d).

Fixpoint matchHere (atoms : list atom) (s : string) : bool :=
  match atoms with
  | [] => true
  | Lit c :: rest =>
      match s with
      | String d s' => sameLetter c d && matchHere rest s'
      | EmptyString => false
      end
  | OptDashOrSpace :: rest =>
      match s with
      | String d s' => JS.isDashOrSpace d && matchHere rest s'
      | EmptyString => false
      end
      || matchHere rest s
  end.

Fixpoint searchFrom (atoms : list atom) (s : string) : bool :=
  matchHere atoms s ||
  match s with
  | EmptyString => false
  | String _ s' => searchFrom atoms s'
  end.

Definition cityRegexTest (pattern subject : string) : bool :=
  match parsePattern pattern with
  | Some atoms => searchFrom atoms subject
  | None => false
  end.

(** ** A cast for the names outside [flatSchema]

    The term is kept as it is written, which is what the model layer does
    with a name that the schema does not declare when [strictQuery] is
    off.  The examples put no filter on an identifier, a date or an
    array. *)
Definition keepAsWritten (k : string) (c : condition) : result (Flat -> bool) :=
  Ok (fun f => holds cityRegexTest c (flatField k f)).

(** ** A sort that meets the promise of [$sort]

    [insertionSort] keeps equal keys in the order of its input. *)
Fixpoint insert {A : Type} (cmp : A -> A -> comparison) (x : A) (l : list A)
  : list A :=
  match l with
  | [] => [x]
  | y :: l' =>
      match cmp x y with
      | Gt => y :: insert cmp x l'
      | _ => x :: l
      end
  end.

Definition insertionSort (A : Type) (cmp : A -> A -> comparison) (l : list A)
  : list A :=
  fold_right (insert cmp) [] l.

(** ** An identifier format: 24 hexadecimal digits *)
Definition isHex (c : ascii) : bool :=
  let n := nat_of_ascii c in
  ((48 <=? n) && (n <=? 57))%nat || ((97 <=? n) && (n <=? 102))%nat
  || ((65 <=? n) && (n <=? 70))%nat.

Fixpoint allHex (s : string) : bool :=
  match s with
  | EmptyString => true
  | String c s' => isHex c && allHex s'
  end.

Definition hex24 (s : string) : bool :=
  (String.length s =? 24)%nat && allHex s.

(** ** Validators for the examples of registration *)
Fixpoint allChars (p : ascii -> bool) (s : string) : bool :=
  match s with
  | EmptyString => true
  | String c s' => p c && allChars p s'
  end.

Fixpoint anyChar (p : ascii -> bool) (s : string) : bool :=
  match s with
  | EmptyString => false
  | String c s' => p c || anyChar p s'
  end.

Definition isLetter (c : ascii) : bool :=
  let n := nat_of_ascii (JS.lowerChar c) in ((97 <=? n) && (n <=? 122))%nat.

Definition isDigit (c : ascii) : bool :=
  let n := nat_of_ascii c in ((48 <=? n) && (n <=? 57))%nat.

Definition asciiNameOk (s : string) : bool :=
  negb (s =? "")
  && allChars (fun c => isLetter c || Ascii.eqb c " " || Ascii.eqb c "-") s.

Definition asciiIsEmail (s : string) : bool :=
  JS.includes "@" s && JS.includes "." s && negb (JS.includes " " s).

Definition asciiPasswordOk (s : string) : bool :=
  anyChar isLetter s && anyChar isDigit s
  && anyChar (fun c => negb (isLetter c || isDigit c)) s
  && (6 <=? String.length s)%nat.

Definition plainHash (p : string) (rounds : nat) : string := "$2a$12$" ++ p.

(** ** Sample documents *)
Definition ana : User :=
  {| user_id := "64b000000000000000000001";
     firstName := "Ana"; lastName := "Pop";
     birthDate := mkDate 1990 5 17;
     email := "ana@example.com"; password := "$2a$12$x";
     role := "user"; favoriteFlats := [];
     addedFlats := Some ["64c000000000000000000001"; "64c000000000000000000002"];
     user_createdAt := 1000; user_updatedAt := 1000 |}.

Definition dan : User :=
  {| user_id := "64b000000000000000000002";
     firstName := "Dan"; lastName := "Rus";
     birthDate := mkDate 1985 11 2;
     email := "dan@example.com"; password := "$2a$12$y";
     role := "admin"; favoriteFlats := [];
     addedFlats := Some [];
     user_createdAt := 2000; user_updatedAt := 2000 |}.

Definition flatIn (id title town : string) (rent : Z) (created : Z) : Flat :=
  {| flat_id := id; adTitle := title; city := town;
     streetName := "Unirii"; streetNumber := inject_Z 1;
     areaSize := inject_Z 50; hasAC := true; yearBuilt := inject_Z 2000;
     rentPrice := inject_Z rent; dateAvailable := inject_Z 1767225600000;
     image := mkImage "https://img/1" "img1";
     owner := "64b000000000000000000001"; messages := [];
     flat_createdAt := created; flat_updatedAt := created |}.

Definition albaFlat : Flat :=
  flatIn "64c000000000000000000001" "Central studio" "Alba-Iulia" 350 10.

Definition clujFlat : Flat :=
  flatIn "64c000000000000000000002" "Sunny loft" "Cluj" 350 20.

Definition sampleDb : Db :=
  {| Flats := [albaFlat; clujFlat]; Users := [ana; dan]; Messages := [] |}.

Definition anaInfo : OwnerInfo :=
  mkOwnerInfo "64b000000000000000000001" "Ana" "Pop" "ana@example.com".

Definition today : Date := mkDate 2026 11 2.

(** [sortNearlySorted] is another sort that meets the promise of [$sort]:
    like many library sorts it first looks whether its input runs
    downwards, and if so starts from the reversed input. *)
Definition sortNearlySorted (A : Type) (cmp : A -> A -> comparison)
           (l : list A) : list A :=
  match l with
  | [] => []
  | x :: _ =>
      match cmp x (last l x) with
      | Gt => insertionSort A cmp (rev l)
      | _ => insertionSort A cmp l
      end
  end.

(** [sortFromTheEnd] meets the promise too: it reads its input from the
    end, as a scan of an index in the other direction does, so that
    documents with equal keys come out in the opposite order. *)
Definition sortFromTheEnd (A : Type) (cmp : A -> A -> comparison)
           (l : list A) : list A :=
  insertionSort A cmp (rev l).

Definition iasiFlat : Flat :=
  flatIn "64c000000000000000000003" "Old town flat" "Iasi" 600 30.

Definition threeFlats : Db :=
  {| Flats := [albaFlat; clujFlat; iasiFlat]; Users := [ana; dan];
     Messages := [] |}.

Definition withMessages (f : Flat) (ids : list ObjectId) : Flat :=
  mkFlat (flat_id f) (adTitle f) (city f) (streetName f) (streetNumber f)
         (areaSize f) (hasAC f) (yearBuilt f) (rentPrice f) (dateAvailable f)
         (image f) (owner f) ids (flat_createdAt f) (flat_updatedAt f).

(** Two flats with messages: the identifiers 1 and 9 on the first, the
    identifier 5 on the second. *)
Definition flatsWithMessages : Db :=
  {| Flats :=
       [withMessages albaFlat ["64e000000000000000000001";
                               "64e000000000000000000009"];
        withMessages iasiFlat ["64e000000000000000000005"]];
     Users := [ana; dan];
     Messages := [] |}.

(** The decimal form of a page number below 10. *)
Definition pageLabel (p : nat) : string :=
  String (ascii_of_nat (48 + p)) EmptyString.

End Sample.

(* ================================================================== *)
(** * Documents loaded from the store, and the other store operations  *)
(* ================================================================== *)

Module Documents.
Import Store.
Import Listing.
Import Api.
Import Account.

(** The operations of this module read and write the collections; the
    log of calls keeps recording the look-ups by identifier only. *)

(** The document [User.findById] hands out: it is not new and none of its
    paths is modified.  An array path the stored record lacks reads as the
    empty array. *)
Definition load (u : User) : UserDoc :=
  {| doc_id := user_id u;
     doc_firstName := Some (firstName u);
     doc_lastName := Some (lastName u);
     doc_birthDate := Some (birthDate u);
     doc_email := Some (email u);
     doc_password := Some (password u);
     doc_role := role u;
     doc_favoriteFlats := favoriteFlats u;
     doc_addedFlats := match addedFlats u with Some l => l | None => [] end;
     isNew := false;
     modifiedPaths := [] |}.

(** [doc.markModified(path)] *)
Definition markModified (path : string) (doc : UserDoc) : UserDoc :=
  mkUserDoc (doc_id doc) (doc_firstName doc) (doc_lastName doc)
            (doc_birthDate doc) (doc_email doc) (doc_password doc)
            (doc_role doc) (doc_favoriteFlats doc) (doc_addedFlats doc)
            (isNew doc)
            (if isModified path doc then modifiedPaths doc
             else modifiedPaths doc ++ [path]).

(** [user.favoriteFlats.push(id)] and [user.favoriteFlats.splice(i, 1)]
    change the array of the document and mark its path. *)
Definition setFavoriteFlats (l : list ObjectId) (doc : UserDoc) : UserDoc :=
  markModified "favoriteFlats"
    (mkUserDoc (doc_id doc) (doc_firstName doc) (doc_lastName doc)
               (doc_birthDate doc) (doc_email doc) (doc_password doc)
               (doc_role doc) l (doc_addedFlats doc)
               (isNew doc) (modifiedPaths doc)).

(** [user.role = r]: a path that is given the value it has is not
    marked. *)
Definition setRole (r : string) (doc : UserDoc) : UserDoc :=
  if doc_role doc =? r then doc
  else
    markModified "role"
      (mkUserDoc (doc_id doc) (doc_firstName doc) (doc_lastName doc)
                 (doc_birthDate doc) (doc_email doc) (doc_password doc)
                 r (doc_favoriteFlats doc) (doc_addedFlats doc)
                 (isNew doc) (modifiedPaths doc)).

Definition orElse {A : Type} (x : option A) (d : A) : A :=
  match x with
  | Some a => a
  | None => d
  end.

(** The record after [save] of a loaded document: the modified paths are
    written, the others stay, and [updatedAt] is set. *)
Definition written (now : Z) (u : User) (doc : UserDoc) : User :=
  let pick (A : Type) (path : string) (new old : A) : A :=
    if isModified path doc then new else old in
  {| user_id := user_id u;
     firstName :=
       pick string "firstName" (orElse (doc_firstName doc) (firstName u))
            (firstName u);
     lastName :=
       pick string "lastName" (orElse (doc_lastName doc) (lastName u))
            (lastName u);
     birthDate :=
       pick Date "birthDate" (orElse (doc_birthDate doc) (birthDate u))
            (birthDate u);
     email :=
       pick string "email" (orElse (doc_email doc) (email u)) (email u);
     password :=
       pick string "password" (orElse (doc_password doc) (password u))
            (password u);
     role := pick string "role" (doc_role doc) (role u);
     favoriteFlats :=
       pick (list ObjectId) "favoriteFlats" (doc_favoriteFlats doc)
            (favoriteFlats u);
     addedFlats :=
       pick (option (list ObjectId)) "addedFlats"
            (Some (doc_addedFlats doc)) (addedFlats u);
     user_createdAt := user_createdAt u;
     user_updatedAt := now |}.

(** The collection after the update of the record of that identifier. *)
Definition replaceUser (u' : User) (users : list User) : list User :=
  map (fun v => if user_id v =? user_id u' then u' else v) users.

Section Saving.

Variable nameOk : string -> bool.
Variable isEmail : string -> bool.
Variable passwordOk : string -> bool.
Variable bcryptHash : string -> nat -> string.

(** [doc.save()] of a loaded document [doc] of the record [u]:
    validation, the pre-save hook, and the update of the record when a
    path was modified, which the unique index on [email] may refuse. *)
Definition saveLoaded (now : Z) (today : Date) (u : User) (doc : UserDoc)
  : M User :=
  if negb (validate nameOk isEmail passwordOk today doc)
  then throw "ValidationError"
  else
    let doc' := preSave bcryptHash doc in
    match modifiedPaths doc' with
    | [] => ret u
    | _ :: _ =>
        d <- getDb ;;
        let u' := written now u doc' in
        if isModified "email" doc'
           && existsb (fun v => (email v =? email u')
                                && negb (user_id v =? user_id u))
                      (Users d)
        then throw "E11000"
        else
          _ <- putDb (mkDb (Flats d) (replaceUser u' (Users d)) (Messages d)) ;;
          ret u'
    end.

End Saving.

(** An identifier written as the store prints it: 24 digits, the letters
    among them in lower case.  The records hold their identifiers in this
    form, and an identifier that a request carries is compared with them
    as it is written. *)
Definition printed (id : string) : Prop :=
  String.length id = 24 /\ JS.toLowerCase id = id.

(** [array.includes(x)], [array.indexOf(x)] and [array.splice(i, 1)] *)
Definition includes (x : ObjectId) (l : list ObjectId) : bool :=
  existsb (String.eqb x) l.

Fixpoint indexOf (x : ObjectId) (l : list ObjectId) : option nat :=
  match l with
  | [] => None
  | y :: l' =>
      if y =? x then Some 0
      else option_map S (indexOf x l')
  end.

Fixpoint splice1 (i : nat) (l : list ObjectId) {struct l} : list ObjectId :=
  match l, i with
  | [], _ => []
  | _ :: l', 0 => l'
  | y :: l', S i' => y :: splice1 i' l'
  end.

(** [$pull]: every occurrence of the value leaves the array. *)
Definition pull (x : ObjectId) (l : list ObjectId) : list ObjectId :=
  List.filter (fun y => negb (y =? x)) l.

(** [Message.deleteMany({ flatId })] and [Message.deleteMany({ senderId })] *)
Definition Message_deleteMany_flatId (flat : ObjectId) : M unit :=
  d <- getDb ;;
  putDb (mkDb (Flats d) (Users d)
              (List.filter (fun m => negb (flatId m =? flat)) (Messages d))).

Definition Message_deleteMany_senderId (sender : ObjectId) : M unit :=
  d <- getDb ;;
  putDb (mkDb (Flats d) (Users d)
              (List.filter (fun m => negb (senderId m =? sender)) (Messages d))).

(** A record whose [role] was written at the time [now]. *)
Definition withRole (now : Z) (r : string) (u : User) : User :=
  mkUser (user_id u) (firstName u) (lastName u) (birthDate u) (email u)
         (password u) r (favoriteFlats u) (addedFlats u) (user_createdAt u) now.

(** A record whose [favoriteFlats] were written at the time [now]. *)
Definition withFavorites (now : Z) (l : list ObjectId) (u : User) : User :=
  mkUser (user_id u) (firstName u) (lastName u) (birthDate u) (email u)
         (password u) (role u) l (addedFlats u) (user_createdAt u) now.

(** [User.updateMany({ favoriteFlats: id }, { $pull: { favoriteFlats: id } })];
    the records the filter selects also get their [updatedAt] set. *)
Definition pullFavorite (now : Z) (flat : ObjectId) (u : User) : User :=
  if includes flat (favoriteFlats u) then
    withFavorites now (pull flat (favoriteFlats u)) u
  else u.

Definition User_pullFavorite (now : Z) (flat : ObjectId) : M unit :=
  d <- getDb ;;
  putDb (mkDb (Flats d) (map (pullFavorite now flat) (Users d)) (Messages d)).

(** [User.findByIdAndUpdate(userId, { $pull: { addedFlats: id } })] *)
Definition pullAdded (now : Z) (user flat : ObjectId) (u : User) : User :=
  if user_id u =? user then
    mkUser (user_id u) (firstName u) (lastName u) (birthDate u) (email u)
           (password u) (role u) (favoriteFlats u)
           (option_map (pull flat) (addedFlats u))
           (user_createdAt u) now
  else u.

Definition User_pullAdded (now : Z) (user flat : ObjectId) : M unit :=
  d <- getDb ;;
  putDb (mkDb (Flats d) (map (pullAdded now user flat) (Users d)) (Messages d)).

(** [Flat.findByIdAndDelete(id)], [Flat.find({ owner })],
    [Flat.deleteMany({ owner })] and [User.findByIdAndDelete(id)];
    [_id] is unique in a collection. *)
Definition Flat_findByIdAndDelete (id : ObjectId) : M (option Flat) :=
  d <- getDb ;;
  _ <- putDb (mkDb (List.filter (fun f => negb (flat_id f =? id)) (Flats d))
                   (Users d) (Messages d)) ;;
  ret (findFlat d id).

Definition Flat_find_owner (user : ObjectId) : M (list Flat) :=
  d <- getDb ;;
  ret (List.filter (fun f => owner f =? user) (Flats d)).

Definition Flat_deleteMany_owner (user : ObjectId) : M unit :=
  d <- getDb ;;
  putDb (mkDb (List.filter (fun f => negb (owner f =? user)) (Flats d))
              (Users d) (Messages d)).

Definition User_findByIdAndDelete (id : ObjectId) : M (option User) :=
  d <- getDb ;;
  _ <- putDb (mkDb (Flats d)
                   (List.filter (fun u => negb (user_id u =? id)) (Users d))
                   (Messages d)) ;;
  ret (findUser d id).

(** The links between the collections that the handlers are to keep:
    every message is on a stored flat and was sent from a stored
    account. *)
Definition linked (d : Db) : Prop :=
  forall m, In m (Messages d) ->
    (exists f, In f (Flats d) /\ flat_id f = flatId m)
    /\ (exists u, In u (Users d) /\ user_id u = senderId m).

(** [for (const x of l) { await body(x) }] *)
Fixpoint forEach {A : Type} (l : list A) (body : A -> M unit) : M unit :=
  match l with
  | [] => ret tt
  | x :: rest => _ <- body x ;; forEach rest body
  end.

End Documents.

(* ================================================================== *)
(** * FlatController.js: favourites, deletion, the flats of a user     *)
(* ================================================================== *)

Module FlatController.
Import Store.
Import Listing.
Import Api.
Import Documents.

Section Handlers.

Variable isValid : string -> bool.
Variable nameOk : string -> bool.
Variable isEmail : string -> bool.
Variable passwordOk : string -> bool.
Variable bcryptHash : string -> nat -> string.

(** [cloudinary.uploader.destroy]: a call to the image service, which may
    fail. *)
Variable destroy : string -> M unit.

Variable sortDocs : forall A : Type, (A -> A -> comparison) -> list A -> list A.

Let save := saveLoaded nameOk isEmail passwordOk bcryptHash.

(** [exports.addToFavorites]; [userId] is [req.currentUser._id]. *)
Definition addToFavorites (now : Z) (today : Date) (flatId : string)
           (userId : ObjectId) : World -> response (list ObjectId) * World :=
  tryCatch
    (if negb (isValid flatId) then
       ret (Failed 400 "Invalid flat ID format")
     else
       flat <- Flat_findById isValid flatId ;;
       match flat with
       | None => ret (Failed 404 "Flat not found")
       | Some _ =>
           user <- User_findById isValid userId ;;
           match user with
           | None => ret (Failed 404 "User not found")
           | Some u =>
               let doc := load u in
               if includes flatId (Account.doc_favoriteFlats doc) then
                 ret (Failed 400 "Flat is already in favorites")
               else
                 saved <- save now today u
                            (setFavoriteFlats
                               (Account.doc_favoriteFlats doc ++ [flatId]) doc) ;;
                 ret (Success 200 (favoriteFlats saved))
           end
       end)
    (fun _ => Failed 500 "Error adding flat to favorites").

(** [exports.removeFromFavorites] *)
Definition removeFromFavorites (now : Z) (today : Date) (flatId : string)
           (userId : ObjectId) : World -> response (list ObjectId) * World :=
  tryCatch
    (if negb (isValid flatId) then
       ret (Failed 400 "Invalid flat ID format")
     else
       user <- User_findById isValid userId ;;
       match user with
       | None => ret (Failed 404 "User not found")
       | Some u =>
           let doc := load u in
           match indexOf flatId (Account.doc_favoriteFlats doc) with
           | None => ret (Failed 400 "Flat is not in favorites")
           | Some index =>
               saved <- save now today u
                          (setFavoriteFlats
                             (splice1 index (Account.doc_favoriteFlats doc)) doc) ;;
               ret (Success 200 (favoriteFlats saved))
           end
       end)
    (fun _ => Failed 500 "Error removing flat from favorites").

(** [exports.deleteFlat] *)
Definition deleteFlat (now : Z) (flatId : string) (userId : ObjectId)
  : World -> response string * World :=
  tryCatch
    (if negb (isValid flatId) then
       ret (Failed 400 "Invalid flat ID format")
     else
       flat <- Flat_findById isValid flatId ;;
       match flat with
       | None => ret (Failed 404 "Flat not found")
       | Some f =>
           if negb (owner f =? userId) then
             ret (Failed 403 "You can only delete your own flats")
           else
             _ <- (if negb (public_id (image f) =? "")
                   then destroy (public_id (image f))
                   else ret tt) ;;
             _ <- Message_deleteMany_flatId (flat_id f) ;;
             _ <- User_pullFavorite now (flat_id f) ;;
             _ <- User_pullAdded now userId flatId ;;
             _ <- Flat_findByIdAndDelete flatId ;;
             ret (Success 200 flatId)
       end)
    (fun _ => Failed 500 "Error deleting flat").

(** [exports.getMyFlats] *)
Definition getMyFlats (userId : ObjectId)
  : World -> response (nat * list Flat) * World :=
  tryCatch
    (d <- getDb ;;
     let flats :=
       sortDocs Flat (compareBy flatField [("createdAt", Desc)])
                (List.filter (fun f => owner f =? userId) (Flats d)) in
     ret (Success 200 (List.length flats, flats)))
    (fun _ => Failed 500 "Error fetching your flats").

End Handlers.

End FlatController.

(* ================================================================== *)
(** * AdminController.js: roles and the deletion of an account         *)
(* ================================================================== *)

Module AdminController.
Import Store.
Import Listing.
Import Api.
Import Documents.

Section Handlers.

Variable isValid : string -> bool.
Variable nameOk : string -> bool.
Variable isEmail : string -> bool.
Variable passwordOk : string -> bool.
Variable bcryptHash : string -> nat -> string.
Variable destroy : string -> M unit.

Let save := saveLoaded nameOk isEmail passwordOk bcryptHash.

(** [exports.updateRole]; [newRole] is [req.body.role], [None] when the
    body has no such property. *)
Definition updateRole (now : Z) (today : Date) (userId : string)
           (newRole : option string) : World -> response User * World :=
  tryCatch
    (match newRole with
     | None => ret (Failed 400 "Invalid role specified!")
     | Some r =>
         if negb (existsb (String.eqb r) ["admin"; "user"]) then
           ret (Failed 400 "Invalid role specified!")
         else
           user <- User_findById isValid userId ;;
           match user with
           | None => ret (Failed 404 "User not found!")
           | Some u =>
               saved <- save now today u (setRole r (load u)) ;;
               ret (Success 200 saved)
           end
     end)
    (fun _ => Failed 500 "Error updating user role").

(** The body of the loop over the flats of the user, in [deleteUserById]
    and in [deleteProfile]. *)
Definition dropFlat (now : Z) (flat : Flat) : M unit :=
  _ <- (if negb (public_id (image flat) =? "")
        then destroy (public_id (image flat))
        else ret tt) ;;
  _ <- Message_deleteMany_flatId (flat_id flat) ;;
  User_pullFavorite now (flat_id flat).

(** [exports.deleteUserById] *)
Definition deleteUserById (now : Z) (userId : string)
  : World -> response unit * World :=
  tryCatch
    (user <- User_findById isValid userId ;;
     match user with
     | None => ret (Failed 404 "User not found!")
     | Some _ =>
         _ <- Message_deleteMany_senderId userId ;;
         flats <- Flat_find_owner userId ;;
         _ <- forEach flats (dropFlat now) ;;
         _ <- Flat_deleteMany_owner userId ;;
         _ <- User_findByIdAndDelete userId ;;
         ret (Success 200 tt)
     end)
    (fun _ => Failed 500 "Error deleting user").

End Handlers.

End AdminController.

(* ================================================================== *)
(** * AuthController.js: the check of an email, and one's own deletion *)
(* ================================================================== *)

Module AuthController.
Import Store.
Import Listing.
Import Api.
Import Documents.

Section Handlers.

Variable isEmail : string -> bool.
Variable destroy : string -> M unit.

(** [exports.checkEmail]; [given] is [req.body.email], a string or
    absent.  The answer carries [available]. *)
Definition checkEmail (given : option string) : World -> response bool * World :=
  tryCatch
    (match given with
     | None => ret (Failed 400 "Email is required")
     | Some e =>
         if e =? "" then ret (Failed 400 "Email is required")
         else
           let normalizedEmail := JS.trim (JS.toLowerCase e) in
           if negb (isEmail normalizedEmail) then
             ret (Failed 400 "Invalid email format")
           else
             d <- getDb ;;
             let userExists :=
               find (fun u => email u =? normalizedEmail) (Users d) in
             ret (Success 200
                    (match userExists with Some _ => false | None => true end))
     end)
    (fun _ =>
       Failed 500 "Internal server error while checking email availability").

(** [exports.deleteProfile]; [userId] is [req.currentUser.id]. *)
Definition deleteProfile (now : Z) (userId : ObjectId)
  : World -> response unit * World :=
  tryCatch
    (_ <- Message_deleteMany_senderId userId ;;
     flats <- Flat_find_owner userId ;;
     _ <- forEach flats (AdminController.dropFlat destroy now) ;;
     _ <- Flat_deleteMany_owner userId ;;
     deletedUser <- User_findByIdAndDelete userId ;;
     match deletedUser with
     | None => ret (Failed 404 "User not found!")
     | Some _ => ret (Success 200 tt)
     end)
    (fun _ => Failed 500 "Error deleting account").

End Handlers.

End AuthController.

(* ================================================================== *)
(** * MessageController.js: the messages of a flat                     *)
(* ================================================================== *)

Module MessageController.
Import Store.
Import Listing.
Import Api.

(** A message as the handler formats it for the client. *)
Record FormattedMessage : Type := mkFormatted {
  fm_id : ObjectId;
  fm_flatId : ObjectId;
  fm_senderId : ObjectId;
  fm_content : string;
  fm_createdAt : Z;
  senderName : string;
  senderEmail : string
}.

(** The fields of a message by name, for the comparison of a sort. *)
Definition messageField (k : string) (m : Message) : value :=
  if k =? "_id" then VId (message_id m)
  else if k =? "content" then VStr (content m)
  else if k =? "flatId" then VId (flatId m)
  else if k =? "senderId" then VId (senderId m)
  else if k =? "createdAt" then VDate (message_createdAt m)
  else VMissing.

(** [populate('senderId', ...)] followed by the formatting: a message
    whose sender is no longer stored has [senderId] null, and reading
    [msg.senderId._id] throws. *)
Definition format (d : Db) (msg : Message) : M FormattedMessage :=
  match findUser d (senderId msg) with
  | Some sender =>
      ret {| fm_id := message_id msg;
             fm_flatId := flatId msg;
             fm_senderId := user_id sender;
             fm_content := content msg;
             fm_createdAt := message_createdAt msg;
             senderName := (firstName sender ++ " " ++ lastName sender)%string;
             senderEmail := email sender |}
  | None => throw "TypeError"
  end.

(** [l.map(f)] for an [f] that may throw. *)
Fixpoint mapM {A B : Type} (f : A -> M B) (l : list A) : M (list B) :=
  match l with
  | [] => ret []
  | x :: rest =>
      y <- f x ;;
      ys <- mapM f rest ;;
      ret (y :: ys)
  end.

Section Handlers.

Variable isValid : string -> bool.
Variable sortDocs : forall A : Type, (A -> A -> comparison) -> list A -> list A.

(** [Message.find(filter).sort({ createdAt: 1 })] *)
Definition Message_find (selected : Message -> bool) : M (list Message) :=
  d <- getDb ;;
  ret (sortDocs Message (compareBy messageField [("createdAt", Asc)])
                (List.filter selected (Messages d))).

(** [exports.getAllMessages]; the answer carries the messages and
    [meta.isOwner]. *)
Definition getAllMessages (flat : string) (userId : ObjectId)
  : World -> response (list FormattedMessage * bool) * World :=
  tryCatch
    (found <- Flat_findById isValid flat ;;
     match found with
     | None => ret (Failed 404 "Flat not found")
     | Some f =>
         let isOwner := owner f =? userId in
         messages <-
           (if isOwner then
              Message_find (fun m => flatId m =? flat)
            else
              Message_find (fun m => (flatId m =? flat)
                                     && (senderId m =? userId))) ;;
         d <- getDb ;;
         formattedMessages <- mapM (format d) messages ;;
         ret (Success 200 (formattedMessages, isOwner))
     end)
    (fun _ => Failed 500 "Error fetching messages").

End Handlers.

End MessageController.

(* ================================================================== *)
(** * UserModel.js: the instance method [isPasswordChanged]            *)
(* ================================================================== *)

Module UserModel.

(** [userSchema.methods.isPasswordChanged] (lines 145-151);
    [passwordChangedAt] is the path of the document, in milliseconds, and
    [parseInt] drops the fraction of the quotient. *)
Definition isPasswordChanged (passwordChangedAt : option Z) (jwtTimeStamp : Z)
  : bool :=
  match passwordChangedAt with
  | Some changed =>
      let passwordChangedTimestamp := Z.quot changed 1000 in
      (jwtTimeStamp <? passwordChangedTimestamp)%Z
  | None => false
  end.

End UserModel.

(* ================================================================== *)
(** * The hook [useImageHover] of the client                           *)
(* ================================================================== *)

Module ImageHover.

Record Size : Type := mkSize { width : Z; height : Z }.
Record Position : Type := mkPosition { x : Z; y : Z }.

(** The three states of the hook. *)
Record Hover : Type := mkHover {
  previewImage : option string;
  hoverPosition : option Position;
  previewSize : Size
}.

(** [useState] gives the hook its first state. *)
Definition initial : Hover :=
  mkHover None None (mkSize 500 500).

(** The window and the event: [window.innerWidth], [window.innerHeight],
    [e.clientX], [e.clientY], in whole pixels. *)
Record Window : Type := mkWindow { innerWidth : Z; innerHeight : Z }.
Record MouseEvent : Type := mkMouseEvent { clientX : Z; clientY : Z }.

(** The three handlers the hook hands out; each gives the next state. *)
Definition onMouseEnter (window : Window) (e : MouseEvent) (image : string)
           (h : Hover) : Hover :=
  if (innerWidth window <? 850)%Z then h
  else
    let size :=
      if ((850 <=? innerWidth window) && (innerWidth window <? 1200))%Z then
        mkSize 350 350
      else if ((1200 <=? innerWidth window) && (innerWidth window <? 1500))%Z then
        mkSize 400 400
      else mkSize 500 500 in
    mkHover (Some image) (Some (mkPosition (clientX e) (clientY e))) size.

Definition onMouseLeave (h : Hover) : Hover :=
  mkHover None None (previewSize h).

(** One axis of [onMouseMove]: [client] is the cursor, [extent] the size
    of the preview and [inner] the size of the window on that axis. *)
Definition place (client extent inner : Z) : Z :=
  let MARGIN := 12%Z in
  let BUFFER := 5%Z in
  let x := (client + MARGIN)%Z in
  let x :=
    if (x + extent >? inner)%Z then
      let x := (client - extent - MARGIN)%Z in
      if (x <? MARGIN)%Z then Z.max (inner - extent - MARGIN - BUFFER) MARGIN
      else x
    else x in
  Z.max MARGIN (Z.min x (inner - extent - MARGIN - BUFFER)).

Definition onMouseMove (window : Window) (e : MouseEvent) (h : Hover) : Hover :=
  if (innerWidth window <? 850)%Z then h
  else
    let size := previewSize h in
    mkHover (previewImage h)
            (Some (mkPosition
                     (place (clientX e) (width size) (innerWidth window))
                     (place (clientY e) (height size) (innerHeight window))))
            size.

(** The listener that [useEffect] registers on the window: the key
    Escape closes the preview. *)
Definition handleKeyDown (key : string) (h : Hover) : Hover :=
  if key =? "Escape" then mkHover None None (previewSize h) else h.

(** The events that reach the hook, and the handler each of them runs. *)
Inductive Event : Type :=
| MouseEnter (e : MouseEvent) (image : string)
| MouseLeave
| MouseMove (e : MouseEvent)
| KeyDown (key : string).

Definition handle (window : Window) (h : Hover) (event : Event) : Hover :=
  match event with
  | MouseEnter e image => onMouseEnter window e image h
  | MouseLeave => onMouseLeave h
  | MouseMove e => onMouseMove window e h
  | KeyDown key => handleKeyDown key h
  end.

End ImageHover.

(* ================================================================== *)
(** * More sample data                                                 *)
(* ================================================================== *)

Module Examples.
Import Store.
Import Listing.
Import Sample.

(** An image service that always succeeds. *)
Definition destroyOk (public_id : string) : Api.M unit := Api.ret tt.

Definition hello : Message :=
  mkMessage "64e000000000000000000001" "Is it free in May?"
            "64c000000000000000000001" "64b000000000000000000002" 5000.

Definition reply : Message :=
  mkMessage "64e000000000000000000002" "Can I visit on Friday?"
            "64c000000000000000000001" "64b000000000000000000003" 6000.

Definition eva : User :=
  {| user_id := "64b000000000000000000003";
     firstName := "Eva"; lastName := "Marin";
     birthDate := mkDate 1995 2 20;
     email := "eva@example.com"; password := "$2a$12$z";
     role := "user"; favoriteFlats := ["64c000000000000000000001"];
     addedFlats := Some [];
     user_createdAt := 3000; user_updatedAt := 3000 |}.

(** The flats of [ana], one of them a favourite of [dan] and of [eva],
    with two messages on it. *)
Definition busyDb : Db :=
  {| Flats := [withMessages albaFlat [message_id hello; message_id reply];
               clujFlat];
     Users := [ana;
               Documents.withFavorites 2000 ["64c000000000000000000001"] dan;
               eva];
     Messages := [hello; reply] |}.

(** A message is left of [dan], whose account is no longer stored. *)
Definition leftoverDb : Db :=
  {| Flats := [albaFlat]; Users := [ana]; Messages := [hello] |}.

End Examples.

(* ================================================================== *)
(** * Facts about the string primitives and about objects              *)
(* ================================================================== *)

Import Store.
Import Cast.
Import Listing.

Lemma includes_char_cons (c d : ascii) (s : string) :
  JS.includes (String c EmptyString) (String d s)
  = Ascii.eqb d c || JS.includes (String c EmptyString) s.
Proof.
  cbn [JS.includes prefix].
  destruct (ascii_dec c d) as [e | n].
  - subst d. rewrite Ascii.eqb_refl. now destruct s.
  - assert (Ascii.eqb d c = false) as ->; [| reflexivity].
    apply Ascii.eqb_neq. congruence.
Qed.

Lemma includes_char_empty (c : ascii) :
  JS.includes (String c EmptyString) EmptyString = false.
Proof. reflexivity. Qed.

(** A string without the separator splits into itself. *)
Lemma split_without_separator (c : ascii) (s : string) :
  JS.includes (String c EmptyString) s = false -> JS.split c s = [s].
Proof.
  induction s as [| d s IH]; intros H.
  - reflexivity.
  - rewrite includes_char_cons in H.
    apply orb_false_iff in H. destruct H as [Hd Hs].
    cbn [JS.split]. rewrite Hd, (IH Hs). reflexivity.
Qed.

Lemma split_not_nil (c : ascii) (s : string) : JS.split c s <> [].
Proof.
  destruct s as [| d s]; cbn [JS.split]; [discriminate |].
  destruct (Ascii.eqb d c); [discriminate |].
  destruct (JS.split c s); discriminate.
Qed.

(** A string that splits into two segments contains the separator. *)
Lemma split_two_includes (c : ascii) (s lo hi : string) :
  JS.split c s = [lo; hi] -> JS.includes (String c EmptyString) s = true.
Proof.
  intros H.
  destruct (JS.includes (String c EmptyString) s) eqn:E; [reflexivity |].
  rewrite (split_without_separator _ _ E) in H. discriminate.
Qed.

Lemma removeFirst_absent (c : ascii) (s : string) :
  JS.includes (String c EmptyString) s = false -> JS.removeFirst c s = s.
Proof.
  induction s as [| d s IH]; intros H; [reflexivity |].
  rewrite includes_char_cons in H.
  apply orb_false_iff in H. destruct H as [Hd Hs].
  cbn [JS.removeFirst]. rewrite Hd, (IH Hs). reflexivity.
Qed.

Lemma objSet_In_same {V : Type} (k : string) (v : V) (o : list (string * V)) :
  In (k, v) (JS.objSet k v o).
Proof.
  induction o as [| [k' v'] o IH]; cbn [JS.objSet].
  - now left.
  - destruct (String.eqb k k'); [now left | now right].
Qed.

Lemma objSet_In_other {V : Type} (k k' : string) (v v' : V)
      (o : list (string * V)) :
  k <> k' -> In (k, v) o -> In (k, v) (JS.objSet k' v' o).
Proof.
  intros Hne. induction o as [| [k0 v0] o IH]; cbn [JS.objSet]; intros H.
  - contradiction.
  - destruct (String.eqb k' k0) eqn:E.
    + apply String.eqb_eq in E. subst k0.
      destruct H as [H | H]; [inversion H; congruence | now right].
    + destruct H as [H | H]; [now left | right; auto].
Qed.

Lemma objSet_In_inv {V : Type} (k k' : string) (v v' : V)
      (o : list (string * V)) :
  In (k, v) (JS.objSet k' v' o) -> (k = k' /\ v = v') \/ In (k, v) o.
Proof.
  induction o as [| [k0 v0] o IH]; cbn [JS.objSet]; intros H.
  - destruct H as [H | []]. inversion H. now left.
  - destruct (String.eqb k' k0) eqn:E.
    + destruct H as [H | H]; [inversion H; now left | right; now right].
    + destruct H as [H | H]; [right; now left |].
      destruct (IH H) as [? | ?]; [now left | right; now right].
Qed.

Lemma objGet_In {V : Type} (k : string) (v : V) (o : list (string * V)) :
  JS.objGet k o = Some v -> In (k, v) o.
Proof.
  induction o as [| [k' v'] o IH]; cbn [JS.objGet]; [discriminate |].
  destruct (String.eqb k k') eqn:E; intros H.
  - apply String.eqb_eq in E. inversion H. subst. now left.
  - right. auto.
Qed.

Lemma In_objGet {V : Type} (k : string) (v : V) (o : list (string * V)) :
  NoDup (map fst o) -> In (k, v) o -> JS.objGet k o = Some v.
Proof.
  induction o as [| [k' v'] o IH]; cbn [JS.objGet map fst]; intros Hnd H.
  - contradiction.
  - inversion Hnd as [| ? ? Hnotin Hnd']; subst.
    destruct H as [H | H].
    + inversion H; subst. now rewrite String.eqb_refl.
    + destruct (String.eqb k k') eqn:E.
      * apply String.eqb_eq in E. subst k'.
        exfalso. apply Hnotin. apply (in_map fst) in H. exact H.
      * auto.
Qed.

Lemma filtersOf_keys (q : query) :
  map fst (filtersOf q)
  = filter (fun k => negb ((k =? "page") || (k =? "limit") || (k =? "sort")))
           (map fst q).
Proof.
  unfold filtersOf. induction q as [| [k v] q IH]; [reflexivity |].
  cbn [filter map fst].
  destruct (negb ((k =? "page") || (k =? "limit") || (k =? "sort")));
    cbn [map fst]; now rewrite IH.
Qed.

Lemma filtersOf_NoDup (q : query) :
  NoDup (map fst q) -> NoDup (map fst (filtersOf q)).
Proof. intros H. rewrite filtersOf_keys. now apply NoDup_filter. Qed.

Lemma filtersOf_In (q : query) (k v : string) :
  In (k, v) (filtersOf q) -> In (k, v) q.
Proof. unfold filtersOf. intros H. apply filter_In in H. tauto. Qed.

(* ================================================================== *)
(** * Facts about the listing pipelines                                *)
(* ================================================================== *)

Lemma In_window {A : Type} (x : A) (n m : nat) (l : list A) :
  In x (firstn n (skipn m l)) -> In x l.
Proof.
  intros H. rewrite <- (firstn_skipn m l). apply in_or_app. right.
  rewrite <- (firstn_skipn n (skipn m l)). apply in_or_app. now left.
Qed.

Lemma skipStage_Ok {A : Type} (n : JS.num) (docs out : list A) :
  skipStage n docs = Ok out ->
  exists k, toCount n = Some k /\ out = skipn k docs.
Proof.
  unfold skipStage. destruct (toCount n) as [k |]; intros H; inversion H.
  now exists k.
Qed.

Lemma limitStage_Ok {A : Type} (n : JS.num) (docs out : list A) :
  limitStage n docs = Ok out ->
  exists k, toCount n = Some (S k) /\ out = firstn (S k) docs.
Proof.
  unfold limitStage. destruct (toCount n) as [[| k] |]; intros H; inversion H.
  now exists k.
Qed.

Section EngineFacts.

Variable Number : string -> JS.num.
Variable regexTest : string -> string -> bool.
Variable sortDocs : forall A : Type, (A -> A -> comparison) -> list A -> list A.
Variable numberToString : Q -> string.
Variable castElsewhere : string -> condition -> result (Flat -> bool).

(** The promise of [$sort] that every listing relies on: it returns the
    documents it was given. *)
Hypothesis sortDocs_permutes :
  forall (A : Type) (cmp : A -> A -> comparison) (l : list A),
    Permutation l (sortDocs A cmp l).

Let addTerm (filter : filterDoc) (p : string * string) : filterDoc :=
  JS.objSet (fst p) (filterTerm Number (fst p) (snd p)) filter.

Lemma fold_addTerm_keeps (filters : query) (acc : filterDoc)
      (k : string) (c : condition) :
  ~ In k (map fst filters) -> In (k, c) acc ->
  In (k, c) (fold_left addTerm filters acc).
Proof.
  revert acc. induction filters as [| [k' v'] filters IH]; intros acc Hk H.
  - exact H.
  - cbn [fold_left]. apply IH.
    + intros Hin. apply Hk. now right.
    + unfold addTerm; cbn [fst snd]. apply objSet_In_other; [| exact H].
      intros ->. apply Hk. now left.
Qed.

Lemma fold_addTerm_adds (filters : query) (acc : filterDoc) (k v : string) :
  NoDup (map fst filters) -> In (k, v) filters ->
  In (k, filterTerm Number k v) (fold_left addTerm filters acc).
Proof.
  revert acc. induction filters as [| [k' v'] filters IH]; intros acc Hnd H.
  - contradiction.
  - cbn [map fst] in Hnd. inversion Hnd as [| ? ? Hnotin Hnd']; subst.
    cbn [fold_left]. destruct H as [H | H].
    + inversion H; subst. apply fold_addTerm_keeps; [exact Hnotin |].
      unfold addTerm; cbn [fst snd]. apply objSet_In_same.
    + now apply IH.
Qed.

Lemma fold_addTerm_inv (filters : query) (acc : filterDoc)
      (k : string) (c : condition) :
  In (k, c) (fold_left addTerm filters acc) ->
  In (k, c) acc \/ exists v, In (k, v) filters /\ c = filterTerm Number k v.
Proof.
  revert acc. induction filters as [| [k' v'] filters IH]; intros acc H.
  - now left.
  - cbn [fold_left] in H. destruct (IH _ H) as [H' | [v [Hin Hc]]].
    + unfold addTerm in H'; cbn [fst snd] in H'.
      destruct (objSet_In_inv _ _ _ _ _ H') as [[-> ->] | H''].
      * right. exists v'. split; [now left | reflexivity].
      * now left.
    + right. exists v. split; [now right | exact Hc].
Qed.

(** Every filter parameter contributes its term to the filter. *)
Lemma buildFilter_In (filters : query) (k v : string) :
  NoDup (map fst filters) -> In (k, v) filters ->
  In (k, filterTerm Number k v) (buildFilter Number filters).
Proof. intros Hnd H. now apply fold_addTerm_adds. Qed.

(** Every term of the filter comes from a filter parameter. *)
Lemma buildFilter_inv (filters : query) (k : string) (c : condition) :
  In (k, c) (buildFilter Number filters) ->
  exists v, In (k, v) filters /\ c = filterTerm Number k v.
Proof.
  intros H. destruct (fold_addTerm_inv _ _ _ _ H) as [[] | H']. exact H'.
Qed.

Lemma matchFlats_spec (db : Db) (filter : filterDoc) :
  matchFlats regexTest db filter
  = List.filter (matches regexTest flatField filter) (Flats db).
Proof.
  destruct filter as [| t filter]; [| reflexivity].
  cbn [matchFlats matches forallb].
  induction (Flats db) as [| f l IH]; [reflexivity |].
  cbn [List.filter]. now rewrite <- IH.
Qed.

(** An answer with a record in it is the answer to an aggregation that
    returned. *)
Lemma getAllFlats_data (db : Db) (q : query) (r : ListedFlat) :
  In r (dataOf (getAllFlats Number regexTest sortDocs numberToString
                            castElsewhere db q)) ->
  exists flats,
    aggregateFlats regexTest sortDocs db (buildFilter Number (filtersOf q))
                   (sortStage (JS.objGet "sort" q))
                   (skipOf Number q) (limitOf Number q) = Ok flats
    /\ In r flats.
Proof.
  unfold getAllFlats. intros Hr.
  destruct (aggregateFlats _ _ _ _ _ _ _) as [flats |];
    cbn [dataOf] in Hr; [| contradiction].
  destruct (countFlats _ _ _ _ _ _) as [total |];
    cbn [dataOf] in Hr; [| contradiction].
  now exists flats.
Qed.

Lemma getAllUsers_data (now : Date) (db : Db) (q : query) (r : UserSummary) :
  In r (dataOf (getAllUsers Number regexTest sortDocs now db q)) ->
  exists users,
    aggregateUsers Number regexTest sortDocs now db (filtersOf q)
                   (sortStage (JS.objGet "sort" q))
                   (skipOf Number q) (limitOf Number q) = Ok users
    /\ In r users.
Proof.
  unfold getAllUsers. intros Hr.
  destruct (aggregateUsers _ _ _ _ _ _ _ _ _) as [users |];
    cbn [dataOf] in Hr; [| contradiction].
  destruct (countUsers _ _) as [total |];
    cbn [dataOf] in Hr; [| contradiction].
  now exists users.
Qed.

Lemma aggregateFlats_Ok (db : Db) (filter : filterDoc) (sortObj : sortSpec)
      (skip limit : JS.num) (flats : list ListedFlat) :
  aggregateFlats regexTest sortDocs db filter sortObj skip limit = Ok flats ->
  exists s l,
    toCount skip = Some s /\ toCount limit = Some (S l) /\
    flats = firstn (S l)
              (skipn s (allListedFlats regexTest sortDocs db filter sortObj)).
Proof.
  unfold aggregateFlats. intros H.
  destruct (skipStage skip _) as [skipped |] eqn:Es; [| discriminate].
  cbn [bind] in H.
  apply skipStage_Ok in Es. destruct Es as [s [Hs ->]].
  apply limitStage_Ok in H. destruct H as [l [Hl ->]].
  now exists s, l.
Qed.

Lemma aggregateUsers_Ok (now : Date) (db : Db) (filters : query)
      (sortObj : sortSpec) (skip limit : JS.num) (users : list UserSummary) :
  aggregateUsers Number regexTest sortDocs now db filters sortObj skip limit
  = Ok users ->
  exists s l,
    toCount skip = Some s /\ toCount limit = Some (S l) /\
    users = map project
              (firstn (S l)
                 (skipn s (allUserRows Number regexTest sortDocs now db
                                       filters sortObj))).
Proof.
  unfold aggregateUsers. intros H.
  destruct (skipStage skip _) as [skipped |] eqn:Es; [| discriminate].
  cbn [bind] in H.
  destruct (limitStage limit skipped) as [page |] eqn:El; [| discriminate].
  cbn [bind] in H. inversion H; subst users.
  apply skipStage_Ok in Es. destruct Es as [s [Hs ->]].
  apply limitStage_Ok in El. destruct El as [l [Hl ->]].
  now exists s, l.
Qed.

(** A listed flat is a flat that the filter selected. *)
Lemma allListedFlats_In (db : Db) (filter : filterDoc) (sortObj : sortSpec)
      (r : ListedFlat) :
  In r (allListedFlats regexTest sortDocs db filter sortObj) ->
  In (listed r) (Flats db) /\
  matches regexTest flatField filter (listed r) = true.
Proof.
  unfold allListedFlats, unwindOwner. intros H.
  apply in_flat_map in H. destruct H as [[f os] [Hrow Hr]].
  apply in_map_iff in Hrow. destruct Hrow as [f' [Heq Hf]].
  inversion Heq; subst f' os. cbn [fst snd] in Hr.
  apply in_map_iff in Hr. destruct Hr as [o [<- _]]. cbn [listed].
  apply (Permutation_in _ (Permutation_sym (sortDocs_permutes _ _ _))) in Hf.
  rewrite matchFlats_spec in Hf. apply filter_In in Hf. exact Hf.
Qed.

(** A row of the user listing is a selected user with its derived
    fields, and it passed the filter on the number of flats. *)
Lemma allUserRows_In (now : Date) (db : Db) (filters : query)
      (sortObj : sortSpec) (r : UserRow) :
  In r (allUserRows Number regexTest sortDocs now db filters sortObj) ->
  (exists u, In u (Users db) /\
             matchUser (buildMatchStage Number now filters) u = true /\
             r = addFields now u) /\
  matches regexTest userRowField (flatsCountStage Number filters) r = true.
Proof.
  unfold allUserRows, selectedUserRows. intros H.
  apply (Permutation_in _ (Permutation_sym (sortDocs_permutes _ _ _))) in H.
  apply filter_In in H. destruct H as [H Hc]. split; [| exact Hc].
  apply in_map_iff in H. destruct H as [u [<- Hu]].
  apply filter_In in Hu. destruct Hu as [Hu Hm].
  exists u. auto.
Qed.

Lemma range_holds (lo hi : JS.num) (v : value) :
  holds regexTest (CRange lo hi) v = true ->
  exists a b x,
    lo = JS.Num a /\ hi = JS.Num b /\ v = VNum x /\ (a <= x)%Q /\ (x <= b)%Q.
Proof.
  cbn [holds]. intros H. apply andb_true_iff in H. destruct H as [Hg Hl].
  destruct lo as [| a]; [discriminate |].
  destruct v as [| | x | | | | | |]; try discriminate.
  destruct hi as [| b]; [discriminate |].
  cbn [gte lte] in *. apply Qle_bool_iff in Hg. apply Qle_bool_iff in Hl.
  now exists a, b, x.
Qed.

End EngineFacts.

(* ================================================================== *)
(** * Facts about the sample collaborators                             *)
(* ================================================================== *)

Lemma insert_permutes {A : Type} (cmp : A -> A -> comparison) (x : A)
      (l : list A) :
  Permutation (x :: l) (Sample.insert cmp x l).
Proof.
  induction l as [| y l IH]; cbn [Sample.insert]; [apply Permutation_refl |].
  destruct (cmp x y); try apply Permutation_refl.
  eapply Permutation_trans; [apply perm_swap |]. now apply perm_skip.
Qed.

Lemma insertionSort_permutes (A : Type) (cmp : A -> A -> comparison)
      (l : list A) :
  Permutation l (Sample.insertionSort A cmp l).
Proof.
  unfold Sample.insertionSort.
  induction l as [| x l IH]; cbn [fold_right]; [apply Permutation_refl |].
  eapply Permutation_trans; [apply perm_skip, IH | apply insert_permutes].
Qed.

(* ================================================================== *)
(** * Range filters                                                    *)
(* ================================================================== *)

(** C3. A range filter given as [min-max] whose two segments are numbers
    returns only records whose filtered field lies in [[min, max]]: for
    [GET /flats] the field is the one the parameter names, for
    [GET /users/allUsers] it is the number of published flats selected by
    [flatsCount]. *)
Theorem range_filter_within_bounds
        (Number : string -> JS.num)
        (regexTest : string -> string -> bool)
        (sortDocs : forall A : Type, (A -> A -> comparison) -> list A -> list A)
        (numberToString : Q -> string)
        (castElsewhere : string -> condition -> result (Flat -> bool))
        (sortDocs_permutes :
           forall (A : Type) (cmp : A -> A -> comparison) (l : list A),
             Permutation l (sortDocs A cmp l))
        (db : Db) (lo hi : string) (a b : Q)
        (Hlo : Number lo = JS.Num a)
        (Hhi : Number hi = JS.Num b) :
  (forall (q : query) (key value : string) (r : ListedFlat),
      NoDup (map fst q) ->
      In (key, value) (filtersOf q) ->
      JS.includes "," value = false ->
      JS.split "-" value = [lo; hi] ->
      In r (dataOf (getAllFlats Number regexTest sortDocs numberToString
                                castElsewhere db q)) ->
      exists x, flatField key (listed r) = VNum x /\ (a <= x)%Q /\ (x <= b)%Q)
  /\
  (forall (now : Date) (q : query) (value : string) (r : UserSummary),
      NoDup (map fst q) ->
      In ("flatsCount", value) q ->
      JS.split "-" value = [lo; hi] ->
      In r (dataOf (getAllUsers Number regexTest sortDocs now db q)) ->
      (a <= inject_Z (Z.of_nat (summary_publishedFlatsCount r)))%Q /\
      (inject_Z (Z.of_nat (summary_publishedFlatsCount r)) <= b)%Q).
Proof.
  split.
  - intros q key value r Hq Hin Hcomma Hsplit Hr.
    apply getAllFlats_data in Hr. destruct Hr as (flats & E & Hr).
    apply aggregateFlats_Ok in E. destruct E as (s & l & _ & _ & ->).
    apply In_window in Hr.
    apply (allListedFlats_In _ _ sortDocs_permutes) in Hr.
    destruct Hr as [_ Hm].
    unfold matches in Hm. rewrite forallb_forall in Hm.
    specialize (Hm _ (buildFilter_In Number _ _ _ (filtersOf_NoDup _ Hq) Hin)).
    cbn [fst snd] in Hm. unfold filterTerm in Hm.
    rewrite Hcomma, (split_two_includes _ _ _ _ Hsplit), Hsplit in Hm.
    cbn [nth_error numberOf] in Hm. rewrite Hlo, Hhi in Hm.
    apply range_holds in Hm.
    destruct Hm as (a' & b' & x & Ha & Hb & Hv & Hax & Hxb).
    inversion Ha; inversion Hb; subst a' b'. now exists x.
  - intros now q value r Hq Hin Hsplit Hr.
    apply getAllUsers_data in Hr. destruct Hr as (users & E & Hr).
    apply aggregateUsers_Ok in E. destruct E as (s & l & _ & _ & ->).
    apply in_map_iff in Hr. destruct Hr as [row [<- Hrow]].
    apply In_window in Hrow.
    apply (allUserRows_In _ _ _ sortDocs_permutes) in Hrow.
    destruct Hrow as [_ Hm].
    assert (Hf : In ("flatsCount", value) (filtersOf q)).
    { unfold filtersOf. apply filter_In. split; [exact Hin | reflexivity]. }
    unfold flatsCountStage in Hm.
    rewrite (In_objGet _ _ _ (filtersOf_NoDup _ Hq) Hf) in Hm.
    assert (Hne : (value =? "") = false).
    { destruct value; [discriminate Hsplit | reflexivity]. }
    rewrite Hne, Hsplit in Hm. cbn [map nth] in Hm. rewrite Hlo, Hhi in Hm.
    cbn [matches forallb fst snd] in Hm. rewrite andb_true_r in Hm.
    apply range_holds in Hm.
    destruct Hm as (a' & b' & x & Ha & Hb & Hv & Hax & Hxb).
    inversion Ha; inversion Hb; subst a' b'.
    cbn in Hv. inversion Hv; subst x. cbn [project summary_publishedFlatsCount].
    split; assumption.
Qed.

Lemma range_filter_within_bounds_witness :
  (let q := [("rentPrice", "1-400")] in
   let r := mkListedFlat Sample.albaFlat Sample.anaInfo in
   In r (dataOf (getAllFlats Sample.digitsNumber Sample.cityRegexTest
                             Sample.insertionSort Sample.wholeNumberString
                             Sample.keepAsWritten Sample.sampleDb q))
   /\ exists x, flatField "rentPrice" (listed r) = VNum x
                /\ (1 <= x)%Q /\ (x <= 400)%Q)
  /\
  (let q := [("flatsCount", "1-400")] in
   let r := project (addFields Sample.today Sample.ana) in
   In r (dataOf (getAllUsers Sample.digitsNumber Sample.cityRegexTest
                             Sample.insertionSort Sample.today Sample.sampleDb q))
   /\ (1 <= inject_Z (Z.of_nat (summary_publishedFlatsCount r)))%Q
   /\ (inject_Z (Z.of_nat (summary_publishedFlatsCount r)) <= 400)%Q).
Proof.
  destruct (range_filter_within_bounds
              Sample.digitsNumber Sample.cityRegexTest Sample.insertionSort
              Sample.wholeNumberString Sample.keepAsWritten
              insertionSort_permutes Sample.sampleDb "1" "400" 1%Q 400%Q
              eq_refl eq_refl) as [flats users].
  split.
  - assert (H : In (mkListedFlat Sample.albaFlat Sample.anaInfo)
                   (dataOf (getAllFlats Sample.digitsNumber Sample.cityRegexTest
                                        Sample.insertionSort Sample.wholeNumberString
                                        Sample.keepAsWritten Sample.sampleDb
                                        [("rentPrice", "1-400")]))).
    { vm_compute. right. left. reflexivity. }
    split; [exact H |].
    apply (flats [("rentPrice", "1-400")] "rentPrice" "1-400").
    + repeat constructor. intros [].
    + left. reflexivity.
    + reflexivity.
    + reflexivity.
    + exact H.
  - assert (H : In (project (addFields Sample.today Sample.ana))
                   (dataOf (getAllUsers Sample.digitsNumber Sample.cityRegexTest
                                        Sample.insertionSort Sample.today
                                        Sample.sampleDb [("flatsCount", "1-400")]))).
    { vm_compute. left. reflexivity. }
    split; [exact H |].
    apply (users Sample.today [("flatsCount", "1-400")] "1-400").
    + repeat constructor. intros [].
    + left. reflexivity.
    + reflexivity.
    + exact H.
Defined.

(* ================================================================== *)
(** * Unknown fields and malformed ranges                              *)
(* ================================================================== *)

Lemma filter_none {A : Type} (f : A -> bool) (l : list A) :
  (forall x, In x l -> f x = false) -> List.filter f l = [].
Proof.
  induction l as [| x l IH]; intros H; [reflexivity |].
  cbn [List.filter]. rewrite (H x (or_introl eq_refl)).
  apply IH. intros y Hy. apply H. now right.
Qed.

Lemma range_NaN_never_holds (regexTest : string -> string -> bool)
      (lo hi : JS.num) (v : value) :
  lo = JS.NaN \/ hi = JS.NaN -> holds regexTest (CRange lo hi) v = false.
Proof.
  intros [-> | ->]; cbn [holds gte lte]; [reflexivity |].
  apply andb_false_iff. right. now destruct v.
Qed.

(** With a page window that the store accepts, the answer is a success
    when the count accepts the filter and the failure of the count
    otherwise. *)
Lemma getAllFlats_in_window
      (Number : string -> JS.num) (regexTest : string -> string -> bool)
      (sortDocs : forall A : Type, (A -> A -> comparison) -> list A -> list A)
      (numberToString : Q -> string)
      (castElsewhere : string -> condition -> result (Flat -> bool))
      (db : Db) (q : query) (s l : nat) :
  toCount (skipOf Number q) = Some s ->
  toCount (limitOf Number q) = Some (S l) ->
  getAllFlats Number regexTest sortDocs numberToString castElsewhere db q
  = let filter := buildFilter Number (filtersOf q) in
    let flats :=
      firstn (S l)
        (skipn s (allListedFlats regexTest sortDocs db filter
                    (sortStage (JS.objGet "sort" q)))) in
    match countFlats Number regexTest numberToString castElsewhere db filter with
    | Ok totalCount =>
        Page 200 (pageOf Number q) (limitOf Number q)
             totalCount (List.length flats) flats
    | Throw _ => Failed 500 "Error fetching flats"
    end.
Proof.
  intros Hs Hl. unfold getAllFlats, aggregateFlats, skipStage, limitStage.
  rewrite Hs. cbn [bind]. rewrite Hl. reflexivity.
Qed.


(** A range with a segment that is not a number selects no flat in the
    aggregation. *)
Lemma malformed_range_selects_nothing
      (Number : string -> JS.num) (regexTest : string -> string -> bool)
      (sortDocs : forall A : Type, (A -> A -> comparison) -> list A -> list A)
      (sortDocs_permutes :
         forall (A : Type) (cmp : A -> A -> comparison) (l : list A),
           Permutation l (sortDocs A cmp l))
      (db : Db) (q : query) (key value : string) (sortObj : sortSpec) :
  NoDup (map fst q) ->
  In (key, value) (filtersOf q) ->
  JS.includes "," value = false ->
  JS.includes "-" value = true ->
  numberOf Number (nth_error (JS.split "-" value) 0) = JS.NaN \/
  numberOf Number (nth_error (JS.split "-" value) 1) = JS.NaN ->
  allListedFlats regexTest sortDocs db (buildFilter Number (filtersOf q)) sortObj
  = [].
Proof.
  intros Hq Hin Hcomma Hdash Hnan.
  pose proof (buildFilter_In Number _ _ _ (filtersOf_NoDup _ Hq) Hin) as Hterm.
  assert (Hnone : List.filter
                    (matches regexTest flatField
                             (buildFilter Number (filtersOf q)))
                    (Flats db) = []).
  { apply filter_none. intros f _.
    destruct (matches regexTest flatField _ f) eqn:Hm; [| reflexivity].
    unfold matches in Hm. rewrite forallb_forall in Hm.
    specialize (Hm _ Hterm). cbn [fst snd] in Hm.
    unfold filterTerm in Hm. rewrite Hcomma, Hdash in Hm.
    now rewrite (range_NaN_never_holds _ _ _ _ Hnan) in Hm. }
  unfold allListedFlats. rewrite matchFlats_spec, Hnone.
  assert (Hsorted : sortDocs Flat (compareBy flatField sortObj) [] = []).
  { apply Permutation_nil. apply sortDocs_permutes. }
  rewrite Hsorted. reflexivity.
Qed.

(** No record is returned through a range with a segment that is not a
    number, whatever the page window and the count. *)
Lemma malformed_range_returns_nothing
      (Number : string -> JS.num) (regexTest : string -> string -> bool)
      (sortDocs : forall A : Type, (A -> A -> comparison) -> list A -> list A)
      (numberToString : Q -> string)
      (castElsewhere : string -> condition -> result (Flat -> bool))
      (sortDocs_permutes :
         forall (A : Type) (cmp : A -> A -> comparison) (l : list A),
           Permutation l (sortDocs A cmp l))
      (db : Db) (q : query) (key value : string) :
  NoDup (map fst q) ->
  In (key, value) (filtersOf q) ->
  JS.includes "," value = false ->
  JS.includes "-" value = true ->
  numberOf Number (nth_error (JS.split "-" value) 0) = JS.NaN \/
  numberOf Number (nth_error (JS.split "-" value) 1) = JS.NaN ->
  dataOf (getAllFlats Number regexTest sortDocs numberToString castElsewhere
                      db q) = [].
Proof.
  intros Hq Hin Hcomma Hdash Hnan.
  destruct (dataOf _) as [| r rest] eqn:E; [reflexivity |].
  assert (Hr : In r (dataOf (getAllFlats Number regexTest sortDocs
                                         numberToString castElsewhere db q)))
    by (rewrite E; now left).
  apply getAllFlats_data in Hr. destruct Hr as (flats & Ea & Hr).
  apply aggregateFlats_Ok in Ea. destruct Ea as (s & l & _ & _ & ->).
  apply In_window in Hr.
  rewrite (malformed_range_selects_nothing
             Number regexTest sortDocs sortDocs_permutes db q key value
             _ Hq Hin Hcomma Hdash Hnan) in Hr.
  contradiction.
Qed.







(* ================================================================== *)
(** * The city filter                                                  *)
(* ================================================================== *)

(** Whatever the key, a value with a dash and without a comma is read as a
    range: the test for a dash comes before the test for the city. *)
Lemma dash_is_read_as_range (Number : string -> JS.num) (key value : string) :
  JS.includes "," value = false ->
  JS.includes "-" value = true ->
  filterTerm Number key value
  = CRange (numberOf Number (nth_error (JS.split "-" value) 0))
           (numberOf Number (nth_error (JS.split "-" value) 1)).
Proof. intros Hc Hd. unfold filterTerm. now rewrite Hc, Hd. Qed.

(** A city asked for with a dash finds no flat when one of the two parts
    of its name is not a number. *)
Lemma city_with_dash_finds_nothing
      (Number : string -> JS.num) (regexTest : string -> string -> bool)
      (sortDocs : forall A : Type, (A -> A -> comparison) -> list A -> list A)
      (numberToString : Q -> string)
      (castElsewhere : string -> condition -> result (Flat -> bool))
      (sortDocs_permutes :
         forall (A : Type) (cmp : A -> A -> comparison) (l : list A),
           Permutation l (sortDocs A cmp l))
      (db : Db) (name : string) :
  JS.includes "," name = false ->
  JS.includes "-" name = true ->
  numberOf Number (nth_error (JS.split "-" name) 0) = JS.NaN \/
  numberOf Number (nth_error (JS.split "-" name) 1) = JS.NaN ->
  dataOf (getAllFlats Number regexTest sortDocs numberToString
                      castElsewhere db [("city", name)]) = [].
Proof.
  intros Hc Hd Hnan.
  apply (malformed_range_returns_nothing
           Number regexTest sortDocs numberToString castElsewhere
           sortDocs_permutes db [("city", name)] "city" name); auto.
  - repeat constructor. intros [].
  - now left.
Qed.

(** C7. The flat stored with the city [Alba-Iulia] is returned for
    [city=Alba Iulia], and the pattern the city branch writes for
    [Alba-Iulia] would match it too; but [city=Alba-Iulia] never reaches
    that branch: the value contains a dash, is read as the range from
    [Number("Alba")] to [Number("Iulia")], and the answer is empty. *)
Theorem city_filter_on_Alba_Iulia :
  let run := getAllFlats Sample.digitsNumber Sample.cityRegexTest
                         Sample.insertionSort Sample.wholeNumberString
                         Sample.keepAsWritten Sample.sampleDb in
  city Sample.albaFlat = "Alba-Iulia" /\
  dataOf (run [("city", "Alba Iulia")])
  = [mkListedFlat Sample.albaFlat Sample.anaInfo] /\
  Sample.cityRegexTest (JS.replaceRuns "[-\s]?" false "Alba-Iulia")
                       (city Sample.albaFlat) = true /\
  filterTerm Sample.digitsNumber "city" "Alba-Iulia" = CRange JS.NaN JS.NaN /\
  run [("city", "Alba-Iulia")] = Page 200 (JS.Num 1) (JS.Num 100000) 0 0 [].
Proof. cbn zeta. repeat split; vm_compute; reflexivity. Qed.

(* ================================================================== *)
(** * The cast of a filter                                             *)
(* ================================================================== *)

Lemma flatField_typed (k : string) (t : schemaType) (f : Flat) :
  trimmed f -> flatSchema k = Some t -> typed t (flatField k f).
Proof.
  intros (Htitle & Hcity & Hstreet). unfold flatSchema, flatField.
  repeat match goal with
         | |- context [String.eqb k ?n] =>
             let E := fresh "E" in
             destruct (String.eqb k n) eqn:E;
             [apply String.eqb_eq in E; subst k |]
         end;
    cbn; intros H; inversion H; subst t; cbn; auto; discriminate.
Qed.

(** On a name outside [flatSchema] a flat holds no string, number or
    boolean, so no term of a filter holds of it as it is written. *)
Lemma flatField_elsewhere (regexTest : string -> string -> bool)
      (k : string) (c : condition) (f : Flat) :
  flatSchema k = None -> holds regexTest c (flatField k f) = false.
Proof.
  assert (Hnone : forall v,
             match v with VStr _ | VNum _ | VBool _ => False | _ => True end ->
             holds regexTest c v = false).
  { intros v Hv. destruct c as [l | ls | lo hi | p]; cbn [holds].
    - destruct l, v; try reflexivity; contradiction.
    - induction ls as [| l ls IH]; [reflexivity |].
      cbn [existsb]. rewrite IH.
      destruct l, v; try reflexivity; contradiction.
    - destruct lo, v; try reflexivity; contradiction.
    - destruct v; try reflexivity; contradiction. }
  intros Hk. apply Hnone. revert Hk. unfold flatSchema, flatField.
  repeat match goal with
         | |- context [String.eqb k ?n] =>
             let E := fresh "E" in
             destruct (String.eqb k n) eqn:E;
             [apply String.eqb_eq in E; subst k |]
         end;
    cbn; intros H; try discriminate H; exact I.
Qed.

(** A string without white space is its own [trim]. *)
Lemma trim_without_space (s : string) :
  Sample.allChars (fun c => negb (JS.isSpace c)) s = true -> JS.trim s = s.
Proof.
  intros H. unfold JS.trim.
  assert (Hstart : JS.trimStart s = s).
  { destruct s as [| c s]; [reflexivity |].
    cbn [Sample.allChars] in H. apply andb_true_iff in H.
    destruct H as [Hc _]. apply negb_true_iff in Hc.
    cbn [JS.trimStart]. now rewrite Hc. }
  rewrite Hstart. induction s as [| c s IH]; [reflexivity |].
  cbn [Sample.allChars] in H. apply andb_true_iff in H.
  destruct H as [Hc Hs]. apply negb_true_iff in Hc.
  cbn [JS.trimEnd]. rewrite Hc. cbn [andb]. f_equal. apply IH; [exact Hs |].
  destruct s as [| d s]; [reflexivity |].
  cbn [Sample.allChars] in Hs. apply andb_true_iff in Hs.
  destruct Hs as [Hd _]. apply negb_true_iff in Hd.
  cbn [JS.trimStart]. now rewrite Hd.
Qed.

Lemma allChars_append (p : ascii -> bool) (s t : string) :
  Sample.allChars p (s ++ t)%string
  = Sample.allChars p s && Sample.allChars p t.
Proof.
  induction s as [| c s IH]; [reflexivity |].
  cbn [append Sample.allChars]. now rewrite IH, andb_assoc.
Qed.

(** The pattern that the city branch writes holds no white space, so the
    setter [trim] of the path [city] has nothing to strip from it. *)
Lemma city_pattern_is_trimmed (value : string) :
  JS.trim (JS.replaceRuns "[-\s]?" false value)
  = JS.replaceRuns "[-\s]?" false value.
Proof.
  apply trim_without_space.
  assert (H : forall inRun,
             Sample.allChars (fun c => negb (JS.isSpace c))
                             (JS.replaceRuns "[-\s]?" inRun value) = true);
    [| apply H].
  induction value as [| c value IH]; intros inRun; [reflexivity |].
  cbn [JS.replaceRuns].
  destruct (JS.isDashOrSpace c) eqn:Ec.
  - destruct inRun; [apply IH |].
    rewrite allChars_append, IH. reflexivity.
  - cbn [Sample.allChars]. rewrite IH, andb_true_r.
    unfold JS.isDashOrSpace in Ec. apply orb_false_iff in Ec.
    destruct Ec as [_ ->]. reflexivity.
Qed.

Section CastFacts.

Variable Number : string -> JS.num.
Variable regexTest : string -> string -> bool.
Variable numberToString : Q -> string.
Variable castElsewhere : string -> condition -> result (Flat -> bool).

(** A value that equals a literal as it is written equals the literal
    once it is cast: the literal has the type of the value already. *)
Lemma castAs_equal (t : schemaType) (l : literal) (q : castValue) (v : value) :
  typed t v ->
  castAs Number numberToString t (ofLiteral l) = Ok q ->
  equalsLiteral l v = true ->
  equalsCast q v = true.
Proof.
  intros Ht Hc He.
  destruct l as [s | n | b], v as [| | x | s' | | | | d |];
    cbn [equalsLiteral] in He; try discriminate;
    destruct t as [trim | |]; cbn [typed] in Ht; try contradiction;
    cbn in Hc; inversion Hc; subst q; cbn [equalsCast]; try exact He.
  apply String.eqb_eq in He. subst s'. apply String.eqb_eq.
  destruct trim; [now apply Ht | reflexivity].
Qed.

Lemma castEach_equal (t : schemaType) (ls : list literal)
      (qs : list castValue) (v : value) :
  typed t v ->
  castEach Number numberToString t (map ofLiteral ls) = Ok qs ->
  existsb (fun l => equalsLiteral l v) ls = true ->
  existsb (fun q => equalsCast q v) qs = true.
Proof.
  intros Ht. revert qs. induction ls as [| l ls IH]; intros qs Hc He;
    [discriminate |].
  cbn [map castEach] in Hc.
  destruct (castAs Number numberToString t (ofLiteral l)) as [q |] eqn:Eq;
    cbn [bind] in Hc; [| discriminate].
  destruct (castEach Number numberToString t (map ofLiteral ls))
    as [qs' |] eqn:Eqs; cbn [bind] in Hc; [| discriminate].
  inversion Hc; subst qs. cbn [existsb] in *.
  apply orb_true_iff in He. apply orb_true_iff. destruct He as [He | He].
  - left. exact (castAs_equal t l q v Ht Eq He).
  - right. now apply IH.
Qed.

(** The cast only widens: a value of the declared type that passes a term
    as it is written passes the term once it is cast. *)
Lemma castForQuery_widens (t : schemaType) (c : condition)
      (c' : castCondition) (v : value) :
  typed t v ->
  castForQuery Number numberToString t c = Ok c' ->
  holds regexTest c v = true ->
  holdsCast regexTest c' v = true.
Proof.
  intros Ht Hc Hh. destruct c as [l | ls | lo hi | p]; cbn [castForQuery] in Hc.
  - destruct (castAs Number numberToString t (ofLiteral l)) as [q |] eqn:Eq;
      cbn [bind] in Hc; [| discriminate].
    inversion Hc; subst c'. cbn [holdsCast holds] in *.
    exact (castAs_equal t l q v Ht Eq Hh).
  - destruct (castEach Number numberToString t (map ofLiteral ls))
      as [qs |] eqn:Eqs; cbn [bind] in Hc; [| discriminate].
    inversion Hc; subst c'. cbn [holdsCast holds] in *.
    exact (castEach_equal t ls qs v Ht Eqs Hh).
  - apply range_holds in Hh.
    destruct Hh as (a & b & x & -> & -> & -> & Hax & Hxb).
    destruct t as [trim | |]; cbn [typed] in Ht; try contradiction.
    cbn in Hc. inversion Hc; subst c'. cbn [holdsCast atLeast atMost].
    apply andb_true_iff. split; now apply Qle_bool_iff.
  - cbn [holds] in Hh. destruct v as [| | | s | | | | |]; try discriminate.
    destruct t as [trim | |]; cbn [typed] in Ht; try contradiction.
    inversion Hc; subst c'. exact Hh.
Qed.

Lemma castTerm_widens (k : string) (c : condition) (term : Flat -> bool)
      (f : Flat) :
  trimmed f ->
  castTerm Number regexTest numberToString castElsewhere k c = Ok term ->
  holds regexTest c (flatField k f) = true ->
  term f = true.
Proof.
  intros Hf Hc Hh. unfold castTerm in Hc.
  destruct (flatSchema k) as [t |] eqn:Hk.
  - destruct (castForQuery Number numberToString t c) as [c' |] eqn:Ec;
      cbn [bind] in Hc; [| discriminate].
    inversion Hc; subst term.
    exact (castForQuery_widens t c c' _ (flatField_typed k t f Hf Hk) Ec Hh).
  - rewrite (flatField_elsewhere regexTest k c f Hk) in Hh. discriminate.
Qed.

(** A flat that a filter selects in the aggregation is counted, whenever
    the count accepts the filter. *)
Lemma castFilter_widens (filter : filterDoc) (selects : Flat -> bool)
      (f : Flat) :
  trimmed f ->
  castFilter Number regexTest numberToString castElsewhere filter = Ok selects ->
  matches regexTest flatField filter f = true ->
  selects f = true.
Proof.
  intros Hf. revert selects.
  induction filter as [| [k c] rest IH]; intros selects Hc Hm.
  - cbn in Hc. inversion Hc. reflexivity.
  - cbn [castFilter] in Hc.
    destruct (castTerm Number regexTest numberToString castElsewhere k c)
      as [term |] eqn:Et; cbn [bind] in Hc; [| discriminate].
    destruct (castFilter Number regexTest numberToString castElsewhere rest)
      as [others |] eqn:Er; cbn [bind] in Hc; [| discriminate].
    inversion Hc; subst selects.
    cbn [matches forallb fst snd] in Hm.
    apply andb_true_iff in Hm. destruct Hm as [Hh Hrest].
    apply andb_true_iff. split.
    + exact (castTerm_widens k c term f Hf Et Hh).
    + exact (IH others eq_refl Hrest).
Qed.

End CastFacts.

Lemma filter_length_widens {A : Type} (p q : A -> bool) (l : list A) :
  (forall x, In x l -> p x = true -> q x = true) ->
  List.length (List.filter p l) <= List.length (List.filter q l).
Proof.
  induction l as [| x l IH]; intros H; [apply Nat.le_refl |].
  cbn [List.filter].
  assert (IH' : List.length (List.filter p l) <= List.length (List.filter q l))
    by (apply IH; intros y Hy; apply H; now right).
  destruct (p x) eqn:Ep.
  - rewrite (H x (or_introl eq_refl) Ep). cbn [List.length]. lia.
  - destruct (q x); cbn [List.length]; lia.
Qed.

Lemma lookupOwner_at_most_one (db : Db) (f : Flat) :
  NoDup (map user_id (Users db)) -> List.length (lookupOwner db f) <= 1.
Proof.
  unfold lookupOwner. rewrite length_map.
  induction (Users db) as [| u us IH]; cbn [map List.filter]; intros Hnd.
  - cbn. lia.
  - inversion Hnd as [| ? ? Hnotin Hnd']; subst.
    destruct (user_id u =? owner f) eqn:E; [| now apply IH].
    apply String.eqb_eq in E. cbn [List.length].
    rewrite (filter_none _ us); [cbn; lia |].
    intros v Hv. apply String.eqb_neq. intros Heq. apply Hnotin.
    rewrite E, <- Heq. now apply in_map.
Qed.

Lemma unwindOwner_length_le (db : Db) (l : list Flat) :
  NoDup (map user_id (Users db)) ->
  List.length (unwindOwner (map (fun f => (f, lookupOwner db f)) l))
  <= List.length l.
Proof.
  intros Hnd. induction l as [| f l IH]; [cbn; lia |].
  cbn [map unwindOwner flat_map fst snd].
  rewrite length_app, length_map.
  pose proof (lookupOwner_at_most_one db f Hnd).
  cbn [List.length]. unfold unwindOwner in IH. lia.
Qed.

(* ================================================================== *)
(** * The total count                                                  *)
(* ================================================================== *)

Section TotalCount.

Variable Number : string -> JS.num.
Variable regexTest : string -> string -> bool.
Variable sortDocs : forall A : Type, (A -> A -> comparison) -> list A -> list A.
Variable numberToString : Q -> string.
Variable castElsewhere : string -> condition -> result (Flat -> bool).
Hypothesis sortDocs_permutes :
  forall (A : Type) (cmp : A -> A -> comparison) (l : list A),
    Permutation l (sortDocs A cmp l).

Lemma unwindOwner_length (db : Db) (l : list Flat) :
  (forall f, In f l -> List.length (lookupOwner db f) = 1) ->
  List.length (unwindOwner (map (fun f => (f, lookupOwner db f)) l))
  = List.length l.
Proof.
  induction l as [| f l IH]; intros H; [reflexivity |].
  cbn [map unwindOwner flat_map fst snd].
  rewrite length_app, length_map, (H f (or_introl eq_refl)).
  cbn [List.length plus]. f_equal. apply IH. intros g Hg. apply H. now right.
Qed.

(** For flats the count, when it accepts the filter, is never below the
    size of the whole result: the flats are stored as the schema writes
    them, and no user identifier occurs twice. *)
Lemma flats_totalCount_covers_result (db : Db) (filter : filterDoc)
      (sortObj : sortSpec) (total : nat) :
  (forall f, In f (Flats db) -> trimmed f) ->
  NoDup (map user_id (Users db)) ->
  countFlats Number regexTest numberToString castElsewhere db filter
  = Ok total ->
  List.length (allListedFlats regexTest sortDocs db filter sortObj) <= total.
Proof.
  intros Hstored Hids Hcount. unfold countFlats in Hcount.
  destruct (castFilter Number regexTest numberToString castElsewhere filter)
    as [selects |] eqn:Ec; cbn [bind] in Hcount; [| discriminate].
  inversion Hcount; subst total. unfold allListedFlats.
  eapply Nat.le_trans; [apply (unwindOwner_length_le _ _ Hids) |].
  rewrite <- (Permutation_length (sortDocs_permutes _ _ _)).
  rewrite matchFlats_spec.
  apply filter_length_widens. intros f Hf Hm.
  exact (castFilter_widens Number regexTest numberToString castElsewhere
           filter selects f (Hstored f Hf) Ec Hm).
Qed.

(** The count of the users is taken with the first match stage, when the
    cast accepts it. *)
Lemma countUsers_Ok (db : Db) (m : MatchStage) (total : nat) :
  countUsers db m = Ok total ->
  total = List.length (List.filter (matchUser m) (Users db)).
Proof.
  unfold countUsers. destruct (castMatchStage m) as [m' |] eqn:Em;
    cbn [bind]; [| discriminate].
  intros H. inversion H.
  unfold castMatchStage in Em.
  destruct (match_birthDate m) as [[[lo |] [hi |]] |];
    inversion Em; reflexivity.
Qed.

(** For users the count is the size of the whole result when there is no
    filter on the number of flats. *)
Lemma users_totalCount_without_flatsCount (now : Date) (db : Db)
      (filters : query) (sortObj : sortSpec) (total : nat) :
  flatsCountStage Number filters = [] ->
  countUsers db (buildMatchStage Number now filters) = Ok total ->
  total = List.length
            (allUserRows Number regexTest sortDocs now db filters sortObj).
Proof.
  intros Hnone Hcount. apply countUsers_Ok in Hcount. subst total.
  unfold allUserRows, selectedUserRows.
  rewrite Hnone.
  rewrite <- (Permutation_length (sortDocs_permutes _ _ _)).
  assert (Hall : forall rows : list UserRow,
             List.filter (matches regexTest userRowField []) rows = rows).
  { induction rows as [| r rows IH]; [reflexivity |].
    cbn [List.filter matches forallb]. now rewrite <- IH at 2. }
  now rewrite Hall, length_map.
Qed.

(** With a filter on the number of flats the count can only exceed the
    size of the whole result. *)
Lemma users_totalCount_bounds_result (now : Date) (db : Db)
      (filters : query) (sortObj : sortSpec) (total : nat) :
  countUsers db (buildMatchStage Number now filters) = Ok total ->
  List.length (allUserRows Number regexTest sortDocs now db filters sortObj)
  <= total.
Proof.
  intros Hcount. apply countUsers_Ok in Hcount. subst total.
  unfold allUserRows, selectedUserRows.
  rewrite <- (Permutation_length (sortDocs_permutes _ _ _)).
  eapply Nat.le_trans; [apply filter_length_le |].
  now rewrite length_map.
Qed.

End TotalCount.

(** C1. [GET /users/allUsers?flatsCount=1-5] on two users, of whom one has
    published two flats and the other none: the whole result has one
    record, and [totalCount] is 2, because the count is taken with the
    first match stage only and leaves the filter on the number of flats
    out. *)
Theorem users_totalCount_ignores_flatsCount :
  let filters := [("flatsCount", "1-5")] in
  let whole := allUserRows Sample.digitsNumber Sample.cityRegexTest
                           Sample.insertionSort Sample.today Sample.sampleDb
                           filters defaultSort in
  let answer := getAllUsers Sample.digitsNumber Sample.cityRegexTest
                            Sample.insertionSort Sample.today Sample.sampleDb
                            filters in
  whole = [addFields Sample.today Sample.ana] /\
  dataOf answer = [project (addFields Sample.today Sample.ana)] /\
  totalCountOf answer = Some 2.
Proof. cbn zeta. repeat split; vm_compute; reflexivity. Qed.

(* ================================================================== *)
(** * Identifiers that have not the format of the store                *)
(* ================================================================== *)

(** [getFlatById] checks the identifier first: a malformed one is answered
    with 400 and the store is not called. *)
Lemma getFlatById_malformed_id (isValid : string -> bool) (flatId : string)
      (w : Api.World) :
  isValid flatId = false ->
  Api.getFlatById isValid flatId w
  = (Api.Failed 400 "Invalid flat ID format", w).
Proof.
  intros H. unfold Api.getFlatById, Api.tryCatch. rewrite H. reflexivity.
Qed.

(** A well-formed identifier of no flat is answered with 404, after the
    store was asked. *)
Lemma getFlatById_unknown_id (isValid : string -> bool) (flatId : string)
      (w : Api.World) :
  isValid flatId = true ->
  Api.findFlat (Api.db w) flatId = None ->
  Api.getFlatById isValid flatId w
  = (Api.Failed 404 "Flat not found",
     Api.mkWorld (Api.db w) (Api.calls w ++ [Api.FlatFindById flatId])).
Proof.
  intros Hv Hf.
  unfold Api.getFlatById, Api.tryCatch, Api.Flat_findById, Api.mbind, Api.call.
  rewrite Hv. cbn. rewrite Hf. reflexivity.
Qed.

(** [getUserById] has no such check: a malformed identifier goes to the
    store, whose cast error comes back as the answer 500. *)
Lemma getUserById_malformed_id (isValid : string -> bool) (id : string)
      (w : Api.World) :
  isValid id = false ->
  Api.getUserById isValid id w
  = (Api.Failed 500 "Error retrieving user",
     Api.mkWorld (Api.db w) (Api.calls w ++ [Api.UserFindById id])).
Proof.
  intros H.
  unfold Api.getUserById, Api.tryCatch, Api.User_findById, Api.mbind, Api.call.
  rewrite H. reflexivity.
Qed.

(** C2. The identifier [abc] has not the format of the store.
    [getFlatById] answers 400 without a call on the store;
    [getUserById] calls [User.findById("abc")] and answers 500, the
    answer it gives to any failure of the store. *)
Theorem malformed_identifier_abc :
  let w := Api.mkWorld Sample.sampleDb [] in
  Sample.hex24 "abc" = false /\
  Api.getFlatById Sample.hex24 "abc" w
  = (Api.Failed 400 "Invalid flat ID format", w) /\
  Api.getUserById Sample.hex24 "abc" w
  = (Api.Failed 500 "Error retrieving user",
     Api.mkWorld Sample.sampleDb [Api.UserFindById "abc"]).
Proof. cbn zeta. repeat split; reflexivity. Qed.

(* ================================================================== *)
(** * Messages                                                         *)
(* ================================================================== *)

Lemma find_pushMessage (flatId message : string) (now : Z) (l : list Flat)
      (f : Flat) :
  find (fun g => flat_id g =? flatId) l = Some f ->
  exists f',
    find (fun g => flat_id g =? flatId)
         (map (fun g => Api.pushMessage flatId message g now) l) = Some f' /\
    messages f' = messages f ++ [message] /\ owner f' = owner f /\
    flat_id f' = flat_id f.
Proof.
  induction l as [| g l IH]; cbn [find map]; [discriminate |].
  destruct (flat_id g =? flatId) eqn:E.
  - intros H. inversion H; subst g.
    unfold Api.pushMessage. rewrite E. cbn [flat_id]. rewrite E.
    eexists. split; [reflexivity |]. cbn. auto.
  - intros H. destruct (IH H) as [f' Hf'].
    unfold Api.pushMessage at 1. rewrite E, E. exists f'. exact Hf'.
Qed.

Lemma Flat_findById_valid (isValid : string -> bool) (id : string)
      (w : Api.World) :
  isValid id = true ->
  Api.Flat_findById isValid id w
  = (Ok (Api.findFlat (Api.db w) id),
     Api.mkWorld (Api.db w) (Api.calls w ++ [Api.FlatFindById id])).
Proof.
  intros H. unfold Api.Flat_findById, Api.mbind, Api.call.
  rewrite H. reflexivity.
Qed.

Lemma Message_create_valid (isValid : string -> bool) (newId : ObjectId)
      (now : Z) (c flat sender : string) (w : Api.World) :
  isValid flat = true ->
  JS.trim c <> "" ->
  String.length (JS.trim c) <= 1000 ->
  Api.Message_create isValid newId now (Some c) flat sender w
  = (Ok (mkMessage newId (JS.trim c) flat sender now),
     Api.mkWorld
       (mkDb (Flats (Api.db w)) (Users (Api.db w))
             (Messages (Api.db w)
                ++ [mkMessage newId (JS.trim c) flat sender now]))
       (Api.calls w ++ [Api.MessageCreate flat sender])).
Proof.
  intros Hv Hne Hlen.
  assert (He : (JS.trim c =? "") = false) by now apply String.eqb_neq.
  assert (Hl : (1000 <? String.length (JS.trim c))%nat = false)
    by now apply Nat.ltb_ge.
  unfold Api.Message_create, Api.mbind, Api.call.
  rewrite He, Hl, Hv. reflexivity.
Qed.

Lemma Flat_pushMessage_valid (isValid : string -> bool) (now : Z)
      (flat message : string) (w : Api.World) :
  isValid flat = true ->
  Api.Flat_pushMessage isValid now flat message w
  = (Ok tt,
     Api.mkWorld
       (mkDb (map (fun f => Api.pushMessage flat message f now)
                  (Flats (Api.db w)))
             (Users (Api.db w)) (Messages (Api.db w)))
       (Api.calls w ++ [Api.FlatPushMessage flat message])).
Proof.
  intros H. unfold Api.Flat_pushMessage, Api.mbind, Api.call.
  rewrite H. reflexivity.
Qed.

(** C9. On an existing flat, a message sent by the owner is answered with
    403 and leaves the three collections as they were; a message sent by
    anyone else, with a content that passes the schema, is answered with
    201, is added to the messages, and its identifier is added to the
    messages of the flat. *)
Theorem addMessage_owner_and_others
        (isValid : string -> bool) (newId : ObjectId) (now : Z)
        (flatId : string) (sender : ObjectId) (content : option string)
        (w : Api.World) (f : Flat)
        (Hvalid : isValid flatId = true)
        (Hflat : Api.findFlat (Api.db w) flatId = Some f) :
  (owner f = sender ->
   exists w',
     Api.addMessage isValid newId now flatId sender content w
     = (Api.Failed 403 "Owners cannot send messages to their own flats", w')
     /\ Api.db w' = Api.db w)
  /\
  (owner f <> sender ->
   forall c : string,
     content = Some c ->
     JS.trim c <> "" ->
     String.length (JS.trim c) <= 1000 ->
     let message := mkMessage newId (JS.trim c) flatId sender now in
     exists w' f',
       Api.addMessage isValid newId now flatId sender content w
       = (Api.Success 201 message, w')
       /\ Messages (Api.db w') = Messages (Api.db w) ++ [message]
       /\ Users (Api.db w') = Users (Api.db w)
       /\ Api.findFlat (Api.db w') flatId = Some f'
       /\ messages f' = messages f ++ [newId]
       /\ owner f' = owner f).
Proof.
  split.
  - intros Hown.
    unfold Api.addMessage, Api.tryCatch, Api.mbind.
    rewrite (Flat_findById_valid _ _ _ Hvalid), Hflat.
    apply String.eqb_eq in Hown. rewrite Hown.
    eexists. split; reflexivity.
  - intros Hother c -> Hne Hlen message.
    assert (Ho : (owner f =? sender) = false) by now apply String.eqb_neq.
    destruct (find_pushMessage flatId newId now _ _ Hflat)
      as [f' [Hf' [Hm [Hof _]]]].
    unfold Api.addMessage, Api.tryCatch, Api.mbind.
    rewrite (Flat_findById_valid _ _ _ Hvalid), Hflat, Ho.
    rewrite (Message_create_valid _ _ _ _ _ _ _ Hvalid Hne Hlen).
    rewrite (Flat_pushMessage_valid _ _ _ _ _ Hvalid).
    eexists. exists f'. split; [reflexivity |].
    cbn [Api.db Messages Users Flats message_id Api.findFlat].
    auto.
Qed.

Lemma addMessage_owner_and_others_witness :
  let w := Api.mkWorld Sample.sampleDb [] in
  let flat := flat_id Sample.albaFlat in
  let newId := "64d000000000000000000001" in
  (exists w',
      Api.addMessage Sample.hex24 newId 5000 flat (user_id Sample.ana)
                     (Some "Hello") w
      = (Api.Failed 403 "Owners cannot send messages to their own flats", w')
      /\ Api.db w' = Api.db w)
  /\
  (exists w' f',
      Api.addMessage Sample.hex24 newId 5000 flat (user_id Sample.dan)
                     (Some " Hello ") w
      = (Api.Success 201
           (mkMessage newId (JS.trim " Hello ") flat (user_id Sample.dan) 5000),
         w')
      /\ Messages (Api.db w')
         = Messages (Api.db w)
             ++ [mkMessage newId (JS.trim " Hello ") flat
                           (user_id Sample.dan) 5000]
      /\ Users (Api.db w') = Users (Api.db w)
      /\ Api.findFlat (Api.db w') flat = Some f'
      /\ messages f' = messages Sample.albaFlat ++ [newId]
      /\ owner f' = owner Sample.albaFlat).
Proof.
  cbn zeta. split.
  - apply (proj1 (addMessage_owner_and_others
                    Sample.hex24 "64d000000000000000000001" 5000
                    (flat_id Sample.albaFlat) (user_id Sample.ana)
                    (Some "Hello") (Api.mkWorld Sample.sampleDb [])
                    Sample.albaFlat eq_refl eq_refl)).
    reflexivity.
  - apply (proj2 (addMessage_owner_and_others
                    Sample.hex24 "64d000000000000000000001" 5000
                    (flat_id Sample.albaFlat) (user_id Sample.dan)
                    (Some " Hello ") (Api.mkWorld Sample.sampleDb [])
                    Sample.albaFlat eq_refl eq_refl)).
    + vm_compute. discriminate.
    + reflexivity.
    + vm_compute. discriminate.
    + apply Nat.leb_le. reflexivity.
Defined.

(* ================================================================== *)
(** * The role of a new account                                        *)
(* ================================================================== *)

Section Registration.

Variable nameOk : string -> bool.
Variable isEmail : string -> bool.
Variable passwordOk : string -> bool.
Variable bcryptHash : string -> nat -> string.

Let validate := Account.validate nameOk isEmail passwordOk.
Let preSave := Account.preSave bcryptHash.
Let save := Account.save nameOk isEmail passwordOk bcryptHash.

(** A document built from a body that gives a password has its path
    [password] modified. *)
Lemma newUser_password_modified (newId : ObjectId) (body : Account.Body) :
  Account.body_password body <> None ->
  Account.isModified "password" (Account.newUser newId body) = true.
Proof.
  destruct body as [first last dob mail pass r fav added].
  cbn [Account.body_password]. intros H.
  destruct pass as [p |]; [| congruence].
  destruct first, last, dob, mail, r, fav, added; reflexivity.
Qed.

(** A document that passes the validation has a password. *)
Lemma validate_password (today : Date) (doc : Account.UserDoc) :
  validate today doc = true -> Account.doc_password doc <> None.
Proof.
  unfold validate, Account.validate. intros H.
  repeat (apply andb_true_iff in H; destruct H as [H ?]).
  destruct (Account.doc_password doc); [discriminate | discriminate].
Qed.

(** The hook on a new document whose password was modified. *)
Lemma preSave_new_role (doc : Account.UserDoc) :
  Account.isNew doc = true ->
  Account.isModified "password" doc = true ->
  Account.doc_role (preSave doc) = "user".
Proof.
  intros Hnew Hmod. unfold preSave, Account.preSave.
  rewrite Hmod, Hnew. reflexivity.
Qed.

Lemma stored_role (now : Z) (doc : Account.UserDoc) (u : User) :
  Account.stored now doc = Some u -> role u = Account.doc_role doc.
Proof.
  unfold Account.stored.
  destruct (Account.doc_firstName doc), (Account.doc_lastName doc),
    (Account.doc_birthDate doc), (Account.doc_email doc),
    (Account.doc_password doc); try discriminate.
  intros H. inversion H. reflexivity.
Qed.

(** What [save] does to the store. *)
Lemma save_outcome (now : Z) (today : Date) (doc : Account.UserDoc)
      (w w' : Api.World) (r : result User) :
  save now today doc w = (r, w') ->
  match r with
  | Ok u =>
      validate today doc = true /\
      Account.stored now (preSave doc) = Some u /\
      Api.db w' = mkDb (Flats (Api.db w)) (Users (Api.db w) ++ [u])
                       (Messages (Api.db w))
  | Throw _ => Api.db w' = Api.db w
  end.
Proof.
  unfold save, Account.save, Api.mbind, Api.call.
  fold validate. fold preSave.
  destruct (validate today doc) eqn:Hv; cbn [negb].
  - destruct (Account.stored now (preSave doc)) as [u |] eqn:Hs.
    + cbn [Api.getDb Api.db].
      destruct (existsb _ _).
      * intros H. inversion H. reflexivity.
      * intros H. inversion H. auto.
    + intros H. inversion H. reflexivity.
  - intros H. inversion H. reflexivity.
Qed.

End Registration.

(** C10. Registration stores at most one new account and its role is
    [user], whatever role the body asks for: a body that passes the
    validation gives a password, so the pre-save hook, which runs on a
    modified password, reaches the line that sets the role of a new
    document. *)
Theorem registered_account_has_role_user
        (nameOk isEmail passwordOk : string -> bool)
        (bcryptHash : string -> nat -> string)
        (newId : ObjectId) (now : Z) (today : Date) (body : Account.Body)
        (w w' : Api.World) (answer : Api.response User)
        (Hrun : Account.register nameOk isEmail passwordOk bcryptHash
                                 newId now today body w = (answer, w')) :
  (forall u, In u (Users (Api.db w')) ->
             In u (Users (Api.db w)) \/ role u = "user")
  /\
  (Api.statusOf answer = 200 ->
   exists u, Users (Api.db w') = Users (Api.db w) ++ [u] /\ role u = "user")
  /\
  (Account.validate nameOk isEmail passwordOk today
                    (Account.newUser newId body) = true ->
   Account.doc_role (Account.preSave bcryptHash (Account.newUser newId body))
   = "user").
Proof.
  assert (Hrole : Account.validate nameOk isEmail passwordOk today
                                   (Account.newUser newId body) = true ->
                  Account.doc_role
                    (Account.preSave bcryptHash (Account.newUser newId body))
                  = "user").
  { intros Hv. apply preSave_new_role; [reflexivity |].
    apply newUser_password_modified.
    apply (validate_password _ _ _ today) in Hv.
    destruct body as [first last dob mail pass r fav added].
    cbn [Account.newUser Account.doc_password Account.body_password] in *.
    destruct pass; [discriminate | exact Hv]. }
  unfold Account.register, Api.tryCatch, Api.mbind, Account.User_create in Hrun.
  destruct (Account.save _ _ _ _ now today _ w) as [r w1] eqn:Hs.
  pose proof (save_outcome _ _ _ _ _ _ _ _ _ _ Hs) as Hout.
  destruct r as [u | e].
  - destruct Hout as [Hv [Hst Hdb]].
    cbn [Api.ret] in Hrun. inversion Hrun; subst answer w'.
    pose proof (stored_role _ _ _ Hst) as Hu. rewrite (Hrole Hv) in Hu.
    rewrite Hdb. cbn [Users]. repeat split.
    + intros x Hx. apply in_app_or in Hx.
      destruct Hx as [Hx | [<- | []]]; [now left | now right].
    + intros _. now exists u.
    + exact Hrole.
  - inversion Hrun; subst answer w'. rewrite Hout. repeat split.
    + intros x Hx. now left.
    + intros Hok. exfalso.
      destruct (e =? "ValidationError"); [discriminate Hok |].
      destruct (e =? "E11000"); discriminate Hok.
    + exact Hrole.
Qed.

Lemma registered_account_has_role_user_witness :
  let body :=
    Account.mkBody (Some "Ion") (Some "Pop") (Some (mkDate 1990 1 1))
                   (Some "Ion@Example.com") (Some "secret1!") (Some "admin")
                   None None in
  let run :=
    Account.register Sample.asciiNameOk Sample.asciiIsEmail
                     Sample.asciiPasswordOk Sample.plainHash
                     "64b000000000000000000003" 3000 Sample.today body
                     (Api.mkWorld Sample.sampleDb []) in
  Api.statusOf (fst run) = 200 /\
  exists u,
    Users (Api.db (snd run)) = Users Sample.sampleDb ++ [u] /\
    email u = "ion@example.com" /\ role u = "user".
Proof.
  cbn zeta.
  pose proof (registered_account_has_role_user
                Sample.asciiNameOk Sample.asciiIsEmail Sample.asciiPasswordOk
                Sample.plainHash "64b000000000000000000003" 3000 Sample.today
                (Account.mkBody (Some "Ion") (Some "Pop")
                                (Some (mkDate 1990 1 1))
                                (Some "Ion@Example.com") (Some "secret1!")
                                (Some "admin") None None)
                (Api.mkWorld Sample.sampleDb []) _ _
                (surjective_pairing _)) as [_ [Hstored _]].
  assert (Hok : Api.statusOf
                  (fst (Account.register
                          Sample.asciiNameOk Sample.asciiIsEmail
                          Sample.asciiPasswordOk Sample.plainHash
                          "64b000000000000000000003" 3000 Sample.today
                          (Account.mkBody (Some "Ion") (Some "Pop")
                                          (Some (mkDate 1990 1 1))
                                          (Some "Ion@Example.com")
                                          (Some "secret1!") (Some "admin")
                                          None None)
                          (Api.mkWorld Sample.sampleDb []))) = 200)
    by (vm_compute; reflexivity).
  split; [exact Hok |].
  destruct (Hstored Hok) as [u [Hu Hr]].
  exists u. split; [exact Hu |]. split; [| exact Hr].
  revert Hu. vm_compute. intros Hu. inversion Hu. reflexivity.
Defined.

(* ================================================================== *)
(** * The derived age                                                  *)
(* ================================================================== *)

(** The validator of the schema and the expression of the listing compute
    the same age. *)
Lemma validatorAge_ageExpr (today dob : Date) :
  Account.validatorAge today dob = ageExpr today dob.
Proof.
  unfold Account.validatorAge, ageExpr.
  assert (Hlt : (month today - 1 - (month dob - 1) <? 0)%Z
                = (month today <? month dob)%Z).
  { destruct (Z.ltb_spec (month today - 1 - (month dob - 1)) 0),
      (Z.ltb_spec (month today) (month dob)); (reflexivity || lia). }
  assert (Heq : (month today - 1 - (month dob - 1) =? 0)%Z
                = (month today =? month dob)%Z).
  { destruct (Z.eqb_spec (month today - 1 - (month dob - 1)) 0),
      (Z.eqb_spec (month today) (month dob)); (reflexivity || lia). }
  rewrite Hlt, Heq.
  destruct ((month today <? month dob)%Z
            || (month today =? month dob)%Z && (day today <? day dob)%Z); lia.
Qed.

(** The age is the number of whole years lived: the birthday of that rank
    has come, the next one has not. *)
Lemma ageExpr_whole_years (now birth : Date) :
  (1 <= month now <= 12)%Z -> (1 <= day now <= 31)%Z ->
  (1 <= month birth <= 12)%Z -> (1 <= day birth <= 31)%Z ->
  let n := ageExpr now birth in
  (ordinal (mkDate (year birth + n) (month birth) (day birth)) <= ordinal now
   < ordinal (mkDate (year birth + n + 1) (month birth) (day birth)))%Z.
Proof.
  intros Hm Hd Hm' Hd'. unfold ageExpr, ordinal. cbn [year month day].
  destruct (Z.ltb_spec (month now) (month birth));
    destruct (Z.eqb_spec (month now) (month birth));
    destruct (Z.ltb_spec (day now) (day birth));
    cbn [orb andb]; lia.
Qed.


(* ================================================================== *)
(** * Pages                                                            *)
(* ================================================================== *)

Lemma firstn_plus {A : Type} (a b : nat) (l : list A) :
  firstn (a + b) l = firstn a l ++ firstn b (skipn a l).
Proof.
  revert l. induction a as [| a IH]; intros l; [reflexivity |].
  destruct l as [| x l]; cbn [plus firstn skipn app].
  - now rewrite firstn_nil.
  - now rewrite IH.
Qed.

(** The windows of [L] documents taken one after the other, [N] of them,
    make up the first [N * L] documents. *)
Lemma windows_concat {A : Type} (whole : list A) (L N : nat) :
  List.concat (map (fun p => firstn L (skipn (p * L) whole)) (seq 0 N))
  = firstn (N * L) whole.
Proof.
  induction N as [| N IH]; [reflexivity |].
  rewrite seq_S, map_app, concat_app, IH. cbn [map List.concat plus].
  rewrite app_nil_r. cbn [mult].
  rewrite (Nat.add_comm L (N * L)). now rewrite firstn_plus.
Qed.

(** Pages 1 to [N] with [skip = (page - 1) * L] give back the whole list
    as soon as they cover it. *)
Lemma pages_concat {A : Type} (whole : list A) (L N : nat) :
  List.length whole <= N * L ->
  List.concat (map (fun p => firstn L (skipn ((p - 1) * L) whole)) (seq 1 N))
  = whole.
Proof.
  intros Hcover. rewrite <- seq_shift, map_map.
  rewrite (map_ext _ (fun p => firstn L (skipn (p * L) whole))).
  - rewrite windows_concat. now apply firstn_all2.
  - intros p. now rewrite Nat.sub_succ, Nat.sub_0_r.
Qed.

Lemma toCount_whole (q : Q) (n : nat) :
  (q == inject_Z (Z.of_nat n))%Q -> toCount (JS.Num q) = Some n.
Proof.
  intros H. unfold toCount.
  assert (Hfloor : Qfloor q = Z.of_nat n).
  { rewrite H. apply Qfloor_Z. }
  rewrite Hfloor.
  assert (Qeq_bool q (inject_Z (Z.of_nat n)) = true) as ->
      by now apply Qeq_bool_iff.
  assert (Qle_bool 0 q = true) as ->.
  { apply Qle_bool_iff. rewrite H.
    change 0%Q with (inject_Z 0). rewrite <- Zle_Qle. lia. }
  cbn [andb]. now rewrite Nat2Z.id.
Qed.

Lemma skip_of_page (qp ql : Q) (p L : nat) :
  1 <= p ->
  (qp == inject_Z (Z.of_nat p))%Q ->
  (ql == inject_Z (Z.of_nat L))%Q ->
  toCount (JS.mul (JS.sub (JS.Num qp) (JS.Num 1)) (JS.Num ql))
  = Some ((p - 1) * L).
Proof.
  intros Hp Hqp Hql. cbn [JS.mul JS.sub]. apply toCount_whole.
  rewrite Hqp, Hql.
  rewrite Nat2Z.inj_mul, Nat2Z.inj_sub by exact Hp.
  rewrite inject_Z_mult. unfold Zminus. rewrite inject_Z_plus, inject_Z_opp.
  reflexivity.
Qed.

Lemma getAllUsers_in_window
      (Number : string -> JS.num) (regexTest : string -> string -> bool)
      (sortDocs : forall A : Type, (A -> A -> comparison) -> list A -> list A)
      (now : Date) (db : Db) (q : query) (s l : nat) :
  toCount (skipOf Number q) = Some s ->
  toCount (limitOf Number q) = Some (S l) ->
  getAllUsers Number regexTest sortDocs now db q
  = let users :=
      map project
          (firstn (S l)
             (skipn s (allUserRows Number regexTest sortDocs now db
                                   (filtersOf q)
                                   (sortStage (JS.objGet "sort" q))))) in
    match countUsers db (buildMatchStage Number now (filtersOf q)) with
    | Ok totalCount =>
        Page 200 (pageOf Number q) (limitOf Number q)
             totalCount (List.length users) users
    | Throw _ => Failed 500 "Error retrieving users"
    end.
Proof.
  intros Hs Hl. unfold getAllUsers, aggregateUsers, skipStage, limitStage.
  rewrite Hs. cbn [bind]. rewrite Hl. reflexivity.
Qed.

Lemma pageRequest_filters (page limit : string) (q : query) :
  filtersOf (pageRequest page limit q) = filtersOf q.
Proof. reflexivity. Qed.

Lemma pageRequest_sort (page limit : string) (q : query) :
  JS.objGet "sort" (pageRequest page limit q) = JS.objGet "sort" q.
Proof. reflexivity. Qed.

Lemma pageOf_pageRequest (Number : string -> JS.num) (page limit : string)
      (q : query) :
  pageOf Number (pageRequest page limit q) = Number page.
Proof. reflexivity. Qed.

Lemma limitOf_pageRequest (Number : string -> JS.num) (page limit : string)
      (q : query) :
  limitOf Number (pageRequest page limit q) = Number limit.
Proof. reflexivity. Qed.

(** The window of the request for page [p] with the limit [L]. *)
Lemma window_of_page (Number : string -> JS.num) (page limit : string)
      (q : query) (qp ql : Q) (p l : nat) :
  1 <= p ->
  Number page = JS.Num qp -> (qp == inject_Z (Z.of_nat p))%Q ->
  Number limit = JS.Num ql -> (ql == inject_Z (Z.of_nat (S l)))%Q ->
  toCount (skipOf Number (pageRequest page limit q)) = Some ((p - 1) * S l) /\
  toCount (limitOf Number (pageRequest page limit q)) = Some (S l).
Proof.
  intros Hp Hpage Hqp Hlimit Hql.
  unfold skipOf. rewrite pageOf_pageRequest, limitOf_pageRequest, Hpage, Hlimit.
  split; [now apply skip_of_page | now apply toCount_whole].
Qed.

(** A page of flats that is answered with success: its total is the
    count, and its records are its window of the whole result. *)
Lemma flats_page_answered
      (Number : string -> JS.num) (regexTest : string -> string -> bool)
      (sortDocs : forall A : Type, (A -> A -> comparison) -> list A -> list A)
      (numberToString : Q -> string)
      (castElsewhere : string -> condition -> result (Flat -> bool))
      (db : Db) (q : query) (s l : nat) :
  toCount (skipOf Number q) = Some s ->
  toCount (limitOf Number q) = Some (S l) ->
  statusOf (getAllFlats Number regexTest sortDocs numberToString
                        castElsewhere db q) = 200 ->
  exists total,
    countFlats Number regexTest numberToString castElsewhere db
               (buildFilter Number (filtersOf q)) = Ok total
    /\ totalCountOf (getAllFlats Number regexTest sortDocs numberToString
                                 castElsewhere db q) = Some total
    /\ dataOf (getAllFlats Number regexTest sortDocs numberToString
                           castElsewhere db q)
       = firstn (S l)
           (skipn s (allListedFlats regexTest sortDocs db
                       (buildFilter Number (filtersOf q))
                       (sortStage (JS.objGet "sort" q)))).
Proof.
  intros Hs Hl.
  rewrite (getAllFlats_in_window _ _ _ _ _ _ _ _ _ Hs Hl). cbn zeta.
  destruct (countFlats _ _ _ _ _ _) as [total |];
    cbn [statusOf totalCountOf dataOf]; [| discriminate].
  intros _. exists total. repeat split.
Qed.

Lemma users_page_answered
      (Number : string -> JS.num) (regexTest : string -> string -> bool)
      (sortDocs : forall A : Type, (A -> A -> comparison) -> list A -> list A)
      (now : Date) (db : Db) (q : query) (s l : nat) :
  toCount (skipOf Number q) = Some s ->
  toCount (limitOf Number q) = Some (S l) ->
  statusOf (getAllUsers Number regexTest sortDocs now db q) = 200 ->
  exists total,
    countUsers db (buildMatchStage Number now (filtersOf q)) = Ok total
    /\ totalCountOf (getAllUsers Number regexTest sortDocs now db q)
       = Some total
    /\ dataOf (getAllUsers Number regexTest sortDocs now db q)
       = map project
           (firstn (S l)
              (skipn s (allUserRows Number regexTest sortDocs now db
                          (filtersOf q) (sortStage (JS.objGet "sort" q))))).
Proof.
  intros Hs Hl.
  rewrite (getAllUsers_in_window _ _ _ _ _ _ _ _ Hs Hl). cbn zeta.
  destruct (countUsers _ _) as [total |];
    cbn [statusOf totalCountOf dataOf]; [| discriminate].
  intros _. exists total. repeat split.
Qed.

(** The count of the flats, when it accepts the filter, is never below the
    size of a sorted arrangement of the selected flats with their
    owners. *)
Lemma flats_count_covers
      (Number : string -> JS.num) (regexTest : string -> string -> bool)
      (numberToString : Q -> string)
      (castElsewhere : string -> condition -> result (Flat -> bool))
      (db : Db) (filter : filterDoc) (sorted : list Flat) (total : nat) :
  (forall f, In f (Flats db) -> trimmed f) ->
  NoDup (map user_id (Users db)) ->
  Permutation (matchFlats regexTest db filter) sorted ->
  countFlats Number regexTest numberToString castElsewhere db filter
  = Ok total ->
  List.length (unwindOwner (map (fun f => (f, lookupOwner db f)) sorted))
  <= total.
Proof.
  intros Hstored Hids Hperm Hcount. unfold countFlats in Hcount.
  destruct (castFilter Number regexTest numberToString castElsewhere filter)
    as [selects |] eqn:Ec; cbn [bind] in Hcount; [| discriminate].
  inversion Hcount; subst total.
  eapply Nat.le_trans; [apply (unwindOwner_length_le _ _ Hids) |].
  rewrite <- (Permutation_length Hperm), matchFlats_spec.
  apply filter_length_widens. intros f Hf Hm.
  exact (castFilter_widens Number regexTest numberToString castElsewhere
           filter selects f (Hstored f Hf) Ec Hm).
Qed.

(** Two sorted arrangements of the same documents are the same list when
    no two different documents are each before the other. *)
Lemma sorted_arrangement_unique {A : Type} (R : A -> A -> Prop) (l1 l2 : list A) :
  Permutation l1 l2 ->
  StronglySorted R l1 -> StronglySorted R l2 ->
  (forall a b, In a l1 -> In b l1 -> R a b -> R b a -> a = b) ->
  l1 = l2.
Proof.
  revert l2. induction l1 as [| a t1 IH]; intros l2 Hperm Hs1 Hs2 Hanti.
  - apply Permutation_nil in Hperm. now subst.
  - destruct l2 as [| b t2].
    + apply Permutation_sym, Permutation_nil in Hperm. discriminate.
    + inversion Hs1 as [| ? ? Hs1' Hall1]; subst.
      inversion Hs2 as [| ? ? Hs2' Hall2]; subst.
      rewrite Forall_forall in Hall1, Hall2.
      assert (Hab : a = b).
      { assert (Hb : In b (a :: t1))
          by (apply (Permutation_in _ (Permutation_sym Hperm)); now left).
        assert (Ha : In a (b :: t2))
          by (apply (Permutation_in _ Hperm); now left).
        destruct Hb as [Hb | Hb]; [exact Hb |].
        destruct Ha as [Ha | Ha]; [now symmetry |].
        apply Hanti; [now left | now right | now apply Hall1 |].
        now apply Hall2. }
      subst b. f_equal. apply IH; auto.
      * now apply Permutation_cons_inv in Hperm.
      * intros x y Hx Hy. apply Hanti; now right.
Qed.

(** When no two selected documents are level under the order asked for,
    every [$sort] that keeps its promise returns the same arrangement. *)
Lemma sorted_result_determined {A : Type} (cmp : A -> A -> comparison)
      (l out1 out2 : list A) :
  sortedBy cmp l out1 ->
  sortedBy cmp l out2 ->
  (forall a b, In a l -> In b l -> cmp a b <> Gt -> cmp b a <> Gt -> a = b) ->
  out1 = out2.
Proof.
  intros [Hp1 Hs1] [Hp2 Hs2] Hstrict.
  apply (sorted_arrangement_unique (fun a b => cmp a b <> Gt)).
  - eapply Permutation_trans; [apply Permutation_sym, Hp1 | exact Hp2].
  - exact Hs1.
  - exact Hs2.
  - intros a b Ha Hb.
    apply Hstrict; apply (Permutation_in _ (Permutation_sym Hp1)); assumption.
Qed.

(** C6, as the code supports it.  The query, the limit [L >= 1] and the
    store are fixed, and each of the requests for the pages 1 to [N] is
    served by a [$sort] of its own that keeps its promise ([sortDocs p]
    serves page [p], and [sortDocs 0] the request without pages); [N * L]
    is small enough for the windows to be computed exactly.  When no two
    selected records are level under the order asked for and the first
    page is answered with success, every page is, with the same
    [totalCount], and once [N * L] covers it the [data] of the pages, put
    end to end, are the whole filtered and sorted result: nothing is
    repeated and nothing is left out.  Both for [GET /flats] (the flats
    being stored as the schema writes them) and for
    [GET /users/allUsers]. *)
Theorem pages_reproduce_a_strictly_sorted_result
        (Number : string -> JS.num)
        (regexTest : string -> string -> bool)
        (sortDocs : nat -> forall A : Type,
                      (A -> A -> comparison) -> list A -> list A)
        (numberToString : Q -> string)
        (castElsewhere : string -> condition -> result (Flat -> bool))
        (now : Date) (db : Db) (q : query) (L N : nat)
        (limit : string) (page : nat -> string) (ql : Q)
        (HL : 1 <= L) (HN : 1 <= N)
        (Hexact : (Z.of_nat N * Z.of_nat L <= 2 ^ 53)%Z)
        (Hlimit : Number limit = JS.Num ql)
        (Hql : (ql == inject_Z (Z.of_nat L))%Q)
        (Hpage : forall p, 1 <= p <= N ->
                           exists qp, Number (page p) = JS.Num qp /\
                                      (qp == inject_Z (Z.of_nat p))%Q)
        (Hids : NoDup (map user_id (Users db))) :
  let filter := buildFilter Number (filtersOf q) in
  let sortObj := sortStage (JS.objGet "sort" q) in
  let flatsPage p :=
    getAllFlats Number regexTest (sortDocs p) numberToString castElsewhere
                db (pageRequest (page p) limit q) in
  let usersPage p :=
    getAllUsers Number regexTest (sortDocs p) now db
                (pageRequest (page p) limit q) in
  let selectedFlats := matchFlats regexTest db filter in
  let selectedUsers := selectedUserRows Number regexTest now db (filtersOf q) in
  ((forall p, p <= N ->
      sortedBy (compareBy flatField sortObj) selectedFlats
               (sortDocs p Flat (compareBy flatField sortObj) selectedFlats)) ->
   (forall f g, In f selectedFlats -> In g selectedFlats ->
                compareBy flatField sortObj f g <> Gt ->
                compareBy flatField sortObj g f <> Gt -> f = g) ->
   (forall f, In f (Flats db) -> trimmed f) ->
   statusOf (flatsPage 1) = 200 ->
   exists total,
     (forall p, 1 <= p <= N ->
                statusOf (flatsPage p) = 200 /\
                totalCountOf (flatsPage p) = Some total) /\
     (total <= N * L ->
      List.concat (map (fun p => dataOf (flatsPage p)) (seq 1 N))
      = allListedFlats regexTest (sortDocs 0) db filter sortObj))
  /\
  ((forall p, p <= N ->
      sortedBy (compareBy userRowField sortObj) selectedUsers
               (sortDocs p UserRow (compareBy userRowField sortObj)
                         selectedUsers)) ->
   (forall r r', In r selectedUsers -> In r' selectedUsers ->
                 compareBy userRowField sortObj r r' <> Gt ->
                 compareBy userRowField sortObj r' r <> Gt -> r = r') ->
   statusOf (usersPage 1) = 200 ->
   exists total,
     (forall p, 1 <= p <= N ->
                statusOf (usersPage p) = 200 /\
                totalCountOf (usersPage p) = Some total) /\
     (total <= N * L ->
      List.concat (map (fun p => dataOf (usersPage p)) (seq 1 N))
      = map project
            (allUserRows Number regexTest (sortDocs 0) now db (filtersOf q)
                         sortObj))).
Proof.
  destruct L as [| l]; [lia |].
  assert (Hwindow : forall p, 1 <= p <= N ->
            toCount (skipOf Number (pageRequest (page p) limit q))
            = Some ((p - 1) * S l) /\
            toCount (limitOf Number (pageRequest (page p) limit q))
            = Some (S l)).
  { intros p Hp. destruct (Hpage p Hp) as [qp [Hn Hq]].
    now apply (window_of_page Number (page p) limit q qp ql). }
  cbn zeta. split.
  - intros Hsorted Hstrict Hstored Hok.
    destruct (Hwindow 1 ltac:(lia)) as [Hs1 Hl1].
    destruct (flats_page_answered _ _ _ _ _ _ _ _ _ Hs1 Hl1 Hok)
      as (total & Hcount & _ & _).
    rewrite pageRequest_filters in Hcount.
    assert (Hsame : forall p, p <= N ->
              sortDocs p Flat
                (compareBy flatField (sortStage (JS.objGet "sort" q)))
                (matchFlats regexTest db (buildFilter Number (filtersOf q)))
              = sortDocs 0 Flat
                  (compareBy flatField (sortStage (JS.objGet "sort" q)))
                  (matchFlats regexTest db (buildFilter Number (filtersOf q)))).
    { intros p Hp.
      exact (sorted_result_determined _ _ _ _
               (Hsorted p Hp) (Hsorted 0 ltac:(lia)) Hstrict). }
    assert (Hpagep : forall p, 1 <= p <= N ->
              (statusOf
                 (getAllFlats Number regexTest (sortDocs p) numberToString
                              castElsewhere db (pageRequest (page p) limit q))
               = 200 /\
               totalCountOf
                 (getAllFlats Number regexTest (sortDocs p) numberToString
                              castElsewhere db (pageRequest (page p) limit q))
               = Some total)
              /\ dataOf
                   (getAllFlats Number regexTest (sortDocs p) numberToString
                                castElsewhere db (pageRequest (page p) limit q))
                 = firstn (S l)
                     (skipn ((p - 1) * S l)
                        (allListedFlats regexTest (sortDocs 0) db
                           (buildFilter Number (filtersOf q))
                           (sortStage (JS.objGet "sort" q))))).
    { intros p Hp. destruct (Hwindow p Hp) as [Hs Hl].
      rewrite (getAllFlats_in_window _ _ _ _ _ _ _ _ _ Hs Hl). cbn zeta.
      rewrite pageRequest_filters, pageRequest_sort, Hcount.
      cbn [statusOf totalCountOf dataOf].
      split; [split; reflexivity |].
      unfold allListedFlats. now rewrite (Hsame p ltac:(lia)). }
    exists total. split; [intros p Hp; apply (Hpagep p Hp) |].
    intros Hcover.
    rewrite (map_ext_in _
               (fun p => firstn (S l)
                           (skipn ((p - 1) * S l)
                              (allListedFlats regexTest (sortDocs 0) db
                                 (buildFilter Number (filtersOf q))
                                 (sortStage (JS.objGet "sort" q)))))).
    + apply pages_concat.
      eapply Nat.le_trans; [| exact Hcover].
      unfold allListedFlats.
      destruct (Hsorted 0 ltac:(lia)) as [Hperm _].
      exact (flats_count_covers Number regexTest numberToString castElsewhere
               db _ _ total Hstored Hids Hperm Hcount).
    + intros p Hp. apply in_seq in Hp. apply (Hpagep p). lia.
  - intros Hsorted Hstrict Hok.
    destruct (Hwindow 1 ltac:(lia)) as [Hs1 Hl1].
    destruct (users_page_answered _ _ _ _ _ _ _ _ Hs1 Hl1 Hok)
      as (total & Hcount & _ & _).
    rewrite pageRequest_filters in Hcount.
    assert (Hsame : forall p, p <= N ->
              sortDocs p UserRow
                (compareBy userRowField (sortStage (JS.objGet "sort" q)))
                (selectedUserRows Number regexTest now db (filtersOf q))
              = sortDocs 0 UserRow
                  (compareBy userRowField (sortStage (JS.objGet "sort" q)))
                  (selectedUserRows Number regexTest now db (filtersOf q))).
    { intros p Hp.
      exact (sorted_result_determined _ _ _ _
               (Hsorted p Hp) (Hsorted 0 ltac:(lia)) Hstrict). }
    assert (Hpagep : forall p, 1 <= p <= N ->
              (statusOf
                 (getAllUsers Number regexTest (sortDocs p) now db
                              (pageRequest (page p) limit q))
               = 200 /\
               totalCountOf
                 (getAllUsers Number regexTest (sortDocs p) now db
                              (pageRequest (page p) limit q))
               = Some total)
              /\ dataOf
                   (getAllUsers Number regexTest (sortDocs p) now db
                                (pageRequest (page p) limit q))
                 = map project
                     (firstn (S l)
                        (skipn ((p - 1) * S l)
                           (allUserRows Number regexTest (sortDocs 0) now db
                              (filtersOf q)
                              (sortStage (JS.objGet "sort" q)))))).
    { intros p Hp. destruct (Hwindow p Hp) as [Hs Hl].
      rewrite (getAllUsers_in_window _ _ _ _ _ _ _ _ Hs Hl). cbn zeta.
      rewrite pageRequest_filters, pageRequest_sort, Hcount.
      cbn [statusOf totalCountOf dataOf].
      split; [split; reflexivity |].
      unfold allUserRows. now rewrite (Hsame p ltac:(lia)). }
    exists total. split; [intros p Hp; apply (Hpagep p Hp) |].
    intros Hcover.
    rewrite (map_ext_in _
               (fun p => map project
                           (firstn (S l)
                              (skipn ((p - 1) * S l)
                                 (allUserRows Number regexTest (sortDocs 0)
                                    now db (filtersOf q)
                                    (sortStage (JS.objGet "sort" q))))))).
    + rewrite <- (map_map (fun p => firstn (S l) (skipn ((p - 1) * S l) _))
                          (map project)).
      rewrite <- concat_map. f_equal.
      apply pages_concat.
      eapply Nat.le_trans; [| exact Hcover].
      apply countUsers_Ok in Hcount. subst total.
      unfold allUserRows.
      destruct (Hsorted 0 ltac:(lia)) as [Hperm _].
      rewrite <- (Permutation_length Hperm). unfold selectedUserRows.
      eapply Nat.le_trans; [apply filter_length_le |].
      now rewrite length_map.
    + intros p Hp. apply in_seq in Hp. apply (Hpagep p). lia.
Qed.

Lemma sortFromTheEnd_permutes (A : Type) (cmp : A -> A -> comparison)
      (l : list A) :
  Permutation l (Sample.sortFromTheEnd A cmp l).
Proof.
  unfold Sample.sortFromTheEnd.
  eapply Permutation_trans; [apply Permutation_rev |].
  apply insertionSort_permutes.
Qed.

Lemma pages_reproduce_a_strictly_sorted_result_witness :
  let q := [("rentPrice", "300-400")] in
  let sortOf (p : nat) : forall A : Type,
      (A -> A -> comparison) -> list A -> list A :=
    if Nat.even p then Sample.insertionSort else Sample.sortFromTheEnd in
  let flatsPage p :=
    getAllFlats Sample.digitsNumber Sample.cityRegexTest (sortOf p)
                Sample.wholeNumberString Sample.keepAsWritten
                Sample.sampleDb (pageRequest (Sample.pageLabel p) "1" q) in
  let usersPage p :=
    getAllUsers Sample.digitsNumber Sample.cityRegexTest (sortOf p)
                Sample.today Sample.sampleDb
                (pageRequest (Sample.pageLabel p) "1" q) in
  List.concat (map (fun p => dataOf (flatsPage p)) (seq 1 2))
  = [mkListedFlat Sample.clujFlat Sample.anaInfo;
     mkListedFlat Sample.albaFlat Sample.anaInfo]
  /\
  List.concat (map (fun p => dataOf (usersPage p)) (seq 1 2))
  = [project (addFields Sample.today Sample.dan);
     project (addFields Sample.today Sample.ana)].
Proof.
  cbn zeta.
  set (sortOf := fun p : nat =>
                   if Nat.even p
                   then Sample.insertionSort else Sample.sortFromTheEnd).
  assert (Hpage : forall p, 1 <= p <= 2 ->
            exists qp, Sample.digitsNumber (Sample.pageLabel p) = JS.Num qp /\
                       (qp == inject_Z (Z.of_nat p))%Q).
  { intros p Hp.
    assert (Hcases : p = 1 \/ p = 2) by lia.
    destruct Hcases as [-> | ->]; eexists; split; reflexivity. }
  assert (Hthree : forall p, p <= 2 -> p = 0 \/ p = 1 \/ p = 2) by (intros; lia).
  destruct (pages_reproduce_a_strictly_sorted_result
              Sample.digitsNumber Sample.cityRegexTest sortOf
              Sample.wholeNumberString Sample.keepAsWritten
              Sample.today Sample.sampleDb
              [("rentPrice", "300-400")] 1 2 "1" Sample.pageLabel 1%Q
              (le_n 1) ltac:(lia) ltac:(vm_compute; discriminate)
              eq_refl (Qeq_refl _) Hpage
              ltac:(repeat constructor; cbn; intuition discriminate))
    as [Hflats Husers].
  split.
  - destruct Hflats as (total & Htotal & Hwhole).
    + intros p Hp.
      destruct (Hthree p Hp) as [-> | [-> | ->]];
        (split;
         [first [apply insertionSort_permutes | apply sortFromTheEnd_permutes]
         | vm_compute; repeat constructor; discriminate]).
    + intros f g [<- | [<- | []]] [<- | [<- | []]]; vm_compute;
        intros H1 H2; try reflexivity; exfalso;
        first [now apply H1 | now apply H2].
    + intros f [<- | [<- | []]]; repeat split; reflexivity.
    + reflexivity.
    + destruct (Htotal 1 ltac:(lia)) as [_ H1]. vm_compute in H1.
      inversion H1; subst total.
      rewrite (Hwhole ltac:(lia)). reflexivity.
  - destruct Husers as (total & Htotal & Hwhole).
    + intros p Hp.
      destruct (Hthree p Hp) as [-> | [-> | ->]];
        (split;
         [first [apply insertionSort_permutes | apply sortFromTheEnd_permutes]
         | vm_compute; repeat constructor; discriminate]).
    + intros r r' [<- | [<- | []]] [<- | [<- | []]]; vm_compute;
        intros H1 H2; try reflexivity; exfalso;
        first [now apply H1 | now apply H2].
    + reflexivity.
    + destruct (Htotal 1 ltac:(lia)) as [_ H1]. vm_compute in H1.
      inversion H1; subst total.
      rewrite (Hwhole ltac:(lia)). reflexivity.
Defined.

(** C6 as stated fails when two selected records are level under the
    order asked for.  Two flats with the same rent, [sort=rentPrice],
    [limit=1], two pages, which cover [totalCount = 2], and no write in
    between.  The [$sort] that serves the first request leaves the two
    flats in the order Alba, Cluj; the [$sort] that serves the second
    leaves them in the order Cluj, Alba.  Both keep the promise of
    [$sort], for the handler adds no key that would decide between the
    two flats.  Both pages are answered with success, and both hold Alba:
    put end to end they repeat one record and leave the other out. *)
Lemma pages_as_stated_counterexample :
  let q := [("sort", "rentPrice")] in
  let cmp := compareBy flatField [("rentPrice", Asc)] in
  let alba := mkListedFlat Sample.albaFlat Sample.anaInfo in
  let cluj := mkListedFlat Sample.clujFlat Sample.anaInfo in
  let request sortDocs page :=
    getAllFlats Sample.digitsNumber Sample.cityRegexTest sortDocs
                Sample.wholeNumberString Sample.keepAsWritten
                Sample.sampleDb (pageRequest page "1" q) in
  let page1 := request Sample.insertionSort "1" in
  let page2 := request Sample.sortFromTheEnd "2" in
  sortStage (JS.objGet "sort" q) = [("rentPrice", Asc)]
  /\ sortedBy cmp (Flats Sample.sampleDb)
              (Sample.insertionSort Flat cmp (Flats Sample.sampleDb))
  /\ sortedBy cmp (Flats Sample.sampleDb)
              (Sample.sortFromTheEnd Flat cmp (Flats Sample.sampleDb))
  /\ allListedFlats Sample.cityRegexTest Sample.insertionSort Sample.sampleDb
                    [] [("rentPrice", Asc)] = [alba; cluj]
  /\ allListedFlats Sample.cityRegexTest Sample.sortFromTheEnd Sample.sampleDb
                    [] [("rentPrice", Asc)] = [cluj; alba]
  /\ page1 = Page 200 (JS.Num 1) (JS.Num 1) 2 1 [alba]
  /\ page2 = Page 200 (JS.Num 2) (JS.Num 1) 2 1 [alba]
  /\ dataOf page1 ++ dataOf page2 = [alba; alba]
  /\ ~ NoDup (dataOf page1 ++ dataOf page2)
  /\ ~ In cluj (dataOf page1 ++ dataOf page2).
Proof.
  cbn zeta.
  split; [reflexivity |].
  split; [split; [apply insertionSort_permutes
                 | vm_compute; repeat constructor; discriminate] |].
  split; [split; [apply sortFromTheEnd_permutes
                 | vm_compute; repeat constructor; discriminate] |].
  split; [reflexivity |]. split; [reflexivity |].
  split; [reflexivity |]. split; [reflexivity |].
  split; [reflexivity |]. split.
  - vm_compute. intros H. inversion H as [| x l Hnotin _]; subst.
    apply Hnotin. now left.
  - vm_compute. intros [H | [H | []]]; discriminate H.
Qed.

(* ================================================================== *)
(** * Sorting one way and the other                                    *)
(* ================================================================== *)

Lemma compareList_antisym {A : Type} (cmp : A -> A -> comparison) :
  (forall x y, cmp y x = CompOpp (cmp x y)) ->
  forall l1 l2, compareList cmp l2 l1 = CompOpp (compareList cmp l1 l2).
Proof.
  intros Hcmp. induction l1 as [| x l1 IH]; intros [| y l2];
    cbn [compareList]; try reflexivity.
  rewrite (Hcmp x y), IH. now destruct (cmp x y).
Qed.

Lemma comparePair_antisym (p1 p2 : string * string) :
  comparePair p2 p1 = CompOpp (comparePair p1 p2).
Proof.
  unfold comparePair.
  rewrite (String.compare_antisym (fst p2) (fst p1)).
  rewrite (String.compare_antisym (snd p2) (snd p1)).
  now destruct (String.compare (fst p1) (fst p2)).
Qed.

(** The comparison of the store reads the same from both sides. *)
Lemma compareValue_antisym (a b : value) :
  compareValue b a = CompOpp (compareValue a b).
Proof.
  destruct a, b; cbn [compareValue rank]; try reflexivity.
  - symmetry. apply Qcompare_antisym.
  - apply String.compare_antisym.
  - apply compareList_antisym, comparePair_antisym.
  - apply compareList_antisym. intros x y. apply String.compare_antisym.
  - apply String.compare_antisym.
  - now destruct b, b0.
  - apply Z.compare_antisym.
Qed.

Lemma sortKey_scalar (d : direction) (v : value) :
  isArray v = false -> sortKey d v = v.
Proof. destruct v; try reflexivity. discriminate. Qed.

Lemma StronglySorted_snoc {A : Type} (R : A -> A -> Prop) (l : list A) (a : A) :
  StronglySorted R l -> Forall (fun x => R x a) l ->
  StronglySorted R (l ++ [a]).
Proof.
  induction 1 as [| x l Hs IH Hx]; intros Hall; cbn [app].
  - repeat constructor.
  - inversion Hall; subst. constructor; [now apply IH |].
    apply Forall_app. split; [exact Hx | now constructor].
Qed.

Lemma StronglySorted_rev {A : Type} (R : A -> A -> Prop) (l : list A) :
  StronglySorted R l -> StronglySorted (fun a b => R b a) (rev l).
Proof.
  induction 1 as [| x l Hs IH Hx]; cbn [rev]; [constructor |].
  apply StronglySorted_snoc; [exact IH |].
  apply Forall_rev. exact Hx.
Qed.

Lemma StronglySorted_among {A : Type} (R R' : A -> A -> Prop) (l : list A) :
  (forall a b, In a l -> In b l -> R a b -> R' a b) ->
  StronglySorted R l -> StronglySorted R' l.
Proof.
  intros Himp. induction 1 as [| x l Hs IH Hx]; [constructor |].
  constructor.
  - apply IH. intros a b Ha Hb. apply Himp; now right.
  - rewrite Forall_forall in *. intros y Hy.
    apply Himp; [now left | now right | now apply Hx].
Qed.

Lemma compareBy_single {A : Type} (field : string -> A -> value) (k : string)
      (d : direction) (a b : A) :
  compareBy field [(k, d)] a b = compareField field k d a b.
Proof. cbn [compareBy]. now destruct (compareField field k d a b). Qed.

(** Sorting on one field that holds no array and no value twice: the
    descending result is the ascending one read backwards. *)
Lemma sorted_both_ways {A : Type} (field : string -> A -> value) (k : string)
      (l la ld : list A) :
  (forall a, In a l -> isArray (field k a) = false) ->
  (forall a b, In a l -> In b l ->
               compareValue (field k a) (field k b) = Eq -> a = b) ->
  sortedBy (compareBy field [(k, Asc)]) l la ->
  sortedBy (compareBy field [(k, Desc)]) l ld ->
  ld = rev la.
Proof.
  intros Hscalar Hdistinct [Hpa Hsa] [Hpd Hsd].
  assert (Hkey : forall d a, In a l -> sortKey d (field k a) = field k a).
  { intros d a Ha. apply sortKey_scalar. now apply Hscalar. }
  assert (Hin_a : forall a, In a la -> In a l)
    by (intros a; apply Permutation_in; now apply Permutation_sym).
  assert (Hin_d : forall a, In a ld -> In a l)
    by (intros a; apply Permutation_in; now apply Permutation_sym).
  set (R := fun a b : A => compareValue (field k a) (field k b) <> Gt).
  assert (Hra : StronglySorted R la).
  { apply (StronglySorted_among _ R) in Hsa; [exact Hsa |].
    intros a b Ha Hb. rewrite compareBy_single. unfold compareField, R.
    now rewrite !Hkey by auto. }
  rewrite <- (rev_involutive ld). f_equal. symmetry.
  apply (sorted_arrangement_unique R).
  - eapply Permutation_trans; [apply Permutation_sym, Hpa |].
    eapply Permutation_trans; [apply Hpd | apply Permutation_rev].
  - exact Hra.
  - apply StronglySorted_rev in Hsd.
    apply (StronglySorted_among _ R) in Hsd; [exact Hsd |].
    intros a b Ha Hb. rewrite compareBy_single. unfold compareField, R.
    apply in_rev in Ha. apply in_rev in Hb.
    now rewrite !Hkey by auto.
  - intros a b Ha Hb Hab Hba. apply Hdistinct; auto.
    unfold R in *. rewrite (compareValue_antisym (field k a)) in Hba.
    destruct (compareValue (field k a) (field k b)); cbn in *; congruence.
Qed.

Lemma startsWith_absent (c : ascii) (s : string) :
  JS.includes (String c EmptyString) s = false ->
  JS.startsWith (String c EmptyString) s = false.
Proof.
  unfold JS.startsWith. destruct s as [| d s]; [reflexivity |].
  cbn [JS.includes]. intros H. now apply orb_false_iff in H.
Qed.

(** [sort=field] asks for the field upwards. *)
Lemma sortStage_ascending (field : string) :
  field <> "" ->
  JS.includes "," field = false ->
  JS.includes "-" field = false ->
  sortStage (Some field) = [(field, Asc)].
Proof.
  intros Hne Hcomma Hdash. unfold sortStage, parseSort.
  apply String.eqb_neq in Hne. rewrite Hne.
  rewrite (split_without_separator _ _ Hcomma). cbn [fold_left JS.objSet].
  now rewrite (startsWith_absent _ _ Hdash), (removeFirst_absent _ _ Hdash).
Qed.

(** [sort=-field] asks for the field downwards. *)
Lemma sortStage_descending (field : string) :
  JS.includes "," field = false ->
  sortStage (Some ("-" ++ field)%string) = [(field, Desc)].
Proof.
  intros Hcomma. unfold sortStage, parseSort.
  change ("-" ++ field)%string with (String "-" field).
  cbn [String.eqb].
  rewrite split_without_separator
    by (rewrite includes_char_cons; cbn [Ascii.eqb Bool.eqb orb]; exact Hcomma).
  cbn [fold_left JS.objSet JS.removeFirst].
  assert (JS.startsWith "-" (String "-" field) = true) as ->.
  { unfold JS.startsWith. cbn [prefix].
    destruct (ascii_dec "-" "-"); [now destruct field | congruence]. }
  now rewrite Ascii.eqb_refl.
Qed.

Lemma unwindOwner_rev (db : Db) (l : list Flat) :
  NoDup (map user_id (Users db)) ->
  unwindOwner (map (fun f => (f, lookupOwner db f)) (rev l))
  = rev (unwindOwner (map (fun f => (f, lookupOwner db f)) l)).
Proof.
  intros Hids. unfold unwindOwner.
  induction l as [| f l IH]; [reflexivity |].
  cbn [rev map flat_map fst snd].
  rewrite map_app, flat_map_app, IH, rev_app_distr.
  cbn [map flat_map fst snd]. rewrite app_nil_r. f_equal.
  pose proof (lookupOwner_at_most_one db f Hids) as Hone.
  destruct (lookupOwner db f) as [| o [| o' os]]; cbn in *; try reflexivity.
  lia.
Qed.

(** C5, as the code supports it.  Over a page window that holds the whole
    result, and for a field that holds no array and no value twice among
    the selected records, [sort=-field] returns the records of
    [sort=field] in the reverse order, provided each of the two [$sort]
    stages keeps its promise (the same documents, in the order asked
    for).  Nothing is said of records with equal values: their order is
    the store's. *)
Theorem sort_and_reverse_sort
        (Number : string -> JS.num)
        (regexTest : string -> string -> bool)
        (sortDocs : forall A : Type, (A -> A -> comparison) -> list A -> list A)
        (numberToString : Q -> string)
        (castElsewhere : string -> condition -> result (Flat -> bool))
        (db : Db) (q : query) (field : string) (l : nat)
        (Hfield : field <> "")
        (Hcomma : JS.includes "," field = false)
        (Hdash : JS.includes "-" field = false)
        (Hskip : toCount (skipOf Number q) = Some 0)
        (Hlimit : toCount (limitOf Number q) = Some (S l))
        (Hids : NoDup (map user_id (Users db))) :
  let asc := ("sort", field) :: q in
  let desc := ("sort", ("-" ++ field)%string) :: q in
  (let selected :=
     matchFlats regexTest db (buildFilter Number (filtersOf q)) in
   List.length selected <= S l ->
   (forall f, In f selected -> isArray (flatField field f) = false) ->
   (forall f g, In f selected -> In g selected ->
                compareValue (flatField field f) (flatField field g) = Eq ->
                f = g) ->
   sortedBy (compareBy flatField [(field, Asc)]) selected
            (sortDocs Flat (compareBy flatField [(field, Asc)]) selected) ->
   sortedBy (compareBy flatField [(field, Desc)]) selected
            (sortDocs Flat (compareBy flatField [(field, Desc)]) selected) ->
   dataOf (getAllFlats Number regexTest sortDocs numberToString
                       castElsewhere db desc)
   = rev (dataOf (getAllFlats Number regexTest sortDocs numberToString
                              castElsewhere db asc)))
  /\
  (forall now : Date,
   let selected :=
     selectedUserRows Number regexTest now db (filtersOf q) in
   List.length selected <= S l ->
   (forall r, In r selected -> isArray (userRowField field r) = false) ->
   (forall r r', In r selected -> In r' selected ->
                 compareValue (userRowField field r) (userRowField field r')
                 = Eq -> r = r') ->
   sortedBy (compareBy userRowField [(field, Asc)]) selected
            (sortDocs UserRow (compareBy userRowField [(field, Asc)]) selected) ->
   sortedBy (compareBy userRowField [(field, Desc)]) selected
            (sortDocs UserRow (compareBy userRowField [(field, Desc)]) selected) ->
   dataOf (getAllUsers Number regexTest sortDocs now db desc)
   = rev (dataOf (getAllUsers Number regexTest sortDocs now db asc))).
Proof.
  cbn zeta. split.
  - intros Hlen Hscalar Hdistinct Hasc Hdesc.
    rewrite (getAllFlats_in_window Number regexTest sortDocs numberToString
               castElsewhere db
               (("sort", ("-" ++ field)%string) :: q) 0 l Hskip Hlimit).
    rewrite (getAllFlats_in_window Number regexTest sortDocs numberToString
               castElsewhere db
               (("sort", field) :: q) 0 l Hskip Hlimit).
    cbn zeta.
    change (filtersOf (("sort", ("-" ++ field)%string) :: q)) with (filtersOf q).
    change (filtersOf (("sort", field) :: q)) with (filtersOf q).
    change (JS.objGet "sort" (("sort", ("-" ++ field)%string) :: q))
      with (Some ("-" ++ field)%string).
    change (JS.objGet "sort" (("sort", field) :: q)) with (Some field).
    destruct (countFlats _ _ _ _ _ _) as [total |]; cbn [dataOf skipn];
      [| reflexivity].
    rewrite (sortStage_descending _ Hcomma).
    rewrite (sortStage_ascending _ Hfield Hcomma Hdash).
    unfold allListedFlats.
    rewrite (sorted_both_ways _ _ _ _ _ Hscalar Hdistinct Hasc Hdesc).
    rewrite (unwindOwner_rev _ _ Hids).
    assert (Hsize : List.length
                      (unwindOwner
                         (map (fun f => (f, lookupOwner db f))
                              (sortDocs Flat (compareBy flatField [(field, Asc)])
                                 (matchFlats regexTest db
                                    (buildFilter Number (filtersOf q))))))
                    <= S l).
    { eapply Nat.le_trans; [apply (unwindOwner_length_le _ _ Hids) |].
      destruct Hasc as [Hperm _].
      now rewrite <- (Permutation_length Hperm). }
    rewrite !firstn_all2; [reflexivity | exact Hsize |].
    now rewrite length_rev.
  - intros now Hlen Hscalar Hdistinct Hasc Hdesc.
    rewrite (getAllUsers_in_window Number regexTest sortDocs now db
               (("sort", ("-" ++ field)%string) :: q) 0 l Hskip Hlimit).
    rewrite (getAllUsers_in_window Number regexTest sortDocs now db
               (("sort", field) :: q) 0 l Hskip Hlimit).
    cbn zeta.
    change (filtersOf (("sort", ("-" ++ field)%string) :: q)) with (filtersOf q).
    change (filtersOf (("sort", field) :: q)) with (filtersOf q).
    change (JS.objGet "sort" (("sort", ("-" ++ field)%string) :: q))
      with (Some ("-" ++ field)%string).
    change (JS.objGet "sort" (("sort", field) :: q)) with (Some field).
    destruct (countUsers _ _) as [total |]; cbn [dataOf skipn];
      [| reflexivity].
    rewrite (sortStage_descending _ Hcomma).
    rewrite (sortStage_ascending _ Hfield Hcomma Hdash).
    unfold allUserRows.
    rewrite (sorted_both_ways _ _ _ _ _ Hscalar Hdistinct Hasc Hdesc).
    destruct Hasc as [Hperm _].
    rewrite !firstn_all2.
    + apply map_rev.
    + now rewrite <- (Permutation_length Hperm).
    + now rewrite length_rev, <- (Permutation_length Hperm).
Qed.

Lemma sort_and_reverse_sort_witness :
  let q := [("limit", "10")] in
  let flatsBy s :=
    dataOf (getAllFlats Sample.digitsNumber Sample.cityRegexTest
                        Sample.insertionSort Sample.wholeNumberString
                        Sample.keepAsWritten Sample.sampleDb (("sort", s) :: q)) in
  let usersBy s :=
    dataOf (getAllUsers Sample.digitsNumber Sample.cityRegexTest
                        Sample.insertionSort Sample.today Sample.sampleDb
                        (("sort", s) :: q)) in
  flatsBy "createdAt"
  = [mkListedFlat Sample.albaFlat Sample.anaInfo;
     mkListedFlat Sample.clujFlat Sample.anaInfo]
  /\ flatsBy "-createdAt" = rev (flatsBy "createdAt")
  /\ usersBy "createdAt"
     = [project (addFields Sample.today Sample.ana);
        project (addFields Sample.today Sample.dan)]
  /\ usersBy "-createdAt" = rev (usersBy "createdAt").
Proof.
  cbn zeta.
  destruct (sort_and_reverse_sort
              Sample.digitsNumber Sample.cityRegexTest Sample.insertionSort
              Sample.wholeNumberString Sample.keepAsWritten
              Sample.sampleDb [("limit", "10")] "createdAt" 9
              ltac:(discriminate) eq_refl eq_refl eq_refl eq_refl
              ltac:(repeat constructor; cbn; intuition discriminate))
    as [Hflats Husers].
  split; [reflexivity |]. split; [| split; [reflexivity |]].
  - apply Hflats.
    + vm_compute. lia.
    + intros f [<- | [<- | []]]; reflexivity.
    + intros f g [<- | [<- | []]] [<- | [<- | []]]; vm_compute;
        (reflexivity || discriminate).
    + split; [apply insertionSort_permutes |].
      vm_compute. repeat constructor; discriminate.
    + split; [apply insertionSort_permutes |].
      vm_compute. repeat constructor; discriminate.
  - apply (Husers Sample.today).
    + vm_compute. lia.
    + intros r [<- | [<- | []]]; reflexivity.
    + intros r r' [<- | [<- | []]] [<- | [<- | []]]; vm_compute;
        (reflexivity || discriminate).
    + split; [apply insertionSort_permutes |].
      vm_compute. repeat constructor; discriminate.
    + split; [apply insertionSort_permutes |].
      vm_compute. repeat constructor; discriminate.
Defined.

Lemma sortNearlySorted_permutes (A : Type) (cmp : A -> A -> comparison)
      (l : list A) :
  Permutation l (Sample.sortNearlySorted A cmp l).
Proof.
  unfold Sample.sortNearlySorted. destruct l as [| x l]; [constructor |].
  destruct (cmp x (last (x :: l) x)).
  - apply insertionSort_permutes.
  - apply insertionSort_permutes.
  - eapply Permutation_trans; [apply Permutation_rev |].
    apply insertionSort_permutes.
Qed.

(** C5 as stated fails twice.

    Equal values: three flats stored in the order Alba, Cluj, Iasi, the
    first two with the same rent.  With a [$sort] that keeps its promise
    for both requests, [sort=rentPrice] answers Alba, Cluj, Iasi and
    [sort=-rentPrice] answers Iasi, Cluj, Alba: the two flats with the
    same rent come in one order in the first answer and in the other order
    in the second, so they cannot follow the stored order (or any one
    order) in both.

    Arrays: two flats whose [messages] are different arrays.  The
    ascending sort compares the smallest identifiers (1 and 5), the
    descending sort the largest (9 and 5), so both [sort=messages] and
    [sort=-messages] answer Alba, Iasi: the second answer is not the
    first one reversed, although no value occurs twice. *)
Lemma sort_as_stated_counterexample :
  let alba := flat_id Sample.albaFlat in
  let cluj := flat_id Sample.clujFlat in
  let iasi := flat_id Sample.iasiFlat in
  let answer sortDocs db s :=
    map (fun r => flat_id (listed r))
        (dataOf (getAllFlats Sample.digitsNumber Sample.cityRegexTest
                             sortDocs Sample.wholeNumberString
                             Sample.keepAsWritten db [("sort", s)])) in
  let tied := filter (fun id => (id =? alba) || (id =? cluj)) in
  (* equal values *)
  (map flat_id (Flats Sample.threeFlats) = [alba; cluj; iasi]
   /\ (rentPrice Sample.albaFlat == rentPrice Sample.clujFlat)%Q
   /\ sortedBy (compareBy flatField [("rentPrice", Asc)])
               (Flats Sample.threeFlats)
               (Sample.sortNearlySorted
                  Flat (compareBy flatField [("rentPrice", Asc)])
                  (Flats Sample.threeFlats))
   /\ sortedBy (compareBy flatField [("rentPrice", Desc)])
               (Flats Sample.threeFlats)
               (Sample.sortNearlySorted
                  Flat (compareBy flatField [("rentPrice", Desc)])
                  (Flats Sample.threeFlats))
   /\ tied (answer Sample.sortNearlySorted Sample.threeFlats "rentPrice")
      = [alba; cluj]
   /\ tied (answer Sample.sortNearlySorted Sample.threeFlats "-rentPrice")
      = [cluj; alba])
  /\
  (* arrays *)
  (compareValue (flatField "messages" (Sample.withMessages Sample.albaFlat
                                         ["64e000000000000000000001";
                                          "64e000000000000000000009"]))
                (flatField "messages" (Sample.withMessages Sample.iasiFlat
                                         ["64e000000000000000000005"]))
   <> Eq
   /\ answer Sample.insertionSort Sample.flatsWithMessages "messages"
      = [alba; iasi]
   /\ answer Sample.insertionSort Sample.flatsWithMessages "-messages"
      = [alba; iasi]
   /\ answer Sample.insertionSort Sample.flatsWithMessages "-messages"
      <> rev (answer Sample.insertionSort Sample.flatsWithMessages "messages")).
Proof.
  cbn zeta. split.
  - split; [reflexivity |]. split; [reflexivity |].
    split; [| split; [| split; reflexivity]].
    + split; [apply sortNearlySorted_permutes |].
      vm_compute. repeat constructor; discriminate.
    + split; [apply sortNearlySorted_permutes |].
      vm_compute. repeat constructor; discriminate.
  - split; [vm_compute; discriminate |].
    split; [reflexivity |]. split; [reflexivity |].
    vm_compute. discriminate.
Qed.

(* ================================================================== *)
(** * What the filters of the flat listing select                      *)
(* ================================================================== *)

(** Every flat of an answer satisfies the term of every filter
    parameter. *)
Lemma listed_flat_satisfies_terms
      (Number : string -> JS.num) (regexTest : string -> string -> bool)
      (sortDocs : forall A : Type, (A -> A -> comparison) -> list A -> list A)
      (numberToString : Q -> string)
      (castElsewhere : string -> condition -> result (Flat -> bool))
      (sortDocs_permutes :
         forall (A : Type) (cmp : A -> A -> comparison) (l : list A),
           Permutation l (sortDocs A cmp l))
      (db : Db) (q : query) (key value : string) (r : ListedFlat) :
  NoDup (map fst q) ->
  In (key, value) (filtersOf q) ->
  In r (dataOf (getAllFlats Number regexTest sortDocs numberToString
                            castElsewhere db q)) ->
  holds regexTest (filterTerm Number key value) (flatField key (listed r))
  = true.
Proof.
  intros Hq Hin Hr. apply getAllFlats_data in Hr. destruct Hr as (flats & E & Hr).
  apply aggregateFlats_Ok in E. destruct E as (s & l & _ & _ & ->).
  apply In_window in Hr.
  apply (allListedFlats_In _ _ sortDocs_permutes) in Hr.
  destruct Hr as [_ Hm].
  unfold matches in Hm. rewrite forallb_forall in Hm.
  exact (Hm _ (buildFilter_In Number _ _ _ (filtersOf_NoDup _ Hq) Hin)).
Qed.

Lemma equalsLiteral_coerce (Number : string -> JS.num) (s : string) (v : value) :
  equalsLiteral (coerce Number s) v = true ->
  match Number s with
  | JS.NaN => v = VStr s
  | JS.Num n => exists x, v = VNum x /\ (x == n)%Q
  end.
Proof.
  unfold coerce. destruct (Number s) as [| n]; cbn [equalsLiteral].
  - destruct v; try discriminate. intros H. apply String.eqb_eq in H.
    now subst.
  - destruct v as [| | x | | | | | |]; try discriminate. intros H.
    apply Qeq_bool_iff in H. exists x. split; [reflexivity |].
    now symmetry.
Qed.

(** X1. A filter parameter whose value holds a comma is a membership
    filter: every flat of the answer has, in the field the parameter
    names, one of the comma-separated segments -- the number the segment
    denotes when it denotes one, the segment itself as a string
    otherwise. *)
Theorem membership_filter_returns_members
        (Number : string -> JS.num)
        (regexTest : string -> string -> bool)
        (sortDocs : forall A : Type, (A -> A -> comparison) -> list A -> list A)
        (numberToString : Q -> string)
        (castElsewhere : string -> condition -> result (Flat -> bool))
        (sortDocs_permutes :
           forall (A : Type) (cmp : A -> A -> comparison) (l : list A),
             Permutation l (sortDocs A cmp l))
        (db : Db) (q : query) (key value : string) (r : ListedFlat) :
  NoDup (map fst q) ->
  In (key, value) (filtersOf q) ->
  JS.includes "," value = true ->
  In r (dataOf (getAllFlats Number regexTest sortDocs numberToString
                            castElsewhere db q)) ->
  exists segment,
    In segment (JS.split "," value) /\
    match Number segment with
    | JS.NaN => flatField key (listed r) = VStr segment
    | JS.Num n => exists x, flatField key (listed r) = VNum x /\ (x == n)%Q
    end.
Proof.
  intros Hq Hin Hcomma Hr.
  pose proof (listed_flat_satisfies_terms
                Number regexTest sortDocs numberToString castElsewhere
                sortDocs_permutes
                db q key value r Hq Hin Hr) as H.
  unfold filterTerm in H. rewrite Hcomma in H. cbn [holds] in H.
  apply existsb_exists in H. destruct H as [l [Hl He]].
  apply in_map_iff in Hl. destruct Hl as [segment [<- Hs]].
  exists segment. split; [exact Hs |].
  now apply equalsLiteral_coerce.
Qed.

Lemma membership_filter_returns_members_witness :
  let q := [("city", "Cluj,Iasi")] in
  let r := mkListedFlat Sample.clujFlat Sample.anaInfo in
  In r (dataOf (getAllFlats Sample.digitsNumber Sample.cityRegexTest
                            Sample.insertionSort Sample.wholeNumberString
                            Sample.keepAsWritten Sample.threeFlats q))
  /\ exists segment,
       In segment (JS.split "," "Cluj,Iasi") /\
       match Sample.digitsNumber segment with
       | JS.NaN => flatField "city" (listed r) = VStr segment
       | JS.Num n =>
           exists x, flatField "city" (listed r) = VNum x /\ (x == n)%Q
       end.
Proof.
  cbn zeta.
  assert (H : In (mkListedFlat Sample.clujFlat Sample.anaInfo)
                 (dataOf (getAllFlats Sample.digitsNumber Sample.cityRegexTest
                                      Sample.insertionSort Sample.wholeNumberString
                                      Sample.keepAsWritten Sample.threeFlats
                                      [("city", "Cluj,Iasi")]))).
  { vm_compute. right. left. reflexivity. }
  split; [exact H |].
  apply (membership_filter_returns_members
           Sample.digitsNumber Sample.cityRegexTest Sample.insertionSort
              Sample.wholeNumberString Sample.keepAsWritten
           insertionSort_permutes Sample.threeFlats
           [("city", "Cluj,Iasi")] "city" "Cluj,Iasi").
  - repeat constructor. intros [].
  - left. reflexivity.
  - reflexivity.
  - exact H.
Defined.

Lemma holds_missing (regexTest : string -> string -> bool) (c : condition) :
  holds regexTest c VMissing = false.
Proof.
  destruct c as [l | ls | lo hi | p]; cbn [holds].
  - now destruct l.
  - induction ls as [| l ls IH]; [reflexivity |].
    cbn [existsb]. rewrite IH. now destruct l.
  - destruct lo; reflexivity.
  - reflexivity.
Qed.

(** X2. The flats have no field [title] and no field [address] (the
    schema calls them [adTitle] and [streetName]), so a filter parameter
    of either name selects nothing, whatever its value: the answer holds
    no flat. *)
Theorem title_and_address_filters_select_nothing
        (Number : string -> JS.num)
        (regexTest : string -> string -> bool)
        (sortDocs : forall A : Type, (A -> A -> comparison) -> list A -> list A)
        (numberToString : Q -> string)
        (castElsewhere : string -> condition -> result (Flat -> bool))
        (sortDocs_permutes :
           forall (A : Type) (cmp : A -> A -> comparison) (l : list A),
             Permutation l (sortDocs A cmp l))
        (db : Db) (q : query) (key value : string) :
  NoDup (map fst q) ->
  In (key, value) (filtersOf q) ->
  key = "title" \/ key = "address" ->
  dataOf (getAllFlats Number regexTest sortDocs numberToString
                      castElsewhere db q) = [].
Proof.
  intros Hq Hin Hkey.
  assert (Hmissing : forall f, flatField key f = VMissing)
    by (intros f; destruct Hkey as [-> | ->]; reflexivity).
  destruct (dataOf _) as [| r rest] eqn:E; [reflexivity |].
  assert (Hr : In r (dataOf (getAllFlats Number regexTest sortDocs numberToString
                                         castElsewhere db q)))
    by (rewrite E; now left).
  pose proof (listed_flat_satisfies_terms
                Number regexTest sortDocs numberToString castElsewhere
                sortDocs_permutes
                db q key value r Hq Hin Hr) as H.
  rewrite Hmissing, holds_missing in H. discriminate.
Qed.

Lemma title_and_address_filters_select_nothing_witness :
  let q := [("title", "studio")] in
  JS.includes "studio" (JS.toLowerCase (adTitle Sample.albaFlat)) = true
  /\ statusOf (getAllFlats Sample.digitsNumber Sample.cityRegexTest
                           Sample.insertionSort Sample.wholeNumberString
                           Sample.keepAsWritten Sample.sampleDb q) = 200
  /\ dataOf (getAllFlats Sample.digitsNumber Sample.cityRegexTest
                         Sample.insertionSort Sample.wholeNumberString
                         Sample.keepAsWritten Sample.sampleDb q) = [].
Proof.
  cbn zeta. split; [reflexivity |]. split; [reflexivity |].
  apply (title_and_address_filters_select_nothing
           Sample.digitsNumber Sample.cityRegexTest Sample.insertionSort
              Sample.wholeNumberString Sample.keepAsWritten
           insertionSort_permutes Sample.sampleDb
           [("title", "studio")] "title" "studio").
  - repeat constructor. intros [].
  - left. reflexivity.
  - left. reflexivity.
Defined.

(** X3. A filter parameter with a plain value (no comma, no dash) on a
    field other than [city], [title] and [address] is an exact match:
    [true] and [false] select the flats whose field is that boolean, a
    value that denotes a number the flats whose field is that number, and
    any other value the flats whose field is that very string. *)
Theorem plain_value_filter_is_exact_match
        (Number : string -> JS.num)
        (regexTest : string -> string -> bool)
        (sortDocs : forall A : Type, (A -> A -> comparison) -> list A -> list A)
        (numberToString : Q -> string)
        (castElsewhere : string -> condition -> result (Flat -> bool))
        (sortDocs_permutes :
           forall (A : Type) (cmp : A -> A -> comparison) (l : list A),
             Permutation l (sortDocs A cmp l))
        (db : Db) (q : query) (key value : string) (r : ListedFlat) :
  NoDup (map fst q) ->
  In (key, value) (filtersOf q) ->
  JS.includes "," value = false ->
  JS.includes "-" value = false ->
  key <> "city" -> key <> "title" -> key <> "address" ->
  In r (dataOf (getAllFlats Number regexTest sortDocs numberToString
                            castElsewhere db q)) ->
  if (value =? "true") || (value =? "false") then
    flatField key (listed r) = VBool (value =? "true")
  else
    match Number value with
    | JS.NaN => flatField key (listed r) = VStr value
    | JS.Num n => exists x, flatField key (listed r) = VNum x /\ (x == n)%Q
    end.
Proof.
  intros Hq Hin Hcomma Hdash Hcity Htitle Haddress Hr.
  pose proof (listed_flat_satisfies_terms
                Number regexTest sortDocs numberToString castElsewhere
                sortDocs_permutes
                db q key value r Hq Hin Hr) as H.
  unfold filterTerm in H. rewrite Hcomma, Hdash in H.
  apply String.eqb_neq in Hcity, Htitle, Haddress.
  rewrite Hcity, Htitle, Haddress in H. cbn [orb] in H.
  destruct ((value =? "true") || (value =? "false")).
  - cbn [holds equalsLiteral] in H.
    destruct (flatField key (listed r)); try discriminate.
    apply Bool.eqb_prop in H. now subst.
  - cbn [holds] in H. now apply equalsLiteral_coerce.
Qed.

Lemma plain_value_filter_is_exact_match_witness :
  let q := [("hasAC", "true"); ("rentPrice", "600")] in
  let r := mkListedFlat Sample.iasiFlat Sample.anaInfo in
  In r (dataOf (getAllFlats Sample.digitsNumber Sample.cityRegexTest
                            Sample.insertionSort Sample.wholeNumberString
                            Sample.keepAsWritten Sample.threeFlats q))
  /\ flatField "hasAC" (listed r) = VBool true
  /\ exists x, flatField "rentPrice" (listed r) = VNum x /\ (x == 600)%Q.
Proof.
  cbn zeta.
  assert (H : In (mkListedFlat Sample.iasiFlat Sample.anaInfo)
                 (dataOf (getAllFlats Sample.digitsNumber Sample.cityRegexTest
                                      Sample.insertionSort Sample.wholeNumberString
                                      Sample.keepAsWritten Sample.threeFlats
                                      [("hasAC", "true"); ("rentPrice", "600")]))).
  { vm_compute. left. reflexivity. }
  assert (Hq : NoDup (map fst [("hasAC", "true"); ("rentPrice", "600")])).
  { repeat constructor; [intros [E | []]; discriminate E | intros []]. }
  split; [exact H |]. split.
  - apply (plain_value_filter_is_exact_match
             Sample.digitsNumber Sample.cityRegexTest Sample.insertionSort
              Sample.wholeNumberString Sample.keepAsWritten
             insertionSort_permutes Sample.threeFlats
             [("hasAC", "true"); ("rentPrice", "600")] "hasAC" "true"
             (mkListedFlat Sample.iasiFlat Sample.anaInfo) Hq);
      [left; reflexivity | reflexivity | reflexivity
       | discriminate | discriminate | discriminate | exact H].
  - apply (plain_value_filter_is_exact_match
             Sample.digitsNumber Sample.cityRegexTest Sample.insertionSort
              Sample.wholeNumberString Sample.keepAsWritten
             insertionSort_permutes Sample.threeFlats
             [("hasAC", "true"); ("rentPrice", "600")] "rentPrice" "600"
             (mkListedFlat Sample.iasiFlat Sample.anaInfo) Hq);
      [right; left; reflexivity | reflexivity | reflexivity
       | discriminate | discriminate | discriminate | exact H].
Defined.

(* ================================================================== *)
(** * Page windows at their edges                                      *)
(* ================================================================== *)

Lemma toCount_not_positive (l : Q) :
  (l <= 0)%Q -> forall k, toCount (JS.Num l) <> Some (S k).
Proof.
  intros Hl k. unfold toCount.
  destruct (Qeq_bool l (inject_Z (Qfloor l)) && Qle_bool 0 l) eqn:E;
    [| discriminate].
  apply andb_true_iff in E. destruct E as [_ E]. apply Qle_bool_iff in E.
  assert (H0 : (l == 0)%Q) by now apply Qle_antisym.
  assert (Hf : Qfloor l = 0%Z).
  { rewrite H0. change 0%Q with (inject_Z 0). apply Qfloor_Z. }
  rewrite Hf. discriminate.
Qed.

Lemma toCount_negative (s : Q) : (s < 0)%Q -> toCount (JS.Num s) = None.
Proof.
  intros Hs. unfold toCount.
  assert (Qle_bool 0 s = false) as ->.
  { apply not_true_is_false. intros H. apply Qle_bool_iff in H.
    exact (Qlt_not_le _ _ Hs H). }
  now rewrite andb_false_r.
Qed.

Lemma window_refused (p l : Q) :
  ((p < 1)%Q /\ (0 < l)%Q) \/ (l <= 0)%Q ->
  toCount (JS.mul (JS.sub (JS.Num p) (JS.Num 1)) (JS.Num l)) = None \/
  forall k, toCount (JS.Num l) <> Some (S k).
Proof.
  intros [[Hp Hl] | Hl].
  - left. cbn [JS.mul JS.sub]. apply toCount_negative.
    setoid_replace 0%Q with (0 * l)%Q by ring.
    apply Qmult_lt_compat_r; [exact Hl |].
    apply Qlt_minus_iff in Hp. apply Qlt_minus_iff.
    setoid_replace (0 + - (p - 1))%Q with (1 + - p)%Q by ring. exact Hp.
  - right. now apply toCount_not_positive.
Qed.

(** X4. The page window is not clamped.  A page number below 1 with a
    positive limit asks the store to skip a negative number of records,
    and a limit of 0 or less is no limit the store accepts: both
    listings then answer 500, as they do when [page] or [limit] is not a
    number. *)
Theorem invalid_page_window_is_an_error
        (Number : string -> JS.num)
        (regexTest : string -> string -> bool)
        (sortDocs : forall A : Type, (A -> A -> comparison) -> list A -> list A)
        (numberToString : Q -> string)
        (castElsewhere : string -> condition -> result (Flat -> bool))
        (now : Date) (db : Db) (q : query) :
  match pageOf Number q, limitOf Number q with
  | JS.Num p, JS.Num l => ((p < 1)%Q /\ (0 < l)%Q) \/ (l <= 0)%Q
  | _, _ => True
  end ->
  getAllFlats Number regexTest sortDocs numberToString
              castElsewhere db q = Failed 500 "Error fetching flats"
  /\ getAllUsers Number regexTest sortDocs now db q
     = Failed 500 "Error retrieving users".
Proof.
  intros H.
  assert (Hwindow : toCount (skipOf Number q) = None \/
                    forall k, toCount (limitOf Number q) <> Some (S k)).
  { unfold skipOf.
    destruct (pageOf Number q) as [| p]; [left; reflexivity |].
    destruct (limitOf Number q) as [| l]; [left; reflexivity |].
    now apply window_refused. }
  unfold getAllFlats, getAllUsers, aggregateFlats, aggregateUsers,
    skipStage, limitStage.
  destruct Hwindow as [-> | Hl]; [split; reflexivity |].
  destruct (toCount (skipOf Number q)) as [s |]; [| split; reflexivity].
  cbn [bind].
  destruct (toCount (limitOf Number q)) as [[| k] |];
    [split; reflexivity | | split; reflexivity].
  exfalso. exact (Hl k eq_refl).
Qed.

Lemma invalid_page_window_is_an_error_witness :
  let q := [("page", "0"); ("limit", "10")] in
  getAllFlats Sample.digitsNumber Sample.cityRegexTest
              Sample.insertionSort Sample.wholeNumberString
              Sample.keepAsWritten
              Sample.sampleDb q
  = Failed 500 "Error fetching flats"
  /\ getAllUsers Sample.digitsNumber Sample.cityRegexTest Sample.insertionSort
                 Sample.today Sample.sampleDb q
     = Failed 500 "Error retrieving users".
Proof.
  cbn zeta.
  apply (invalid_page_window_is_an_error
           Sample.digitsNumber Sample.cityRegexTest Sample.insertionSort
              Sample.wholeNumberString Sample.keepAsWritten
           Sample.today Sample.sampleDb [("page", "0"); ("limit", "10")]).
  left. split; reflexivity.
Defined.

Lemma skipn_beyond {A : Type} (n : nat) (l : list A) :
  List.length l <= n -> skipn n l = [].
Proof. intros H. now apply skipn_all2. Qed.

(** X5. To lie beyond the end of the result is no error.  For whole
    numbers [P >= 1] and [L >= 1] (with [P * L] small enough for the
    window to be computed exactly), the request for the page [P] of either
    listing is answered as the request for the first page is: with the
    same status and the same [totalCount].  Its page holds at most [L]
    records, and none as soon as the [P - 1] pages before it cover the
    whole filtered result. *)
Theorem page_beyond_the_end_is_empty
        (Number : string -> JS.num)
        (regexTest : string -> string -> bool)
        (sortDocs : forall A : Type, (A -> A -> comparison) -> list A -> list A)
        (numberToString : Q -> string)
        (castElsewhere : string -> condition -> result (Flat -> bool))
        (now : Date) (db : Db) (q : query) (P L : nat)
        (page limit first : string) (qp ql q1 : Q)
        (HP : 1 <= P) (HL : 1 <= L)
        (Hexact : (Z.of_nat P * Z.of_nat L <= 2 ^ 53)%Z)
        (Hpage : Number page = JS.Num qp)
        (Hqp : (qp == inject_Z (Z.of_nat P))%Q)
        (Hlimit : Number limit = JS.Num ql)
        (Hql : (ql == inject_Z (Z.of_nat L))%Q)
        (Hfirst : Number first = JS.Num q1)
        (Hq1 : (q1 == inject_Z (Z.of_nat 1))%Q) :
  let flats :=
    getAllFlats Number regexTest sortDocs numberToString castElsewhere db
                (pageRequest page limit q) in
  let firstFlats :=
    getAllFlats Number regexTest sortDocs numberToString castElsewhere db
                (pageRequest first limit q) in
  let users :=
    getAllUsers Number regexTest sortDocs now db (pageRequest page limit q) in
  let firstUsers :=
    getAllUsers Number regexTest sortDocs now db (pageRequest first limit q) in
  let allFlats :=
    allListedFlats regexTest sortDocs db (buildFilter Number (filtersOf q))
                   (sortStage (JS.objGet "sort" q)) in
  let allUsers :=
    allUserRows Number regexTest sortDocs now db (filtersOf q)
                (sortStage (JS.objGet "sort" q)) in
  (statusOf flats = statusOf firstFlats /\
   totalCountOf flats = totalCountOf firstFlats /\
   List.length (dataOf flats) <= L /\
   (List.length allFlats <= (P - 1) * L -> dataOf flats = []))
  /\
  (statusOf users = statusOf firstUsers /\
   totalCountOf users = totalCountOf firstUsers /\
   List.length (dataOf users) <= L /\
   (List.length allUsers <= (P - 1) * L -> dataOf users = [])).
Proof.
  destruct L as [| l]; [lia |].
  destruct (window_of_page Number page limit q qp ql P l HP Hpage Hqp
                           Hlimit Hql) as [Hs Hl].
  destruct (window_of_page Number first limit q q1 ql 1 l (le_n 1) Hfirst Hq1
                           Hlimit Hql) as [Hs1 Hl1].
  cbn zeta.
  rewrite (getAllFlats_in_window _ _ _ _ _ _ _ _ _ Hs Hl).
  rewrite (getAllFlats_in_window _ _ _ _ _ _ _ _ _ Hs1 Hl1).
  rewrite (getAllUsers_in_window _ _ _ _ _ _ _ _ Hs Hl).
  rewrite (getAllUsers_in_window _ _ _ _ _ _ _ _ Hs1 Hl1).
  rewrite !pageRequest_filters, !pageRequest_sort. cbn zeta.
  split.
  - destruct (countFlats _ _ _ _ _ _) as [total |];
      cbn [statusOf totalCountOf dataOf List.length];
      repeat split; try reflexivity; try lia.
    + apply firstn_le_length.
    + intros Hend. rewrite (skipn_beyond _ _ Hend). reflexivity.
  - destruct (countUsers _ _) as [total |];
      cbn [statusOf totalCountOf dataOf List.length];
      repeat split; try reflexivity; try lia.
    + rewrite length_map. apply firstn_le_length.
    + intros Hend. rewrite (skipn_beyond _ _ Hend). reflexivity.
Qed.

Lemma page_beyond_the_end_is_empty_witness :
  let q := [("rentPrice", "300-400")] in
  let flats p :=
    getAllFlats Sample.digitsNumber Sample.cityRegexTest Sample.insertionSort
                Sample.wholeNumberString Sample.keepAsWritten
                Sample.sampleDb (pageRequest p "2" q) in
  let users p :=
    getAllUsers Sample.digitsNumber Sample.cityRegexTest Sample.insertionSort
                Sample.today Sample.sampleDb (pageRequest p "2" q) in
  (statusOf (flats "1") = 200 /\ statusOf (flats "3") = 200
   /\ totalCountOf (flats "3") = Some 2 /\ dataOf (flats "3") = [])
  /\
  (statusOf (users "1") = 200 /\ statusOf (users "3") = 200
   /\ totalCountOf (users "3") = Some 2 /\ dataOf (users "3") = []).
Proof.
  cbn zeta.
  destruct (page_beyond_the_end_is_empty
              Sample.digitsNumber Sample.cityRegexTest Sample.insertionSort
              Sample.wholeNumberString Sample.keepAsWritten
              Sample.today Sample.sampleDb [("rentPrice", "300-400")]
              3 2 "3" "2" "1" 3%Q 2%Q 1%Q
              ltac:(lia) ltac:(lia) ltac:(vm_compute; discriminate)
              eq_refl (Qeq_refl _) eq_refl (Qeq_refl _)
              eq_refl (Qeq_refl _))
    as [(Hfs & Hft & _ & Hfe) (Hus & Hut & _ & Hue)].
  split.
  - split; [reflexivity |]. split; [rewrite Hfs; reflexivity |].
    split; [rewrite Hft; reflexivity |]. apply Hfe. vm_compute. lia.
  - split; [reflexivity |]. split; [rewrite Hus; reflexivity |].
    split; [rewrite Hut; reflexivity |]. apply Hue. vm_compute. lia.
Defined.

(* ================================================================== *)
(** * The sort parameter, read back                                    *)
(* ================================================================== *)

Lemma split_segment_then (c : ascii) (x rest : string) :
  JS.includes (String c EmptyString) x = false ->
  JS.split c (x ++ String c rest) = x :: JS.split c rest.
Proof.
  induction x as [| d x IH]; intros H.
  - cbn [append JS.split]. now rewrite Ascii.eqb_refl.
  - rewrite includes_char_cons in H.
    apply orb_false_iff in H. destruct H as [Hd Hx].
    cbn [append JS.split]. rewrite Hd, (IH Hx). reflexivity.
Qed.

Lemma split_concat (c : ascii) (l : list string) :
  l <> [] ->
  (forall s, In s l -> JS.includes (String c EmptyString) s = false) ->
  JS.split c (String.concat (String c EmptyString) l) = l.
Proof.
  induction l as [| x l IH]; intros Hne H; [congruence |].
  destruct l as [| y l].
  - cbn [String.concat]. apply split_without_separator. apply H. now left.
  - change (String.concat (String c EmptyString) (x :: y :: l))
      with (x ++ String c (String.concat (String c EmptyString) (y :: l)))%string.
    rewrite split_segment_then by (apply H; now left).
    f_equal. apply IH; [discriminate |].
    intros s Hs. apply H. now right.
Qed.

Lemma objSet_new {V : Type} (k : string) (v : V) (o : list (string * V)) :
  ~ In k (map fst o) -> JS.objSet k v o = o ++ [(k, v)].
Proof.
  induction o as [| [k' v'] o IH]; cbn [JS.objSet map fst]; intros H.
  - reflexivity.
  - destruct (String.eqb k k') eqn:E.
    + apply String.eqb_eq in E. exfalso. apply H. left. now symmetry.
    + cbn [app]. f_equal. apply IH. intros Hin. apply H. now right.
Qed.

Lemma fold_objSet_distinct {V : Type} (l acc : list (string * V)) :
  NoDup (map fst (acc ++ l)) ->
  fold_left (fun o p => JS.objSet (fst p) (snd p) o) l acc = acc ++ l.
Proof.
  revert acc. induction l as [| [k v] l IH]; intros acc Hnd.
  - now rewrite app_nil_r.
  - cbn [fold_left fst snd].
    rewrite objSet_new.
    + rewrite IH; rewrite <- app_assoc; [reflexivity | exact Hnd].
    + rewrite map_app in Hnd. cbn [map fst] in Hnd.
      apply NoDup_remove_2 in Hnd. intros Hin. apply Hnd.
      apply in_or_app. now left.
Qed.

(** X6. The parameter [sort] is read back as it was written: for fields
    of distinct names that begin with a character other than a digit (so
    that none is an array index, which an object would list first), are
    not [__proto__] (whose assignment adds no key to an object) and hold
    neither a comma nor a dash, the parameter that lists them in order,
    each with a leading [-] when it is to run downwards, gives the [$sort]
    stage exactly these fields, in this order and with these
    directions. *)
Theorem sort_parameter_read_back (spec : sortSpec) :
  spec <> [] ->
  NoDup (map fst spec) ->
  (forall p, In p spec ->
             match fst p with
             | String c _ =>
                 ((nat_of_ascii c <? 48)%nat || (57 <? nat_of_ascii c)%nat)
                 = true
             | EmptyString => False
             end
             /\ JS.includes "," (fst p) = false
             /\ JS.includes "-" (fst p) = false
             /\ fst p <> "__proto__") ->
  sortStage
    (Some (String.concat ","
             (map (fun p => match snd p with
                            | Asc => fst p
                            | Desc => ("-" ++ fst p)%string
                            end) spec)))
  = spec.
Proof.
  intros Hne Hnd Hnames.
  set (render := fun p : string * direction =>
                   match snd p with
                   | Asc => fst p
                   | Desc => ("-" ++ fst p)%string
                   end).
  assert (Hcomma : forall s, In s (map render spec) ->
                             JS.includes "," s = false).
  { intros s Hs. apply in_map_iff in Hs. destruct Hs as [[k d] [<- Hp]].
    destruct (Hnames _ Hp) as (_ & Hc & _). cbn [fst] in Hc.
    unfold render; cbn [fst snd]. destruct d; [exact Hc |].
    change ("-" ++ k)%string with (String "-" k).
    rewrite includes_char_cons, Hc. reflexivity. }
  assert (Hmap : map render spec <> [])
    by (destruct spec; [congruence | discriminate]).
  unfold sortStage.
  assert ((String.concat "," (map render spec) =? "") = false) as ->.
  { apply String.eqb_neq. intros Hempty.
    pose proof (split_concat "," _ Hmap Hcomma) as Hs.
    rewrite Hempty in Hs. cbn [JS.split] in Hs.
    destruct spec as [| [k d] [| p spec]]; [congruence | | discriminate Hs].
    cbn [map] in Hs. inversion Hs as [Hk].
    destruct (Hnames (k, d) (or_introl eq_refl)) as (Hk0 & _).
    cbn [fst] in Hk0. unfold render in Hk; cbn [fst snd] in Hk.
    destruct d; [subst k; exact Hk0 | discriminate Hk]. }
  unfold parseSort. rewrite (split_concat "," _ Hmap Hcomma).
  transitivity (fold_left (fun o p => JS.objSet (fst p) (snd p) o) spec []);
    [| exact (fold_objSet_distinct spec [] Hnd)].
  generalize (@nil (string * direction)).
  clear Hne Hnd Hcomma Hmap.
  induction spec as [| [k d] spec IH]; intros acc; [reflexivity |].
  cbn [map fold_left fst snd].
  destruct (Hnames (k, d) (or_introl eq_refl)) as (_ & _ & Hdash & _).
  cbn [fst] in Hdash.
  assert (Hk : JS.objSet (JS.removeFirst "-" (render (k, d)))
                         (if JS.startsWith "-" (render (k, d))
                          then Desc else Asc) acc
               = JS.objSet k d acc).
  { unfold render; cbn [fst snd]. destruct d.
    - rewrite (removeFirst_absent _ _ Hdash), (startsWith_absent _ _ Hdash).
      reflexivity.
    - change ("-" ++ k)%string with (String "-" k).
      cbn [JS.removeFirst]. rewrite Ascii.eqb_refl.
      assert (JS.startsWith "-" (String "-" k) = true) as ->; [| reflexivity].
      unfold JS.startsWith. cbn [prefix].
      destruct (ascii_dec "-" "-"); [now destruct k | congruence]. }
  rewrite Hk. apply IH. intros p Hp. apply Hnames. now right.
Qed.

Lemma sort_parameter_read_back_witness :
  sortStage (Some "city,-rentPrice,createdAt")
  = [("city", Asc); ("rentPrice", Desc); ("createdAt", Asc)].
Proof.
  apply (sort_parameter_read_back
           [("city", Asc); ("rentPrice", Desc); ("createdAt", Asc)]).
  - discriminate.
  - repeat constructor; cbn; intuition discriminate.
  - intros p [<- | [<- | [<- | []]]]; repeat split;
      try reflexivity; discriminate.
Defined.

(* ================================================================== *)
(** * The role filter and the age filter of the user listing           *)
(* ================================================================== *)

Lemma listed_user_is_selected
      (Number : string -> JS.num) (regexTest : string -> string -> bool)
      (sortDocs : forall A : Type, (A -> A -> comparison) -> list A -> list A)
      (sortDocs_permutes :
         forall (A : Type) (cmp : A -> A -> comparison) (l : list A),
           Permutation l (sortDocs A cmp l))
      (now : Date) (db : Db) (q : query) (r : UserSummary) :
  In r (dataOf (getAllUsers Number regexTest sortDocs now db q)) ->
  exists u, In u (Users db) /\
            matchUser (buildMatchStage Number now (filtersOf q)) u = true /\
            r = project (addFields now u).
Proof.
  intros Hr. apply getAllUsers_data in Hr. destruct Hr as (users & E & Hr).
  apply aggregateUsers_Ok in E. destruct E as (s & l & _ & _ & ->).
  apply in_map_iff in Hr. destruct Hr as [row [<- Hrow]].
  apply In_window in Hrow.
  apply (allUserRows_In _ _ _ sortDocs_permutes) in Hrow.
  destruct Hrow as [(u & Hu & Hm & ->) _].
  now exists u.
Qed.

Lemma filter_parameter_read (q : query) (key value : string) :
  NoDup (map fst q) ->
  In (key, value) (filtersOf q) ->
  JS.objGet key (filtersOf q) = Some value.
Proof.
  intros Hq Hin. apply In_objGet; [now apply filtersOf_NoDup | exact Hin].
Qed.

(** X7. The parameter [role] of the user listing is an exact match:
    every user of the answer has the role asked for. *)
Theorem role_filter_returns_that_role
        (Number : string -> JS.num)
        (regexTest : string -> string -> bool)
        (sortDocs : forall A : Type, (A -> A -> comparison) -> list A -> list A)
        (sortDocs_permutes :
           forall (A : Type) (cmp : A -> A -> comparison) (l : list A),
             Permutation l (sortDocs A cmp l))
        (now : Date) (db : Db) (q : query) (wanted : string)
        (r : UserSummary) :
  NoDup (map fst q) ->
  In ("role", wanted) q ->
  wanted <> "" ->
  In r (dataOf (getAllUsers Number regexTest sortDocs now db q)) ->
  summary_role r = wanted.
Proof.
  intros Hq Hin Hne Hr.
  destruct (listed_user_is_selected
              Number regexTest sortDocs sortDocs_permutes now db q r Hr)
    as (u & _ & Hm & ->).
  assert (Hf : In ("role", wanted) (filtersOf q)).
  { unfold filtersOf. apply filter_In. split; [exact Hin | reflexivity]. }
  unfold matchUser, buildMatchStage in Hm. cbn [match_role] in Hm.
  rewrite (filter_parameter_read _ _ _ Hq Hf) in Hm.
  apply String.eqb_neq in Hne. rewrite Hne in Hm.
  apply andb_true_iff in Hm. destruct Hm as [Hm _].
  apply String.eqb_eq in Hm. exact Hm.
Qed.

Lemma role_filter_returns_that_role_witness :
  let q := [("role", "admin")] in
  let r := project (addFields Sample.today Sample.dan) in
  In r (dataOf (getAllUsers Sample.digitsNumber Sample.cityRegexTest
                            Sample.insertionSort Sample.today
                            Sample.sampleDb q))
  /\ summary_role r = "admin".
Proof.
  cbn zeta.
  assert (H : In (project (addFields Sample.today Sample.dan))
                 (dataOf (getAllUsers Sample.digitsNumber Sample.cityRegexTest
                                      Sample.insertionSort Sample.today
                                      Sample.sampleDb [("role", "admin")]))).
  { vm_compute. left. reflexivity. }
  split; [exact H |].
  apply (role_filter_returns_that_role
           Sample.digitsNumber Sample.cityRegexTest Sample.insertionSort
           insertionSort_permutes Sample.today Sample.sampleDb
           [("role", "admin")] "admin").
  - repeat constructor. intros [].
  - left. reflexivity.
  - discriminate.
  - exact H.
Defined.

Lemma whole_year (q : Q) (z : Z) :
  (q == inject_Z z)%Q ->
  (if Qle_bool 0 q then Qfloor q else Qceiling q) = z.
Proof.
  intros H. destruct (Qle_bool 0 q); rewrite H.
  - apply Qfloor_Z.
  - apply Qceiling_Z.
Qed.

Lemma daysInMonth_bounds (y m : Z) :
  (28 <= daysInMonth y m <= 31)%Z.
Proof.
  unfold daysInMonth.
  destruct (m =? 2)%Z; [destruct (isLeap y); lia |].
  destruct ((m =? 4) || (m =? 6) || (m =? 9) || (m =? 11))%Z; lia.
Qed.

(** [new Date(year - n, month, day)] for a whole number of years that
    leaves the year above 99. *)
Lemma newDate_years_before (now : Date) (qn : Q) (n : Z) :
  (qn == inject_Z n)%Q ->
  (100 <= year now - n)%Z ->
  newDate (JS.sub (JS.Num (inject_Z (year now))) (JS.Num qn))
          (month now) (day now)
  = Some (if (daysInMonth (year now - n) (month now) <? day now)%Z
          then mkDate (year now - n) (month now + 1)
                      (day now - daysInMonth (year now - n) (month now))
          else mkDate (year now - n) (month now) (day now)).
Proof.
  intros Hq Hy. cbn [JS.sub newDate].
  assert (Ht : (inject_Z (year now) - qn == inject_Z (year now - n))%Q).
  { rewrite Hq. unfold Zminus. rewrite inject_Z_plus, inject_Z_opp.
    reflexivity. }
  rewrite (whole_year _ _ Ht).
  assert (((0 <=? year now - n) && (year now - n <=? 99))%Z = false) as ->.
  { apply andb_false_iff. right. apply Z.leb_gt. lia. }
  now destruct (daysInMonth (year now - n) (month now) <? day now)%Z.
Qed.

(** X8. The parameter [age=min-max] of the user listing, for whole
    numbers [0 <= min] and [max], selects by a window of birth dates that
    ends today's day and month [min] years ago and begins today's day and
    month [max] years ago.  Every user of the answer has an age from [min]
    to [max]; and a user of the age [max] is in the answer only on the
    birthday itself, so that the upper bound leaves out all the others of
    that age.  (Dates are calendar days; today's day and month must exist
    [min] years ago, which fails only on the 29th of February.) *)
Theorem age_filter_window
        (Number : string -> JS.num)
        (regexTest : string -> string -> bool)
        (sortDocs : forall A : Type, (A -> A -> comparison) -> list A -> list A)
        (sortDocs_permutes :
           forall (A : Type) (cmp : A -> A -> comparison) (l : list A),
             Permutation l (sortDocs A cmp l))
        (now : Date) (db : Db) (q : query) (value lo hi : string)
        (qa qb : Q) (a b : Z) (r : UserSummary) :
  NoDup (map fst q) ->
  In ("age", value) q ->
  JS.split "-" value = [lo; hi] ->
  Number lo = JS.Num qa -> (qa == inject_Z a)%Q ->
  Number hi = JS.Num qb -> (qb == inject_Z b)%Q ->
  (0 <= a)%Z -> (100 <= year now - a)%Z -> (100 <= year now - b)%Z ->
  (1 <= month now <= 12)%Z ->
  (1 <= day now <= daysInMonth (year now - a) (month now))%Z ->
  (forall u, In u (Users db) ->
             (1 <= month (birthDate u) <= 12)%Z /\
             (1 <= day (birthDate u) <= 31)%Z) ->
  In r (dataOf (getAllUsers Number regexTest sortDocs now db q)) ->
  (a <= summary_age r <= b)%Z
  /\ (summary_age r = b ->
      month (summary_birthDate r) = month now
      /\ day (summary_birthDate r) = day now).
Proof.
  intros Hq Hin Hsplit Hlo Hqa Hhi Hqb Ha Hya Hyb Hmonth Hday Hbirth Hr.
  destruct (listed_user_is_selected
              Number regexTest sortDocs sortDocs_permutes now db q r Hr)
    as (u & Hu & Hm & ->).
  destruct (Hbirth u Hu) as [Hbm Hbd].
  assert (Hf : In ("age", value) (filtersOf q)).
  { unfold filtersOf. apply filter_In. split; [exact Hin | reflexivity]. }
  assert (Hne : (value =? "") = false).
  { destruct value; [discriminate Hsplit | reflexivity]. }
  unfold matchUser, buildMatchStage in Hm. cbn [match_birthDate] in Hm.
  rewrite (filter_parameter_read _ _ _ Hq Hf), Hne, Hsplit in Hm.
  cbn [map nth] in Hm. rewrite Hlo, Hhi in Hm.
  rewrite (newDate_years_before now qb b Hqb Hyb) in Hm.
  rewrite (newDate_years_before now qa a Hqa Hya) in Hm.
  assert ((daysInMonth (year now - a) (month now) <? day now)%Z = false)
    as Hkeep by (apply Z.ltb_ge; lia).
  rewrite Hkeep in Hm.
  apply andb_true_iff in Hm. destruct Hm as [_ Hm].
  apply andb_true_iff in Hm. destruct Hm as [Hmin Hmax].
  apply Z.leb_le in Hmin, Hmax.
  pose proof (daysInMonth_bounds (year now - a) (month now)) as Hda.
  pose proof (daysInMonth_bounds (year now - b) (month now)) as Hdb.
  cbn [project addFields summary_age summary_birthDate age account].
  unfold ageExpr. unfold ordinal in Hmin, Hmax. cbn [year month day] in Hmax.
  destruct (daysInMonth (year now - b) (month now) <? day now)%Z eqn:Eroll;
    cbn [year month day] in Hmin;
    [apply Z.ltb_lt in Eroll | apply Z.ltb_ge in Eroll];
    destruct (month now <? month (birthDate u))%Z eqn:E1;
    [apply Z.ltb_lt in E1 | apply Z.ltb_ge in E1
     | apply Z.ltb_lt in E1 | apply Z.ltb_ge in E1];
    destruct (month now =? month (birthDate u))%Z eqn:E2;
    [apply Z.eqb_eq in E2 | apply Z.eqb_neq in E2
     | apply Z.eqb_eq in E2 | apply Z.eqb_neq in E2
     | apply Z.eqb_eq in E2 | apply Z.eqb_neq in E2
     | apply Z.eqb_eq in E2 | apply Z.eqb_neq in E2];
    destruct (day now <? day (birthDate u))%Z eqn:E3;
    try apply Z.ltb_lt in E3; try apply Z.ltb_ge in E3;
    cbn [orb andb]; lia.
Qed.

Lemma age_filter_window_witness :
  let q := [("age", "36-41")] in
  let r := project (addFields Sample.today Sample.dan) in
  In r (dataOf (getAllUsers Sample.digitsNumber Sample.cityRegexTest
                            Sample.insertionSort Sample.today
                            Sample.sampleDb q))
  /\ summary_age r = 41%Z
  /\ month (summary_birthDate r) = month Sample.today
  /\ day (summary_birthDate r) = day Sample.today.
Proof.
  cbn zeta.
  assert (H : In (project (addFields Sample.today Sample.dan))
                 (dataOf (getAllUsers Sample.digitsNumber Sample.cityRegexTest
                                      Sample.insertionSort Sample.today
                                      Sample.sampleDb [("age", "36-41")]))).
  { vm_compute. left. reflexivity. }
  split; [exact H |]. split; [reflexivity |].
  apply (age_filter_window
           Sample.digitsNumber Sample.cityRegexTest Sample.insertionSort
           insertionSort_permutes Sample.today Sample.sampleDb
           [("age", "36-41")] "36-41" "36" "41" 36%Q 41%Q 36%Z 41%Z).
  - repeat constructor. intros [].
  - left. reflexivity.
  - reflexivity.
  - reflexivity.
  - reflexivity.
  - reflexivity.
  - reflexivity.
  - lia.
  - vm_compute. discriminate.
  - vm_compute. discriminate.
  - vm_compute. split; discriminate.
  - vm_compute. split; discriminate.
  - intros u [<- | [<- | []]]; vm_compute; repeat split; discriminate.
  - exact H.
  - reflexivity.
Defined.

(* ================================================================== *)
(** * Favourites                                                       *)
(* ================================================================== *)

Lemma User_findById_valid (isValid : string -> bool) (id : string)
      (w : Api.World) :
  isValid id = true ->
  Api.User_findById isValid id w
  = (Ok (Api.findUser (Api.db w) id),
     Api.mkWorld (Api.db w) (Api.calls w ++ [Api.UserFindById id])).
Proof.
  intros H. unfold Api.User_findById, Api.mbind, Api.call.
  rewrite H. reflexivity.
Qed.

Lemma find_user_id (id : string) (l : list User) (u : User) :
  find (fun v => user_id v =? id) l = Some u -> user_id u = id /\ In u l.
Proof.
  intros H. apply find_some in H. destruct H as [Hin H].
  apply String.eqb_eq in H. auto.
Qed.

Lemma find_replaceUser (id : string) (u u' : User) (l : list User) :
  user_id u' = id ->
  find (fun v => user_id v =? id) l = Some u ->
  find (fun v => user_id v =? id) (Documents.replaceUser u' l) = Some u'.
Proof.
  intros Hid. unfold Documents.replaceUser. subst id.
  induction l as [| v l IH]; cbn [find map]; [discriminate |].
  destruct (user_id v =? user_id u') eqn:E.
  - intros _. rewrite String.eqb_refl. reflexivity.
  - rewrite E. exact IH.
Qed.

Lemma indexOf_absent (x : ObjectId) (l : list ObjectId) :
  Documents.includes x l = false -> Documents.indexOf x l = None.
Proof.
  unfold Documents.includes.
  induction l as [| y l IH]; cbn [existsb Documents.indexOf]; [reflexivity |].
  intros H. apply orb_false_iff in H. destruct H as [Hy Hl].
  rewrite String.eqb_sym, Hy, (IH Hl). reflexivity.
Qed.

Lemma indexOf_last (x : ObjectId) (l : list ObjectId) :
  Documents.includes x l = false ->
  Documents.indexOf x (l ++ [x]) = Some (List.length l).
Proof.
  unfold Documents.includes.
  induction l as [| y l IH]; cbn [existsb Documents.indexOf app List.length].
  - intros _. now rewrite String.eqb_refl.
  - intros H. apply orb_false_iff in H. destruct H as [Hy Hl].
    rewrite String.eqb_sym, Hy, (IH Hl). reflexivity.
Qed.

Lemma splice1_last (x : ObjectId) (l : list ObjectId) :
  Documents.splice1 (List.length l) (l ++ [x]) = l.
Proof.
  induction l as [| y l IH]; cbn [Documents.splice1 app List.length];
    [reflexivity | now rewrite IH].
Qed.

Lemma indexOf_Some (x : ObjectId) (l : list ObjectId) (i : nat) :
  Documents.indexOf x l = Some i -> Documents.includes x l = true.
Proof.
  unfold Documents.includes. revert i.
  induction l as [| y l IH]; cbn [existsb Documents.indexOf]; intros i;
    [discriminate |].
  rewrite (String.eqb_sym x y).
  destruct (y =? x); [reflexivity |].
  destruct (Documents.indexOf x l) as [j |]; [| discriminate].
  intros _. exact (IH j eq_refl).
Qed.

Lemma includes_In (x : ObjectId) (l : list ObjectId) :
  Documents.includes x l = true <-> In x l.
Proof.
  unfold Documents.includes. rewrite existsb_exists. split.
  - intros [y [Hy H]]. apply String.eqb_eq in H. now subst.
  - intros H. exists x. split; [exact H | apply String.eqb_refl].
Qed.

Lemma splice1_incl (i : nat) (l : list ObjectId) :
  incl (Documents.splice1 i l) l.
Proof.
  revert i. induction l as [| y l IH]; intros i; cbn [Documents.splice1].
  - apply incl_refl.
  - destruct i as [| i]; [apply incl_tl, incl_refl |].
    apply incl_cons; [now left | apply incl_tl, IH].
Qed.

Lemma splice1_NoDup (i : nat) (l : list ObjectId) :
  NoDup l -> NoDup (Documents.splice1 i l).
Proof.
  revert i. induction l as [| y l IH]; intros i H; cbn [Documents.splice1].
  - constructor.
  - inversion H as [| ? ? Hy Hl]; subst.
    destruct i as [| i]; [exact Hl |].
    constructor; [| now apply IH].
    intros Hin. apply Hy. exact (splice1_incl i l y Hin).
Qed.

Section FavouriteFacts.

Variable isValid : string -> bool.
Variable nameOk : string -> bool.
Variable isEmail : string -> bool.
Variable passwordOk : string -> bool.
Variable bcryptHash : string -> nat -> string.

Let validate := Account.validate nameOk isEmail passwordOk.
Let save := Documents.saveLoaded nameOk isEmail passwordOk bcryptHash.

(** The validation of a loaded document looks at neither the day nor
    the favourites. *)
Lemma validate_loaded_favorites (today today' : Date) (now : Z)
      (l : list ObjectId) (u : User) :
  validate today' (Documents.load (Documents.withFavorites now l u))
  = validate today (Documents.load u).
Proof. reflexivity. Qed.

Lemma validate_setFavoriteFlats (today : Date) (l : list ObjectId) (u : User) :
  validate today (Documents.setFavoriteFlats l (Documents.load u))
  = validate today (Documents.load u).
Proof. reflexivity. Qed.

(** Saving a loaded document whose favourites were changed writes the
    favourites and the time of the update, when the document passes the
    validation, and throws otherwise. *)
Lemma save_favorites (now : Z) (today : Date) (u : User) (l : list ObjectId)
      (w : Api.World) :
  save now today u (Documents.setFavoriteFlats l (Documents.load u)) w
  = if validate today (Documents.load u) then
      (Ok (Documents.withFavorites now l u),
       Api.mkWorld
         (mkDb (Flats (Api.db w))
               (Documents.replaceUser (Documents.withFavorites now l u)
                                      (Users (Api.db w)))
               (Messages (Api.db w)))
         (Api.calls w))
    else (Throw "ValidationError", w).
Proof.
  unfold save, Documents.saveLoaded.
  change (Account.validate nameOk isEmail passwordOk today
            (Documents.setFavoriteFlats l (Documents.load u)))
    with (validate today (Documents.load u)).
  destruct (validate today (Documents.load u)); reflexivity.
Qed.

End FavouriteFacts.

Lemma User_findById_invalid (isValid : string -> bool) (id : string)
      (w : Api.World) :
  isValid id = false ->
  Api.User_findById isValid id w
  = (Throw "CastError",
     Api.mkWorld (Api.db w) (Api.calls w ++ [Api.UserFindById id])).
Proof.
  intros H. unfold Api.User_findById, Api.mbind, Api.call.
  rewrite H. reflexivity.
Qed.

(** What [addToFavorites] does, case by case. *)
Lemma addToFavorites_cases
      (isValid nameOk isEmail passwordOk : string -> bool)
      (bcryptHash : string -> nat -> string)
      (now : Z) (today : Date) (flatId : string) (userId : ObjectId)
      (w : Api.World) (r : Api.response (list ObjectId)) (w' : Api.World) :
  FlatController.addToFavorites isValid nameOk isEmail passwordOk bcryptHash
                                now today flatId userId w = (r, w') ->
  (Api.db w' = Api.db w /\ Api.statusOf r <> 200)
  \/
  (exists f u,
      isValid flatId = true /\ isValid userId = true /\
      Api.findFlat (Api.db w) flatId = Some f /\
      Api.findUser (Api.db w) userId = Some u /\
      ~ In flatId (favoriteFlats u) /\
      Account.validate nameOk isEmail passwordOk today (Documents.load u)
      = true /\
      r = Api.Success 200 (favoriteFlats u ++ [flatId]) /\
      Api.db w'
      = mkDb (Flats (Api.db w))
             (Documents.replaceUser
                (Documents.withFavorites now (favoriteFlats u ++ [flatId]) u)
                (Users (Api.db w)))
             (Messages (Api.db w))).
Proof.
  unfold FlatController.addToFavorites, Api.tryCatch, Api.mbind.
  destruct (isValid flatId) eqn:Hv; cbn [negb].
  2:{ intros H. inversion H; subst. left. split; [reflexivity | discriminate]. }
  rewrite (Flat_findById_valid _ _ _ Hv).
  destruct (Api.findFlat (Api.db w) flatId) as [f |] eqn:Hf.
  2:{ cbn [Api.ret]. intros H. inversion H; subst.
      left. split; [reflexivity | discriminate]. }
  destruct (isValid userId) eqn:Hu.
  2:{ rewrite (User_findById_invalid _ _ _ Hu).
      intros H. inversion H; subst. left. split; [reflexivity | discriminate]. }
  rewrite (User_findById_valid _ _ _ Hu). cbn [Api.db].
  destruct (Api.findUser (Api.db w) userId) as [u |] eqn:Hfu.
  2:{ cbn [Api.ret]. intros H. inversion H; subst.
      left. split; [reflexivity | discriminate]. }
  cbn [Documents.load Account.doc_favoriteFlats].
  destruct (Documents.includes flatId (favoriteFlats u)) eqn:Hi.
  { cbn [Api.ret]. intros H. inversion H; subst.
    left. split; [reflexivity | discriminate]. }
  change (Account.mkUserDoc (user_id u) (Some (firstName u))
            (Some (lastName u)) (Some (birthDate u)) (Some (email u))
            (Some (password u)) (role u) (favoriteFlats u)
            match addedFlats u with Some l => l | None => [] end false [])
    with (Documents.load u).
  rewrite save_favorites.
  destruct (Account.validate nameOk isEmail passwordOk today (Documents.load u))
    eqn:Hval.
  2:{ intros H. inversion H; subst. left. split; [reflexivity | discriminate]. }
  cbn [Api.ret Api.db Api.calls favoriteFlats Documents.withFavorites].
  intros H. inversion H; subst. right. exists f, u.
  repeat split; try assumption; try reflexivity.
  intros Hin. apply includes_In in Hin. congruence.
Qed.

(** What [removeFromFavorites] does, case by case. *)
Lemma removeFromFavorites_cases
      (isValid nameOk isEmail passwordOk : string -> bool)
      (bcryptHash : string -> nat -> string)
      (now : Z) (today : Date) (flatId : string) (userId : ObjectId)
      (w : Api.World) (r : Api.response (list ObjectId)) (w' : Api.World) :
  FlatController.removeFromFavorites isValid nameOk isEmail passwordOk
                                     bcryptHash now today flatId userId w
  = (r, w') ->
  (Api.db w' = Api.db w /\ Api.statusOf r <> 200)
  \/
  (exists u index,
      isValid flatId = true /\ isValid userId = true /\
      Api.findUser (Api.db w) userId = Some u /\
      Documents.indexOf flatId (favoriteFlats u) = Some index /\
      Account.validate nameOk isEmail passwordOk today (Documents.load u)
      = true /\
      r = Api.Success 200 (Documents.splice1 index (favoriteFlats u)) /\
      Api.db w'
      = mkDb (Flats (Api.db w))
             (Documents.replaceUser
                (Documents.withFavorites
                   now (Documents.splice1 index (favoriteFlats u)) u)
                (Users (Api.db w)))
             (Messages (Api.db w))).
Proof.
  unfold FlatController.removeFromFavorites, Api.tryCatch, Api.mbind.
  destruct (isValid flatId) eqn:Hv; cbn [negb].
  2:{ intros H. inversion H; subst. left. split; [reflexivity | discriminate]. }
  destruct (isValid userId) eqn:Hu.
  2:{ rewrite (User_findById_invalid _ _ _ Hu).
      intros H. inversion H; subst. left. split; [reflexivity | discriminate]. }
  rewrite (User_findById_valid _ _ _ Hu).
  destruct (Api.findUser (Api.db w) userId) as [u |] eqn:Hfu.
  2:{ cbn [Api.ret]. intros H. inversion H; subst.
      left. split; [reflexivity | discriminate]. }
  cbn [Documents.load Account.doc_favoriteFlats].
  destruct (Documents.indexOf flatId (favoriteFlats u)) as [index |] eqn:Hi.
  2:{ cbn [Api.ret]. intros H. inversion H; subst.
      left. split; [reflexivity | discriminate]. }
  change (Account.mkUserDoc (user_id u) (Some (firstName u))
            (Some (lastName u)) (Some (birthDate u)) (Some (email u))
            (Some (password u)) (role u) (favoriteFlats u)
            match addedFlats u with Some l => l | None => [] end false [])
    with (Documents.load u).
  rewrite save_favorites.
  destruct (Account.validate nameOk isEmail passwordOk today (Documents.load u))
    eqn:Hval.
  2:{ intros H. inversion H; subst. left. split; [reflexivity | discriminate]. }
  cbn [Api.ret Api.db Api.calls favoriteFlats Documents.withFavorites].
  intros H. inversion H; subst. right. exists u, index.
  repeat split; try assumption; reflexivity.
Qed.

(** [removeFromFavorites] on a favourite of an account that passes the
    validation. *)
Lemma removeFromFavorites_found
      (isValid nameOk isEmail passwordOk : string -> bool)
      (bcryptHash : string -> nat -> string)
      (now : Z) (today : Date) (flatId : string) (userId : ObjectId)
      (w : Api.World) (u : User) (index : nat) :
  isValid flatId = true ->
  isValid userId = true ->
  Api.findUser (Api.db w) userId = Some u ->
  Documents.indexOf flatId (favoriteFlats u) = Some index ->
  Account.validate nameOk isEmail passwordOk today (Documents.load u) = true ->
  FlatController.removeFromFavorites isValid nameOk isEmail passwordOk
                                     bcryptHash now today flatId userId w
  = (Api.Success 200 (Documents.splice1 index (favoriteFlats u)),
     Api.mkWorld
       (mkDb (Flats (Api.db w))
             (Documents.replaceUser
                (Documents.withFavorites
                   now (Documents.splice1 index (favoriteFlats u)) u)
                (Users (Api.db w)))
             (Messages (Api.db w)))
       (Api.calls w ++ [Api.UserFindById userId])).
Proof.
  intros Hv Hvu Hu Hi Hval.
  unfold FlatController.removeFromFavorites, Api.tryCatch, Api.mbind.
  rewrite Hv. cbn [negb].
  rewrite (User_findById_valid _ _ _ Hvu), Hu.
  cbn [Documents.load Account.doc_favoriteFlats]. rewrite Hi.
  change (Account.mkUserDoc (user_id u) (Some (firstName u))
            (Some (lastName u)) (Some (birthDate u)) (Some (email u))
            (Some (password u)) (role u) (favoriteFlats u)
            match addedFlats u with Some l => l | None => [] end false [])
    with (Documents.load u).
  rewrite save_favorites, Hval. reflexivity.
Qed.

(** X9. Adding a flat to one's favourites and removing it again is a
    round trip.  When [addToFavorites] succeeds it answers the former
    favourites followed by the flat; a [removeFromFavorites] of the same
    flat right after it succeeds too, answers the former favourites, and
    leaves the account as it was before the two calls but for its time of
    update.  (The identifier of the flat is written as the store prints
    identifiers.) *)
Theorem favourite_added_then_removed
        (isValid nameOk isEmail passwordOk : string -> bool)
        (bcryptHash : string -> nat -> string)
        (now now' : Z) (today today' : Date)
        (flatId : string) (userId : ObjectId)
        (w w1 : Api.World) (favorites : list ObjectId) :
  Documents.printed flatId ->
  FlatController.addToFavorites isValid nameOk isEmail passwordOk bcryptHash
                                now today flatId userId w
  = (Api.Success 200 favorites, w1) ->
  exists u w2,
    Api.findUser (Api.db w) userId = Some u
    /\ favorites = favoriteFlats u ++ [flatId]
    /\ FlatController.removeFromFavorites
         isValid nameOk isEmail passwordOk bcryptHash
         now' today' flatId userId w1
       = (Api.Success 200 (favoriteFlats u), w2)
    /\ Api.findUser (Api.db w2) userId
       = Some (Documents.withFavorites now' (favoriteFlats u) u)
    /\ Flats (Api.db w2) = Flats (Api.db w)
    /\ Messages (Api.db w2) = Messages (Api.db w).
Proof.
  intros _ Hadd.
  destruct (addToFavorites_cases _ _ _ _ _ _ _ _ _ _ _ _ Hadd)
    as [[_ Hs] | (f & u & Hv & Hvu & Hf & Hu & Hnew & Hval & Hr & Hdb)];
    [now contradiction Hs |].
  inversion Hr; subst favorites.
  destruct (find_user_id _ _ _ Hu) as [Hid _].
  set (u1 := Documents.withFavorites now (favoriteFlats u ++ [flatId]) u).
  assert (Hu1 : Api.findUser (Api.db w1) userId = Some u1).
  { unfold Api.findUser. rewrite Hdb. cbn [Users].
    apply (find_replaceUser userId u); [exact Hid | exact Hu]. }
  assert (Hnot : Documents.includes flatId (favoriteFlats u) = false).
  { apply not_true_is_false. intros H. apply Hnew. now apply includes_In. }
  assert (Hi : Documents.indexOf flatId (favoriteFlats u1)
               = Some (List.length (favoriteFlats u)))
    by exact (indexOf_last _ _ Hnot).
  assert (Hval1 : Account.validate nameOk isEmail passwordOk today'
                    (Documents.load u1) = true) by exact Hval.
  rewrite (removeFromFavorites_found
             isValid nameOk isEmail passwordOk bcryptHash now' today'
             flatId userId w1 u1 _ Hv Hvu Hu1 Hi Hval1).
  cbn [u1 favoriteFlats Documents.withFavorites].
  rewrite splice1_last.
  exists u. eexists. split; [exact Hu |]. split; [reflexivity |].
  split; [reflexivity |].
  cbn [Api.db Flats Messages Users]. rewrite Hdb. cbn [Flats Messages Users].
  split; [| split; reflexivity].
  unfold Api.findUser. cbn [Users].
  apply (find_replaceUser userId u1); [exact Hid |].
  unfold Api.findUser in Hu1. rewrite Hdb in Hu1. exact Hu1.
Qed.

Lemma favourite_added_then_removed_witness :
  let w := Api.mkWorld Sample.sampleDb [] in
  let flat := flat_id Sample.albaFlat in
  let add :=
    FlatController.addToFavorites
      Sample.hex24 Sample.asciiNameOk Sample.asciiIsEmail
      Sample.asciiPasswordOk Sample.plainHash
      9000 Sample.today flat (user_id Sample.dan) w in
  fst add = Api.Success 200 [flat]
  /\ exists u w2,
       Api.findUser (Api.db w) (user_id Sample.dan) = Some u
       /\ [flat] = favoriteFlats u ++ [flat]
       /\ FlatController.removeFromFavorites
            Sample.hex24 Sample.asciiNameOk Sample.asciiIsEmail
            Sample.asciiPasswordOk Sample.plainHash
            9500 Sample.today flat (user_id Sample.dan) (snd add)
          = (Api.Success 200 (favoriteFlats u), w2)
       /\ Api.findUser (Api.db w2) (user_id Sample.dan)
          = Some (Documents.withFavorites 9500 (favoriteFlats u) u)
       /\ Flats (Api.db w2) = Flats (Api.db w)
       /\ Messages (Api.db w2) = Messages (Api.db w).
Proof.
  cbn zeta. split; [reflexivity |].
  apply (favourite_added_then_removed
           Sample.hex24 Sample.asciiNameOk Sample.asciiIsEmail
           Sample.asciiPasswordOk Sample.plainHash
           9000 9500 Sample.today Sample.today
           (flat_id Sample.albaFlat) (user_id Sample.dan)
           (Api.mkWorld Sample.sampleDb [])).
  - split; reflexivity.
  - vm_compute. reflexivity.
Defined.

Lemma in_replaceUser (u' v : User) (l : list User) :
  In v (Documents.replaceUser u' l) -> v = u' \/ In v l.
Proof.
  unfold Documents.replaceUser. intros H. apply in_map_iff in H.
  destruct H as [x [Hx Hin]].
  destruct (user_id x =? user_id u'); [left; now symmetry | right; now subst].
Qed.

Lemma NoDup_snoc (l : list ObjectId) (x : ObjectId) :
  NoDup l -> ~ In x l -> NoDup (l ++ [x]).
Proof.
  intros Hl Hx. apply NoDup_app; [exact Hl | repeat constructor; intros [] |].
  intros y Hy [<- | []]. exact (Hx Hy).
Qed.

(** X10. No flat gets twice into the favourites of an account: when no
    account holds a flat twice among its favourites before a call of
    [addToFavorites] or of [removeFromFavorites], none does after it,
    whatever the call answers.  (The identifier of the flat is written as
    the store prints identifiers.) *)
Theorem favourites_hold_no_flat_twice
        (isValid nameOk isEmail passwordOk : string -> bool)
        (bcryptHash : string -> nat -> string)
        (now : Z) (today : Date) (flatId : string) (userId : ObjectId)
        (w : Api.World) :
  Documents.printed flatId ->
  (forall u, In u (Users (Api.db w)) -> NoDup (favoriteFlats u)) ->
  (forall u,
      In u (Users (Api.db (snd (FlatController.addToFavorites
                                  isValid nameOk isEmail passwordOk bcryptHash
                                  now today flatId userId w)))) ->
      NoDup (favoriteFlats u))
  /\
  (forall u,
      In u (Users (Api.db (snd (FlatController.removeFromFavorites
                                  isValid nameOk isEmail passwordOk bcryptHash
                                  now today flatId userId w)))) ->
      NoDup (favoriteFlats u)).
Proof.
  intros _ Hinv. split.
  - destruct (FlatController.addToFavorites _ _ _ _ _ _ _ _ _ w)
      as [r w'] eqn:E. cbn [snd].
    destruct (addToFavorites_cases _ _ _ _ _ _ _ _ _ _ _ _ E)
      as [[-> _] | (f & u & _ & _ & _ & Hu & Hnew & _ & _ & ->)];
      [exact Hinv |].
    cbn [Users]. intros v Hv.
    destruct (in_replaceUser _ _ _ Hv) as [-> | Hin]; [| now apply Hinv].
    destruct (find_user_id _ _ _ Hu) as [_ Hin].
    cbn [Documents.withFavorites favoriteFlats].
    apply NoDup_snoc; [now apply Hinv | exact Hnew].
  - destruct (FlatController.removeFromFavorites _ _ _ _ _ _ _ _ _ w)
      as [r w'] eqn:E. cbn [snd].
    destruct (removeFromFavorites_cases _ _ _ _ _ _ _ _ _ _ _ _ E)
      as [[-> _] | (u & index & _ & _ & Hu & _ & _ & _ & ->)];
      [exact Hinv |].
    cbn [Users]. intros v Hv.
    destruct (in_replaceUser _ _ _ Hv) as [-> | Hin]; [| now apply Hinv].
    destruct (find_user_id _ _ _ Hu) as [_ Hin].
    cbn [Documents.withFavorites favoriteFlats].
    apply splice1_NoDup. now apply Hinv.
Qed.

Lemma favourites_hold_no_flat_twice_witness :
  let w := Api.mkWorld Examples.busyDb [] in
  let flat := flat_id Sample.clujFlat in
  map favoriteFlats
      (Users (Api.db (snd (FlatController.addToFavorites
                             Sample.hex24 Sample.asciiNameOk
                             Sample.asciiIsEmail Sample.asciiPasswordOk
                             Sample.plainHash
                             9000 Sample.today flat (user_id Examples.eva) w))))
  = [[]; [flat_id Sample.albaFlat]; [flat_id Sample.albaFlat; flat]]
  /\ forall u,
       In u (Users (Api.db (snd (FlatController.addToFavorites
                                   Sample.hex24 Sample.asciiNameOk
                                   Sample.asciiIsEmail Sample.asciiPasswordOk
                                   Sample.plainHash
                                   9000 Sample.today flat
                                   (user_id Examples.eva) w)))) ->
       NoDup (favoriteFlats u).
Proof.
  cbn zeta. split; [reflexivity |].
  apply (favourites_hold_no_flat_twice
           Sample.hex24 Sample.asciiNameOk Sample.asciiIsEmail
           Sample.asciiPasswordOk Sample.plainHash
           9000 Sample.today (flat_id Sample.clujFlat) (user_id Examples.eva)
           (Api.mkWorld Examples.busyDb [])).
  - split; reflexivity.
  - intros u [<- | [<- | [<- | []]]]; cbn;
      repeat constructor; intros [].
Defined.

(* ================================================================== *)
(** * The deletion of a flat                                           *)
(* ================================================================== *)

Lemma find_flat_id (id : string) (l : list Flat) (f : Flat) :
  find (fun g => flat_id g =? id) l = Some f -> flat_id f = id /\ In f l.
Proof.
  intros H. apply find_some in H. destruct H as [Hin H].
  apply String.eqb_eq in H. auto.
Qed.

(** X11. Only the owner deletes a flat.  Unless the flat exists and the
    caller owns it, [deleteFlat] leaves the three collections as they
    were and does not call the image service: it answers 400 to an
    identifier that has not the format, 404 when there is no such flat,
    and 403 when the flat is someone else's.  (An identifier that has the
    format is written as the store prints identifiers.) *)
Theorem deleteFlat_only_by_owner
        (isValid : string -> bool) (destroy : string -> Api.M unit)
        (now : Z) (flatId : string) (userId : ObjectId) (w : Api.World) :
  (isValid flatId = true -> Documents.printed flatId) ->
  (forall f, Api.findFlat (Api.db w) flatId = Some f -> owner f <> userId) ->
  exists message,
    FlatController.deleteFlat isValid destroy now flatId userId w
    = (Api.Failed
         (if negb (isValid flatId) then 400
          else match Api.findFlat (Api.db w) flatId with
               | None => 404
               | Some _ => 403
               end)
         message,
       if isValid flatId
       then Api.mkWorld (Api.db w) (Api.calls w ++ [Api.FlatFindById flatId])
       else w).
Proof.
  intros _ Hforeign.
  unfold FlatController.deleteFlat, Api.tryCatch, Api.mbind.
  destruct (isValid flatId) eqn:Hv; cbn [negb]; [| eexists; reflexivity].
  rewrite (Flat_findById_valid _ _ _ Hv).
  destruct (Api.findFlat (Api.db w) flatId) as [f |] eqn:Hf;
    [| eexists; reflexivity].
  assert ((owner f =? userId) = false) as ->
      by (apply String.eqb_neq; now apply Hforeign).
  eexists. reflexivity.
Qed.

Lemma deleteFlat_only_by_owner_witness :
  let w := Api.mkWorld Examples.busyDb [] in
  exists message,
    FlatController.deleteFlat Sample.hex24 Examples.destroyOk 9000
                              (flat_id Sample.albaFlat) (user_id Sample.dan) w
    = (Api.Failed 403 message,
       Api.mkWorld Examples.busyDb
                   [Api.FlatFindById (flat_id Sample.albaFlat)]).
Proof.
  cbn zeta.
  apply (deleteFlat_only_by_owner
           Sample.hex24 Examples.destroyOk 9000
           (flat_id Sample.albaFlat) (user_id Sample.dan)
           (Api.mkWorld Examples.busyDb [])).
  - intros _. split; reflexivity.
  - intros f Hf. vm_compute in Hf. inversion Hf; subst f. discriminate.
Defined.

Lemma pull_removes (x : ObjectId) (l : list ObjectId) :
  ~ In x (Documents.pull x l).
Proof.
  unfold Documents.pull. intros H. apply filter_In in H.
  destruct H as [_ H]. now rewrite String.eqb_refl in H.
Qed.

Lemma pull_incl (x : ObjectId) (l : list ObjectId) :
  incl (Documents.pull x l) l.
Proof. unfold Documents.pull. apply incl_filter. Qed.

Lemma pullFavorite_favorites (now : Z) (flat : ObjectId) (u : User) :
  favoriteFlats (Documents.pullFavorite now flat u)
  = Documents.pull flat (favoriteFlats u)
  /\ user_id (Documents.pullFavorite now flat u) = user_id u
  /\ addedFlats (Documents.pullFavorite now flat u) = addedFlats u.
Proof.
  unfold Documents.pullFavorite.
  destruct (Documents.includes flat (favoriteFlats u)) eqn:E;
    [repeat split |].
  repeat split. unfold Documents.pull. symmetry.
  apply forallb_filter_id. apply forallb_forall. intros y Hy.
  apply negb_true_iff. apply String.eqb_neq. intros ->.
  apply includes_In in Hy. congruence.
Qed.

Lemma pullAdded_fields (now : Z) (user flat : ObjectId) (u : User) :
  favoriteFlats (Documents.pullAdded now user flat u) = favoriteFlats u
  /\ user_id (Documents.pullAdded now user flat u) = user_id u
  /\ addedFlats (Documents.pullAdded now user flat u)
     = if user_id u =? user
       then option_map (Documents.pull flat) (addedFlats u)
       else addedFlats u.
Proof.
  unfold Documents.pullAdded. destruct (user_id u =? user); repeat split.
Qed.

(** What a successful [deleteFlat] has done. *)
Lemma deleteFlat_success
      (isValid : string -> bool) (destroy : string -> Api.M unit)
      (now : Z) (flat : string) (userId : ObjectId)
      (w w' : Api.World) (id : string) :
  (forall image v, Api.db (snd (destroy image v)) = Api.db v) ->
  FlatController.deleteFlat isValid destroy now flat userId w
  = (Api.Success 200 id, w') ->
  (exists f, Api.findFlat (Api.db w) flat = Some f /\ owner f = userId)
  /\ Api.db w'
     = mkDb (List.filter (fun f => negb (flat_id f =? flat))
                         (Flats (Api.db w)))
            (map (Documents.pullAdded now userId flat)
                 (map (Documents.pullFavorite now flat) (Users (Api.db w))))
            (List.filter (fun m => negb (flatId m =? flat))
                         (Messages (Api.db w))).
Proof.
  intros Hdestroy.
  unfold FlatController.deleteFlat, Api.tryCatch, Api.mbind.
  destruct (isValid flat) eqn:Hv; cbn [negb]; [| discriminate].
  rewrite (Flat_findById_valid _ _ _ Hv).
  destruct (Api.findFlat (Api.db w) flat) as [f |] eqn:Hf;
    [| discriminate].
  destruct (owner f =? userId) eqn:Ho; cbn [negb]; [| discriminate].
  apply String.eqb_eq in Ho.
  destruct (find_flat_id _ _ _ Hf) as [Hid _].
  set (w0 := Api.mkWorld (Api.db w) (Api.calls w ++ [Api.FlatFindById flat])).
  assert (Hstep : exists r w1,
             (if negb (public_id (image f) =? "")
              then destroy (public_id (image f)) else Api.ret tt) w0
             = (r, w1) /\ Api.db w1 = Api.db w).
  { destruct (negb (public_id (image f) =? "")).
    - exists (fst (destroy (public_id (image f)) w0)),
             (snd (destroy (public_id (image f)) w0)).
      split; [apply surjective_pairing | now rewrite Hdestroy].
    - exists (Ok tt), w0. split; reflexivity. }
  destruct Hstep as (r & w1 & -> & Hdb1).
  destruct r as [[] | e]; [| discriminate].
  unfold Documents.Message_deleteMany_flatId, Documents.User_pullFavorite,
    Documents.User_pullAdded, Documents.Flat_findByIdAndDelete,
    Api.mbind, Api.getDb, Api.putDb, Api.ret.
  cbn [Api.db Api.calls Flats Users Messages].
  intros H. inversion H; subst id w'. clear H.
  cbn [Api.db Flats Users Messages]. rewrite Hdb1, Hid.
  split; [exists f; auto | reflexivity].
Qed.

(** X12. The deletion of a flat leaves no reference to it.  When
    [deleteFlat] succeeds, the caller owned the flat; afterwards the flat
    and the messages on it are gone, while the other flats and messages
    are as before; no account is lost; every account keeps its other
    favourites and has lost this one; and the flat is no longer among the
    flats the owner has added.  (The image service may do what it will,
    except write to the store.) *)
Theorem deleteFlat_leaves_no_reference
        (isValid : string -> bool) (destroy : string -> Api.M unit)
        (now : Z) (flat : string) (userId : ObjectId)
        (w w' : Api.World) (id : string) :
  (forall image v, Api.db (snd (destroy image v)) = Api.db v) ->
  FlatController.deleteFlat isValid destroy now flat userId w
  = (Api.Success 200 id, w') ->
  (exists f, Api.findFlat (Api.db w) flat = Some f /\ owner f = userId)
  /\ Flats (Api.db w')
     = List.filter (fun f => negb (flat_id f =? flat)) (Flats (Api.db w))
  /\ Messages (Api.db w')
     = List.filter (fun m => negb (flatId m =? flat))
                   (Messages (Api.db w))
  /\ map (fun u => (user_id u, favoriteFlats u)) (Users (Api.db w'))
     = map (fun u => (user_id u, Documents.pull flat (favoriteFlats u)))
           (Users (Api.db w))
  /\ (forall u, In u (Users (Api.db w')) -> ~ In flat (favoriteFlats u))
  /\ (forall u l, In u (Users (Api.db w')) -> user_id u = userId ->
                  addedFlats u = Some l -> ~ In flat l).
Proof.
  intros Hdestroy Hrun.
  destruct (deleteFlat_success _ _ _ _ _ _ _ _ Hdestroy Hrun) as [Hf ->].
  cbn [Flats Users Messages].
  split; [exact Hf |]. split; [reflexivity |]. split; [reflexivity |].
  split; [| split].
  - rewrite !map_map. apply map_ext. intros u.
    destruct (pullAdded_fields now userId flat
                (Documents.pullFavorite now flat u)) as (-> & -> & _).
    destruct (pullFavorite_favorites now flat u) as (-> & -> & _).
    reflexivity.
  - intros u Hu. apply in_map_iff in Hu. destruct Hu as [v [<- Hv']].
    apply in_map_iff in Hv'. destruct Hv' as [x [<- _]].
    destruct (pullAdded_fields now userId flat
                (Documents.pullFavorite now flat x)) as (-> & _).
    destruct (pullFavorite_favorites now flat x) as (-> & _).
    apply pull_removes.
  - intros u l Hu Huid Hl. apply in_map_iff in Hu. destruct Hu as [v [<- Hv']].
    destruct (pullAdded_fields now userId flat v) as (_ & Hvid & Ha).
    rewrite Hvid in Huid. rewrite Ha in Hl.
    apply String.eqb_eq in Huid. rewrite Huid in Hl.
    destruct (addedFlats v) as [l0 |]; [| discriminate].
    cbn [option_map] in Hl. inversion Hl. apply pull_removes.
Qed.

Lemma deleteFlat_leaves_no_reference_witness :
  let w := Api.mkWorld Examples.busyDb [] in
  let flat := flat_id Sample.albaFlat in
  let out :=
    FlatController.deleteFlat Sample.hex24 Examples.destroyOk 9000
                              flat (user_id Sample.ana) w in
  fst out = Api.Success 200 flat
  /\ map flat_id (Flats (Api.db (snd out))) = [flat_id Sample.clujFlat]
  /\ Messages (Api.db (snd out)) = []
  /\ (forall u, In u (Users (Api.db (snd out))) -> ~ In flat (favoriteFlats u))
  /\ (forall u l, In u (Users (Api.db (snd out))) ->
                  user_id u = user_id Sample.ana ->
                  addedFlats u = Some l -> ~ In flat l).
Proof.
  cbn zeta.
  destruct (deleteFlat_leaves_no_reference
              Sample.hex24 Examples.destroyOk 9000
              (flat_id Sample.albaFlat) (user_id Sample.ana)
              (Api.mkWorld Examples.busyDb [])
              (snd (FlatController.deleteFlat
                      Sample.hex24 Examples.destroyOk 9000
                      (flat_id Sample.albaFlat) (user_id Sample.ana)
                      (Api.mkWorld Examples.busyDb [])))
              (flat_id Sample.albaFlat))
    as (_ & _ & _ & _ & Hfav & Hadded).
  - intros image v. reflexivity.
  - vm_compute. reflexivity.
  - split; [reflexivity |]. split; [reflexivity |]. split; [reflexivity |].
    split; [exact Hfav | exact Hadded].
Defined.

(* ================================================================== *)
(** * The deletion of an account                                       *)
(* ================================================================== *)

Lemma mbind_Ok {A B : Type} (m : Api.M A) (k : A -> Api.M B)
      (w : Api.World) (a : A) (w1 : Api.World) :
  m w = (Ok a, w1) -> Api.mbind m k w = k a w1.
Proof. intros H. unfold Api.mbind. now rewrite H. Qed.

Lemma mbind_Throw {A B : Type} (m : Api.M A) (k : A -> Api.M B)
      (w : Api.World) (e : string) (w1 : Api.World) :
  m w = (Throw e, w1) -> Api.mbind m k w = (Throw e, w1).
Proof. intros H. unfold Api.mbind. now rewrite H. Qed.

Section AccountDeletion.

Variable destroy : string -> Api.M unit.

(** The image service does not write to the store. *)
Hypothesis destroy_keeps_store :
  forall image v, Api.db (snd (destroy image v)) = Api.db v.

(** What one round of the loop over the flats does to the collections. *)
Let dropped (now : Z) (d : Db) (flat : Flat) : Db :=
  mkDb (Flats d)
       (map (Documents.pullFavorite now (flat_id flat)) (Users d))
       (List.filter (fun m => negb (flatId m =? flat_id flat)) (Messages d)).

Lemma dropFlat_effect (now : Z) (flat : Flat) (w w' : Api.World) :
  AdminController.dropFlat destroy now flat w = (Ok tt, w') ->
  Api.db w' = dropped now (Api.db w) flat.
Proof.
  unfold AdminController.dropFlat, Api.mbind.
  assert (Hstep : exists r w1,
             (if negb (public_id (image flat) =? "")
              then destroy (public_id (image flat)) else Api.ret tt) w
             = (r, w1) /\ Api.db w1 = Api.db w).
  { destruct (negb (public_id (image flat) =? "")).
    - exists (fst (destroy (public_id (image flat)) w)),
             (snd (destroy (public_id (image flat)) w)).
      split; [apply surjective_pairing | apply destroy_keeps_store].
    - exists (Ok tt), w. split; reflexivity. }
  destruct Hstep as (r & w1 & -> & Hdb1).
  destruct r as [[] | e]; [| discriminate].
  unfold Documents.Message_deleteMany_flatId, Documents.User_pullFavorite,
    Api.mbind, Api.getDb, Api.putDb.
  cbn [Api.db Api.calls Flats Users Messages].
  intros H. inversion H; subst w'. cbn [Api.db]. rewrite Hdb1. reflexivity.
Qed.

Lemma forEach_dropFlat_effect (now : Z) (flats : list Flat)
      (w w' : Api.World) :
  Documents.forEach flats (AdminController.dropFlat destroy now) w
  = (Ok tt, w') ->
  Api.db w' = fold_left (dropped now) flats (Api.db w).
Proof.
  revert w. induction flats as [| flat flats IH]; intros w;
    cbn [Documents.forEach fold_left].
  - intros H. inversion H. reflexivity.
  - unfold Api.mbind.
    destruct (AdminController.dropFlat destroy now flat w) as [[[] | e] w1]
      eqn:E; [| discriminate].
    intros H. rewrite (IH _ H), (dropFlat_effect _ _ _ _ E). reflexivity.
Qed.

Lemma dropped_all_flats (now : Z) (flats : list Flat) (d : Db) :
  Flats (fold_left (dropped now) flats d) = Flats d.
Proof.
  revert d. induction flats as [| flat flats IH]; intros d; [reflexivity |].
  cbn [fold_left]. now rewrite IH.
Qed.

Lemma dropped_all_messages (now : Z) (flats : list Flat) (d : Db) :
  Messages (fold_left (dropped now) flats d)
  = List.filter
      (fun m => negb (existsb (fun f => flatId m =? flat_id f) flats))
      (Messages d).
Proof.
  revert d. induction flats as [| flat flats IH]; intros d.
  - cbn [fold_left existsb negb]. symmetry. apply forallb_filter_id.
    now apply forallb_forall.
  - cbn [fold_left]. rewrite IH. cbn [dropped Messages existsb].
    induction (Messages d) as [| m ms IHm]; [reflexivity |].
    cbn [List.filter].
    destruct (flatId m =? flat_id flat); cbn [negb orb List.filter];
      rewrite IHm; reflexivity.
Qed.

Lemma dropped_all_users (now : Z) (flats : list Flat) (d : Db) :
  map user_id (Users (fold_left (dropped now) flats d))
  = map user_id (Users d)
  /\ forall u, In u (Users (fold_left (dropped now) flats d)) ->
       (forall f, In f flats -> ~ In (flat_id f) (favoriteFlats u))
       /\ exists v, In v (Users d) /\ user_id u = user_id v
                    /\ incl (favoriteFlats u) (favoriteFlats v)
                    /\ (forall x, In x (favoriteFlats v) ->
                                  (forall f, In f flats -> x <> flat_id f) ->
                                  In x (favoriteFlats u)).
Proof.
  revert d. induction flats as [| flat flats IH]; intros d.
  - cbn [fold_left]. split; [reflexivity |]. intros u Hu.
    split; [intros f [] |].
    exists u. repeat split; auto. apply incl_refl.
  - cbn [fold_left]. destruct (IH (dropped now d flat)) as [Hids Hus].
    split.
    + rewrite Hids. cbn [dropped Users]. rewrite map_map.
      apply map_ext. intros u.
      now destruct (pullFavorite_favorites now (flat_id flat) u) as (_ & -> & _).
    + intros u Hu. destruct (Hus u Hu) as [Hnone (v & Hv & Hid & Hincl & Hkeep)].
      cbn [dropped Users] in Hv. apply in_map_iff in Hv.
      destruct Hv as [v0 [<- Hv0]].
      destruct (pullFavorite_favorites now (flat_id flat) v0)
        as (Hfav & Hvid & _).
      rewrite Hfav in Hincl, Hkeep. rewrite Hvid in Hid.
      split.
      * intros f [<- | Hf]; [| now apply Hnone].
        intros Hin. apply Hincl in Hin. exact (pull_removes _ _ Hin).
      * exists v0. split; [exact Hv0 |]. split; [exact Hid |]. split.
        -- intros x Hx. apply (pull_incl (flat_id flat)). now apply Hincl.
        -- intros x Hx Hother. apply Hkeep.
           ++ unfold Documents.pull. apply filter_In. split; [exact Hx |].
              apply negb_true_iff. apply String.eqb_neq.
              apply Hother. now left.
           ++ intros f Hf. apply Hother. now right.
Qed.

(** The cascade that [deleteUserById] and [deleteProfile] share: the
    messages of the account, then its flats with their messages and the
    favourites that point to them.  [rest] is what the handler does
    next. *)
Lemma cascade_effect {A : Type} (rest : Api.M A) (now : Z) (userId : ObjectId)
      (w w' : Api.World) (a : A) :
  (Api.mbind (Documents.Message_deleteMany_senderId userId)
     (fun _ =>
        Api.mbind (Documents.Flat_find_owner userId)
          (fun flats =>
             Api.mbind
               (Documents.forEach flats (AdminController.dropFlat destroy now))
               (fun _ =>
                  Api.mbind (Documents.Flat_deleteMany_owner userId)
                            (fun _ => rest))))) w
  = (Ok a, w') ->
  let owned := List.filter (fun f => owner f =? userId) (Flats (Api.db w)) in
  exists w2,
    rest w2 = (Ok a, w')
    /\ Flats (Api.db w2)
       = List.filter (fun f => negb (owner f =? userId)) (Flats (Api.db w))
    /\ Messages (Api.db w2)
       = List.filter
           (fun m => negb (existsb (fun f => flatId m =? flat_id f) owned))
           (List.filter (fun m => negb (senderId m =? userId))
                        (Messages (Api.db w)))
    /\ map user_id (Users (Api.db w2)) = map user_id (Users (Api.db w))
    /\ forall u, In u (Users (Api.db w2)) ->
         (forall f, In f owned -> ~ In (flat_id f) (favoriteFlats u))
         /\ exists v, In v (Users (Api.db w)) /\ user_id u = user_id v
                      /\ incl (favoriteFlats u) (favoriteFlats v)
                      /\ (forall x, In x (favoriteFlats v) ->
                                    (forall f, In f owned -> x <> flat_id f) ->
                                    In x (favoriteFlats u)).
Proof.
  unfold Api.mbind at 1 2.
  unfold Documents.Message_deleteMany_senderId at 1,
    Documents.Flat_find_owner at 1.
  unfold Api.mbind at 1 2. unfold Api.getDb, Api.putDb, Api.ret.
  cbn [Api.db Api.calls Flats Users Messages].
  unfold Api.mbind at 1.
  set (w1 := Api.mkWorld _ _).
  set (owned := List.filter (fun f => owner f =? userId) (Flats (Api.db w))).
  destruct (Documents.forEach owned (AdminController.dropFlat destroy now) w1)
    as [[[] | e] w2] eqn:E; [| discriminate].
  pose proof (forEach_dropFlat_effect _ _ _ _ E) as Hdb.
  unfold Api.mbind at 1.
  unfold Documents.Flat_deleteMany_owner, Api.mbind at 1, Api.getDb, Api.putDb.
  set (w3 := Api.mkWorld _ _).
  intros H. cbn zeta. exists w3. split; [exact H |].
  unfold w3. cbn [Api.db Flats Users Messages]. rewrite Hdb.
  rewrite dropped_all_flats, dropped_all_messages.
  destruct (dropped_all_users now owned (Api.db w1)) as [Hids Hus].
  repeat split; try reflexivity.
  - exact Hids.
  - now apply (Hus u).
  - destruct (Hus u H0) as [_ Hv]. exact Hv.
Qed.

Lemma dropFlat_any (now : Z) (flat : Flat) (w w' : Api.World)
      (r : result unit) :
  AdminController.dropFlat destroy now flat w = (r, w') ->
  Api.db w' = Api.db w \/ Api.db w' = dropped now (Api.db w) flat.
Proof.
  destruct r as [[] | e]; [right; now apply dropFlat_effect |].
  unfold AdminController.dropFlat, Api.mbind.
  assert (Hstep : exists r w1,
             (if negb (public_id (image flat) =? "")
              then destroy (public_id (image flat)) else Api.ret tt) w
             = (r, w1) /\ Api.db w1 = Api.db w).
  { destruct (negb (public_id (image flat) =? "")).
    - exists (fst (destroy (public_id (image flat)) w)),
             (snd (destroy (public_id (image flat)) w)).
      split; [apply surjective_pairing | apply destroy_keeps_store].
    - exists (Ok tt), w. split; reflexivity. }
  destruct Hstep as (r & w1 & -> & Hdb1).
  destruct r as [[] | e'].
  - unfold Documents.Message_deleteMany_flatId, Documents.User_pullFavorite,
      Api.mbind, Api.getDb, Api.putDb. discriminate.
  - intros H. inversion H; subst. now left.
Qed.

(** However the loop over the flats ends, it has dropped some of them. *)
Lemma forEach_dropFlat_any (now : Z) (flats : list Flat) (w w' : Api.World)
      (r : result unit) :
  Documents.forEach flats (AdminController.dropFlat destroy now) w = (r, w') ->
  exists done, Api.db w' = fold_left (dropped now) done (Api.db w).
Proof.
  revert w. induction flats as [| flat flats IH]; intros w;
    cbn [Documents.forEach].
  - intros H. inversion H. now exists [].
  - unfold Api.mbind.
    destruct (AdminController.dropFlat destroy now flat w) as [r1 w1] eqn:E.
    destruct (dropFlat_any _ _ _ _ _ E) as [Hsame | Hdrop].
    + destruct r1 as [[] | e].
      * intros H. destruct (IH _ H) as [done Hdone].
        exists done. now rewrite Hdone, Hsame.
      * intros H. inversion H; subst. exists []. exact Hsame.
    + destruct r1 as [[] | e].
      * intros H. destruct (IH _ H) as [done Hdone].
        exists (flat :: done). cbn [fold_left]. now rewrite Hdone, Hdrop.
      * intros H. inversion H; subst. exists [flat]. exact Hdrop.
Qed.

Lemma linked_after (d d' : Db) :
  Documents.linked d ->
  incl (Messages d') (Messages d) ->
  (forall m f, In m (Messages d') -> In f (Flats d) ->
               flat_id f = flatId m ->
               exists f', In f' (Flats d') /\ flat_id f' = flatId m) ->
  (forall m u, In m (Messages d') -> In u (Users d) ->
               user_id u = senderId m ->
               exists u', In u' (Users d') /\ user_id u' = senderId m) ->
  Documents.linked d'.
Proof.
  intros Hd Hincl Hflats Husers m Hm.
  destruct (Hd m (Hincl m Hm)) as [(f & Hf & Hfid) (u & Hu & Huid)].
  split; [exact (Hflats m f Hm Hf Hfid) | exact (Husers m u Hm Hu Huid)].
Qed.

Lemma same_ids_found (l l' : list User) (id : string) (u : User) :
  map user_id l' = map user_id l ->
  In u l -> user_id u = id ->
  exists u', In u' l' /\ user_id u' = id.
Proof.
  intros Hids Hu Hid.
  assert (Hin : In id (map user_id l')).
  { rewrite Hids, <- Hid. now apply in_map. }
  apply in_map_iff in Hin. destruct Hin as [u' [Hu' Hin]]. now exists u'.
Qed.

Lemma dropped_some_linked (now : Z) (done : list Flat) (d : Db) :
  Documents.linked d -> Documents.linked (fold_left (dropped now) done d).
Proof.
  intros Hd. apply (linked_after d); [exact Hd | | |].
  - rewrite dropped_all_messages. apply incl_filter.
  - intros m f _ Hf Hid. rewrite dropped_all_flats. now exists f.
  - intros m u _ Hu Hid.
    destruct (dropped_all_users now done d) as [Hids _].
    exact (same_ids_found _ _ _ _ Hids Hu Hid).
Qed.

(** The cascade followed by the deletion of the account keeps the
    links, however it ends. *)
Lemma cascade_keeps_links {A : Type} (rest : option User -> Api.M A)
      (now : Z) (userId : ObjectId) (w w' : Api.World) (r : result A) :
  (forall o v, snd (rest o v) = v) ->
  (Api.mbind (Documents.Message_deleteMany_senderId userId)
     (fun _ =>
        Api.mbind (Documents.Flat_find_owner userId)
          (fun flats =>
             Api.mbind
               (Documents.forEach flats (AdminController.dropFlat destroy now))
               (fun _ =>
                  Api.mbind (Documents.Flat_deleteMany_owner userId)
                    (fun _ =>
                       Api.mbind (Documents.User_findByIdAndDelete userId)
                                 rest))))) w
  = (r, w') ->
  Documents.linked (Api.db w) -> Documents.linked (Api.db w').
Proof.
  intros Hrest Hrun Hlinked.
  set (owned := List.filter (fun f => owner f =? userId) (Flats (Api.db w))).
  set (w1 := Api.mkWorld
               (mkDb (Flats (Api.db w)) (Users (Api.db w))
                     (List.filter (fun m => negb (senderId m =? userId))
                                  (Messages (Api.db w))))
               (Api.calls w)).
  assert (Hw1 : Documents.linked (Api.db w1)).
  { apply (linked_after (Api.db w)); [exact Hlinked | | |];
      unfold w1; cbn [Api.db Flats Users Messages].
    - apply incl_filter.
    - intros m f _ Hf Hid. now exists f.
    - intros m u _ Hu Hid. now exists u. }
  rewrite (mbind_Ok (Documents.Message_deleteMany_senderId userId)
                    _ w tt w1 eq_refl) in Hrun.
  rewrite (mbind_Ok (Documents.Flat_find_owner userId)
                    _ w1 owned w1 eq_refl) in Hrun.
  destruct (Documents.forEach owned (AdminController.dropFlat destroy now) w1)
    as [[[] | e] w2] eqn:E.
  2:{ rewrite (mbind_Throw _ _ _ _ _ E) in Hrun. inversion Hrun; subst.
      destruct (forEach_dropFlat_any _ _ _ _ _ E) as [done ->].
      now apply dropped_some_linked. }
  rewrite (mbind_Ok _ _ _ _ _ E) in Hrun.
  pose proof (forEach_dropFlat_effect _ _ _ _ E) as Hdb.
  set (w3 := Api.mkWorld
               (mkDb (List.filter (fun f => negb (owner f =? userId))
                                  (Flats (Api.db w2)))
                     (Users (Api.db w2)) (Messages (Api.db w2)))
               (Api.calls w2)).
  rewrite (mbind_Ok (Documents.Flat_deleteMany_owner userId)
                    _ w2 tt w3 eq_refl) in Hrun.
  set (w4 := Api.mkWorld
               (mkDb (Flats (Api.db w3))
                     (List.filter (fun u => negb (user_id u =? userId))
                                  (Users (Api.db w3)))
                     (Messages (Api.db w3)))
               (Api.calls w3)).
  rewrite (mbind_Ok (Documents.User_findByIdAndDelete userId)
                    _ w3 (Api.findUser (Api.db w3) userId) w4 eq_refl)
    in Hrun.
  assert (Hw' : w' = w4).
  { pose proof (Hrest (Api.findUser (Api.db w3) userId) w4) as Hsnd.
    rewrite Hrun in Hsnd. cbn [snd] in Hsnd. exact Hsnd. }
  subst w'. unfold w4, w3. cbn [Api.db Flats Users Messages]. rewrite Hdb.
  rewrite dropped_all_flats, dropped_all_messages.
  destruct (dropped_all_users now owned (Api.db w1)) as [Hids _].
  apply (linked_after (Api.db w)); [exact Hlinked | | |];
    cbn [Flats Users Messages].
  - intros m Hm. apply filter_In in Hm. destruct Hm as [Hm _].
    unfold w1 in Hm. cbn [Api.db Messages] in Hm.
    apply filter_In in Hm. tauto.
  - intros m f Hm Hf Hid. exists f. split; [| exact Hid].
    apply filter_In. split; [unfold w1; exact Hf |].
    apply negb_true_iff. apply not_true_is_false. intros Ho.
    apply filter_In in Hm. destruct Hm as [_ Hm].
    apply negb_true_iff in Hm.
    assert (Hex : existsb (fun g => flatId m =? flat_id g) owned = true).
    { apply existsb_exists. exists f. split.
      - unfold owned. apply filter_In. auto.
      - apply String.eqb_eq. now symmetry. }
    congruence.
  - intros m u Hm Hu Hid.
    apply filter_In in Hm. destruct Hm as [Hm _].
    unfold w1 in Hm. cbn [Api.db Messages] in Hm.
    apply filter_In in Hm. destruct Hm as [_ Hsender].
    apply negb_true_iff in Hsender. apply String.eqb_neq in Hsender.
    assert (Hu1 : In u (Users (Api.db w1))) by exact Hu.
    destruct (same_ids_found _ _ _ _ Hids Hu1 Hid) as [u' [Hu' Hid']].
    exists u'. split; [| exact Hid'].
    apply filter_In. split; [exact Hu' |].
    apply negb_true_iff. apply String.eqb_neq. congruence.
Qed.

End AccountDeletion.

Lemma find_user_none (id : string) (l : list User) :
  find (fun u => user_id u =? id) l = None <-> ~ In id (map user_id l).
Proof.
  split.
  - intros H Hin. apply in_map_iff in Hin. destruct Hin as [u [<- Hu]].
    pose proof (find_none _ _ H u Hu) as E. cbn beta in E.
    now rewrite String.eqb_refl in E.
  - intros H. destruct (find _ l) as [u |] eqn:E; [| reflexivity].
    destruct (find_user_id _ _ _ E) as [<- Hin].
    exfalso. apply H. now apply in_map.
Qed.

Lemma filter_negb_id (id : string) (l : list User) (u : User) :
  In u (List.filter (fun v => negb (user_id v =? id)) l) ->
  In u l /\ user_id u <> id.
Proof.
  intros H. apply filter_In in H. destruct H as [Hin H].
  apply negb_true_iff in H. apply String.eqb_neq in H. auto.
Qed.

Lemma map_filter_user_id (id : string) (l : list User) :
  map user_id (List.filter (fun v => negb (user_id v =? id)) l)
  = List.filter (fun x => negb (x =? id)) (map user_id l).
Proof.
  induction l as [| v vs IH]; [reflexivity |].
  cbn [List.filter map].
  destruct (user_id v =? id); cbn [negb map]; now rewrite IH.
Qed.

(** X13. The deletion of an account by an administrator leaves no trace
    of it.  When [deleteUserById] succeeds the account existed, and
    afterwards: the account is gone and the other accounts remain; the
    flats it owned are gone and the other flats are as before; gone are
    the messages it sent and the messages on its flats, the other
    messages are as before; and no remaining account has one of its flats
    among its favourites, while keeping its other favourites.  (The image
    service may do what it will, except write to the store.) *)
Theorem deleteUserById_leaves_no_trace
        (isValid : string -> bool) (destroy : string -> Api.M unit)
        (now : Z) (userId : string) (w w' : Api.World) :
  (forall image v, Api.db (snd (destroy image v)) = Api.db v) ->
  AdminController.deleteUserById isValid destroy now userId w
  = (Api.Success 200 tt, w') ->
  let owned := List.filter (fun f => owner f =? userId) (Flats (Api.db w)) in
  (exists u, Api.findUser (Api.db w) userId = Some u)
  /\ map user_id (Users (Api.db w'))
     = List.filter (fun id => negb (id =? userId))
                   (map user_id (Users (Api.db w)))
  /\ Flats (Api.db w')
     = List.filter (fun f => negb (owner f =? userId)) (Flats (Api.db w))
  /\ Messages (Api.db w')
     = List.filter
         (fun m => negb (existsb (fun f => flatId m =? flat_id f) owned))
         (List.filter (fun m => negb (senderId m =? userId))
                      (Messages (Api.db w)))
  /\ forall u, In u (Users (Api.db w')) ->
       (forall f, In f owned -> ~ In (flat_id f) (favoriteFlats u))
       /\ exists v, In v (Users (Api.db w)) /\ user_id u = user_id v
                    /\ (forall x, In x (favoriteFlats v) ->
                                  (forall f, In f owned -> x <> flat_id f) ->
                                  In x (favoriteFlats u)).
Proof.
  intros Hdestroy.
  unfold AdminController.deleteUserById, Api.tryCatch.
  unfold Api.mbind at 1.
  destruct (isValid userId) eqn:Hv;
    [| rewrite (User_findById_invalid _ _ _ Hv); discriminate].
  rewrite (User_findById_valid _ _ _ Hv).
  destruct (Api.findUser (Api.db w) userId) as [u |] eqn:Hu; [| discriminate].
  set (w0 := Api.mkWorld (Api.db w) (Api.calls w ++ [Api.UserFindById userId])).
  destruct (Api.mbind (Documents.Message_deleteMany_senderId userId) _ w0)
    as [[r | e] w1] eqn:E; [| discriminate].
  intros H. inversion H; subst r w1. clear H.
  destruct (cascade_effect destroy Hdestroy _ _ _ _ _ _ E)
    as (w2 & Hrest & Hflats & Hmessages & Hids & Hfav).
  cbn [w0 Api.db] in Hflats, Hmessages, Hids, Hfav.
  revert Hrest.
  unfold Documents.User_findByIdAndDelete, Api.mbind, Api.getDb, Api.putDb,
    Api.ret.
  intros H. inversion H; subst w'. clear H.
  cbn [Api.db Flats Users Messages]. cbn zeta.
  split; [now exists u |].
  split; [| split; [exact Hflats | split; [exact Hmessages |]]].
  - rewrite <- Hids. apply map_filter_user_id.
  - intros v Hv'. apply filter_negb_id in Hv'. destruct Hv' as [Hin _].
    destruct (Hfav v Hin) as [Hnone (x & Hx & Hid & _ & Hkeep)].
    split; [exact Hnone |]. exists x. auto.
Qed.

Lemma deleteUserById_leaves_no_trace_witness :
  let w := Api.mkWorld Examples.busyDb [] in
  let out :=
    AdminController.deleteUserById Sample.hex24 Examples.destroyOk 9000
                                   (user_id Sample.ana) w in
  fst out = Api.Success 200 tt
  /\ map user_id (Users (Api.db (snd out)))
     = [user_id Sample.dan; user_id Examples.eva]
  /\ Flats (Api.db (snd out)) = []
  /\ Messages (Api.db (snd out)) = []
  /\ forall u, In u (Users (Api.db (snd out))) ->
               ~ In (flat_id Sample.albaFlat) (favoriteFlats u).
Proof.
  cbn zeta.
  destruct (deleteUserById_leaves_no_trace
              Sample.hex24 Examples.destroyOk 9000 (user_id Sample.ana)
              (Api.mkWorld Examples.busyDb [])
              (snd (AdminController.deleteUserById
                      Sample.hex24 Examples.destroyOk 9000
                      (user_id Sample.ana) (Api.mkWorld Examples.busyDb []))))
    as (_ & Hids & Hflats & Hmessages & Hfav).
  - intros image v. reflexivity.
  - vm_compute. reflexivity.
  - split; [reflexivity |]. split; [exact Hids |].
    split; [exact Hflats |]. split; [exact Hmessages |].
    intros u Hu. destruct (Hfav u Hu) as [Hnone _].
    apply (Hnone (Sample.withMessages
                    Sample.albaFlat
                    [message_id Examples.hello; message_id Examples.reply])).
    left. reflexivity.
Defined.

(** X14. [deleteProfile] deletes before it looks.  Whenever it does not
    answer 500, the messages sent under the caller's identifier, the
    flats owned under it, the messages on these flats and the favourites
    that point to them are gone, as after [deleteUserById]; it then
    answers 200 when there was an account of that identifier, which is
    deleted too, and 404 when there was none. *)
Theorem deleteProfile_deletes_before_it_looks
        (destroy : string -> Api.M unit)
        (now : Z) (userId : ObjectId) (w w' : Api.World)
        (r : Api.response unit) :
  (forall image v, Api.db (snd (destroy image v)) = Api.db v) ->
  AuthController.deleteProfile destroy now userId w = (r, w') ->
  Api.statusOf r <> 500 ->
  let owned := List.filter (fun f => owner f =? userId) (Flats (Api.db w)) in
  r = match Api.findUser (Api.db w) userId with
      | Some _ => Api.Success 200 tt
      | None => Api.Failed 404 "User not found!"
      end
  /\ map user_id (Users (Api.db w'))
     = List.filter (fun id => negb (id =? userId))
                   (map user_id (Users (Api.db w)))
  /\ Flats (Api.db w')
     = List.filter (fun f => negb (owner f =? userId)) (Flats (Api.db w))
  /\ Messages (Api.db w')
     = List.filter
         (fun m => negb (existsb (fun f => flatId m =? flat_id f) owned))
         (List.filter (fun m => negb (senderId m =? userId))
                      (Messages (Api.db w)))
  /\ forall u, In u (Users (Api.db w')) ->
       forall f, In f owned -> ~ In (flat_id f) (favoriteFlats u).
Proof.
  intros Hdestroy.
  unfold AuthController.deleteProfile, Api.tryCatch.
  destruct (Api.mbind (Documents.Message_deleteMany_senderId userId) _ w)
    as [[r0 | e] w1] eqn:E.
  2:{ intros H. inversion H; subst r. intros Hs. now contradiction Hs. }
  intros H. inversion H; subst r0 w1. clear H. intros _.
  destruct (cascade_effect destroy Hdestroy _ _ _ _ _ _ E)
    as (w2 & Hrest & Hflats & Hmessages & Hids & Hfav).
  revert Hrest.
  unfold Documents.User_findByIdAndDelete, Api.mbind, Api.getDb, Api.putDb,
    Api.ret.
  assert (Hsame : match Api.findUser (Api.db w2) userId with
                  | Some _ => Api.Success 200 tt
                  | None => Api.Failed 404 "User not found!"
                  end
                  = match Api.findUser (Api.db w) userId with
                    | Some _ => Api.Success 200 tt
                    | None => Api.Failed 404 "User not found!"
                    end).
  { unfold Api.findUser.
    destruct (find _ (Users (Api.db w2))) as [u2 |] eqn:E2;
      destruct (find _ (Users (Api.db w))) as [u0 |] eqn:E0;
      try reflexivity; exfalso.
    - apply find_user_none in E0. apply E0. rewrite <- Hids.
      destruct (find_user_id _ _ _ E2) as [<- Hin]. now apply in_map.
    - apply find_user_none in E2. apply E2. rewrite Hids.
      destruct (find_user_id _ _ _ E0) as [<- Hin]. now apply in_map. }
  destruct (Api.findUser (Api.db w2) userId) as [u2 |];
    intros H; inversion H; subst r w'; clear H;
    cbn [Api.db Flats Users Messages]; cbn zeta;
    (split; [exact Hsame |]);
    (split; [| split; [exact Hflats | split; [exact Hmessages |]]]).
  - rewrite <- Hids. apply map_filter_user_id.
  - intros v Hv'. apply filter_negb_id in Hv'. destruct Hv' as [Hin _].
    now destruct (Hfav v Hin).
  - rewrite <- Hids. apply map_filter_user_id.
  - intros v Hv'. apply filter_negb_id in Hv'. destruct Hv' as [Hin _].
    now destruct (Hfav v Hin).
Qed.

Lemma deleteProfile_deletes_before_it_looks_witness :
  let w := Api.mkWorld Examples.leftoverDb [] in
  let out :=
    AuthController.deleteProfile Examples.destroyOk 9000
                                 (user_id Sample.dan) w in
  Messages (Api.db w) = [Examples.hello]
  /\ fst out = Api.Failed 404 "User not found!"
  /\ Messages (Api.db (snd out)) = [].
Proof.
  cbn zeta.
  destruct (deleteProfile_deletes_before_it_looks
              Examples.destroyOk 9000 (user_id Sample.dan)
              (Api.mkWorld Examples.leftoverDb [])
              (snd (AuthController.deleteProfile
                      Examples.destroyOk 9000 (user_id Sample.dan)
                      (Api.mkWorld Examples.leftoverDb [])))
              (fst (AuthController.deleteProfile
                      Examples.destroyOk 9000 (user_id Sample.dan)
                      (Api.mkWorld Examples.leftoverDb []))))
    as (Hr & _ & _ & Hmessages & _).
  - intros image v. reflexivity.
  - apply surjective_pairing.
  - vm_compute. discriminate.
  - split; [reflexivity |]. split; [exact Hr | exact Hmessages].
Defined.

(* ================================================================== *)
(** * The role of an account                                           *)
(* ================================================================== *)

Lemma save_role
      (nameOk isEmail passwordOk : string -> bool)
      (bcryptHash : string -> nat -> string)
      (now : Z) (today : Date) (u : User) (r : string) (w : Api.World) :
  Documents.saveLoaded nameOk isEmail passwordOk bcryptHash now today u
                       (Documents.setRole r (Documents.load u)) w
  = if Account.validate nameOk isEmail passwordOk today
                        (Documents.setRole r (Documents.load u))
    then
      if role u =? r then (Ok u, w)
      else
        (Ok (Documents.withRole now r u),
         Api.mkWorld
           (mkDb (Flats (Api.db w))
                 (Documents.replaceUser (Documents.withRole now r u)
                                        (Users (Api.db w)))
                 (Messages (Api.db w)))
           (Api.calls w))
    else (Throw "ValidationError", w).
Proof.
  unfold Documents.saveLoaded.
  destruct (Account.validate nameOk isEmail passwordOk today
              (Documents.setRole r (Documents.load u))); [| reflexivity].
  cbn [negb]. unfold Documents.setRole.
  cbn [Documents.load Account.doc_role].
  destruct (role u =? r); reflexivity.
Qed.

(** X15. [updateRole] writes a role of the two the schema knows, and
    nothing else.  A role that is neither [admin] nor [user], or none at
    all, is answered with 400 before the store is asked.  When the call
    succeeds, the account has the role asked for and is otherwise as it
    was stored -- the password is not hashed a second time -- but for the
    time of the update; the other accounts, the flats and the messages
    are as before. *)
Theorem updateRole_writes_only_the_role
        (isValid nameOk isEmail passwordOk : string -> bool)
        (bcryptHash : string -> nat -> string)
        (now : Z) (today : Date) (userId : string) (newRole : option string)
        (w : Api.World) :
  ((forall r, newRole = Some r -> r <> "admin" /\ r <> "user") ->
   AdminController.updateRole isValid nameOk isEmail passwordOk bcryptHash
                              now today userId newRole w
   = (Api.Failed 400 "Invalid role specified!", w))
  /\
  (forall saved w',
      AdminController.updateRole isValid nameOk isEmail passwordOk bcryptHash
                                 now today userId newRole w
      = (Api.Success 200 saved, w') ->
      exists u r,
        newRole = Some r /\ (r = "admin" \/ r = "user")
        /\ Api.findUser (Api.db w) userId = Some u
        /\ (saved = u \/ saved = Documents.withRole now r u)
        /\ role saved = r
        /\ password saved = password u
        /\ Api.findUser (Api.db w') userId = Some saved
        /\ (forall v, In v (Users (Api.db w')) ->
                      v = saved \/ In v (Users (Api.db w)))
        /\ map user_id (Users (Api.db w')) = map user_id (Users (Api.db w))
        /\ Flats (Api.db w') = Flats (Api.db w)
        /\ Messages (Api.db w') = Messages (Api.db w)).
Proof.
  split.
  - intros Hbad. unfold AdminController.updateRole, Api.tryCatch.
    destruct newRole as [r |]; [| reflexivity].
    destruct (Hbad r eq_refl) as [Ha Hu].
    apply String.eqb_neq in Ha, Hu. cbn [existsb]. rewrite Ha, Hu.
    reflexivity.
  - intros saved w'. unfold AdminController.updateRole, Api.tryCatch.
    destruct newRole as [r |]; [| discriminate].
    destruct (existsb (String.eqb r) ["admin"; "user"]) eqn:Hr; cbn [negb];
      [| discriminate].
    unfold Api.mbind at 1.
    destruct (isValid userId) eqn:Hv;
      [| rewrite (User_findById_invalid _ _ _ Hv); discriminate].
    rewrite (User_findById_valid _ _ _ Hv).
    destruct (Api.findUser (Api.db w) userId) as [u |] eqn:Hu;
      [| discriminate].
    unfold Api.mbind. rewrite save_role.
    destruct (Account.validate _ _ _ _ _); [| discriminate].
    destruct (find_user_id _ _ _ Hu) as [Hid Hin].
    assert (Hrole : r = "admin" \/ r = "user").
    { cbn [existsb] in Hr. apply orb_true_iff in Hr.
      destruct Hr as [Hr | Hr]; [left |];
        [| apply orb_true_iff in Hr; destruct Hr as [Hr | Hr];
           [right | discriminate]];
        now apply String.eqb_eq in Hr. }
    destruct (role u =? r) eqn:Esame; intros H; inversion H; subst saved w';
      clear H; exists u, r; cbn [Api.db Flats Users Messages].
    + apply String.eqb_eq in Esame.
      repeat split; auto.
    + repeat split; auto.
      * unfold Api.findUser. cbn [Users].
        apply (find_replaceUser userId u); [exact Hid | exact Hu].
      * intros v Hin'. apply in_replaceUser in Hin'. tauto.
      * unfold Documents.replaceUser. rewrite map_map. apply map_ext_in.
        intros v _. cbn [Documents.withRole user_id].
        destruct (user_id v =? user_id u) eqn:E; [| reflexivity].
        apply String.eqb_eq in E. now symmetry.
Qed.

Lemma updateRole_writes_only_the_role_witness :
  let w := Api.mkWorld Sample.sampleDb [] in
  let update role :=
    AdminController.updateRole
      Sample.hex24 Sample.asciiNameOk Sample.asciiIsEmail
      Sample.asciiPasswordOk Sample.plainHash
      9000 Sample.today (user_id Sample.ana) role w in
  update (Some "owner") = (Api.Failed 400 "Invalid role specified!", w)
  /\ fst (update (Some "admin"))
     = Api.Success 200 (Documents.withRole 9000 "admin" Sample.ana)
  /\ exists u r,
       Some "admin" = Some r /\ (r = "admin" \/ r = "user")
       /\ Api.findUser (Api.db w) (user_id Sample.ana) = Some u
       /\ (Documents.withRole 9000 "admin" Sample.ana = u
           \/ Documents.withRole 9000 "admin" Sample.ana
              = Documents.withRole 9000 r u)
       /\ role (Documents.withRole 9000 "admin" Sample.ana) = r
       /\ password (Documents.withRole 9000 "admin" Sample.ana) = password u
       /\ Api.findUser (Api.db (snd (update (Some "admin"))))
                       (user_id Sample.ana)
          = Some (Documents.withRole 9000 "admin" Sample.ana)
       /\ (forall v, In v (Users (Api.db (snd (update (Some "admin"))))) ->
                     v = Documents.withRole 9000 "admin" Sample.ana
                     \/ In v (Users (Api.db w)))
       /\ map user_id (Users (Api.db (snd (update (Some "admin")))))
          = map user_id (Users (Api.db w))
       /\ Flats (Api.db (snd (update (Some "admin")))) = Flats (Api.db w)
       /\ Messages (Api.db (snd (update (Some "admin"))))
          = Messages (Api.db w).
Proof.
  cbn zeta. split; [| split; [reflexivity |]].
  - apply (proj1 (updateRole_writes_only_the_role
                    Sample.hex24 Sample.asciiNameOk Sample.asciiIsEmail
                    Sample.asciiPasswordOk Sample.plainHash
                    9000 Sample.today (user_id Sample.ana) (Some "owner")
                    (Api.mkWorld Sample.sampleDb []))).
    intros r H. inversion H; subst r. split; discriminate.
  - apply (proj2 (updateRole_writes_only_the_role
                    Sample.hex24 Sample.asciiNameOk Sample.asciiIsEmail
                    Sample.asciiPasswordOk Sample.plainHash
                    9000 Sample.today (user_id Sample.ana) (Some "admin")
                    (Api.mkWorld Sample.sampleDb []))).
    vm_compute. reflexivity.
Defined.

(* ================================================================== *)
(** * Who sees which messages                                          *)
(* ================================================================== *)

Lemma mapM_format (d : Db) (l : list Message) (w w' : Api.World)
      (data : list MessageController.FormattedMessage) :
  MessageController.mapM (MessageController.format d) l w = (Ok data, w') ->
  w' = w
  /\ Forall2
       (fun m fm =>
          MessageController.fm_id fm = message_id m
          /\ MessageController.fm_flatId fm = flatId m
          /\ MessageController.fm_senderId fm = senderId m
          /\ MessageController.fm_content fm = content m
          /\ MessageController.fm_createdAt fm = message_createdAt m)
       l data.
Proof.
  revert data w'. induction l as [| m l IH]; intros data w';
    cbn [MessageController.mapM].
  - intros H. inversion H. split; [reflexivity | constructor].
  - unfold Api.mbind at 1. unfold MessageController.format at 1.
    destruct (Api.findUser d (senderId m)) as [sender |] eqn:Hs;
      [| discriminate].
    cbn [Api.ret]. unfold Api.mbind at 1.
    destruct (MessageController.mapM (MessageController.format d) l w)
      as [[rest | e] w1] eqn:E; [| discriminate].
    intros H. inversion H; subst data w'.
    destruct (IH _ _ eq_refl) as [-> Hall].
    split; [reflexivity |]. constructor; [| exact Hall].
    destruct (find_user_id _ _ _ Hs) as [Hid _].
    cbn. auto.
Qed.

Lemma Forall2_In_l {A B : Type} (R : A -> B -> Prop) (l : list A)
      (l' : list B) (a : A) :
  Forall2 R l l' -> In a l -> exists b, In b l' /\ R a b.
Proof.
  induction 1 as [| x y l l' Hxy _ IH]; intros Hin; [contradiction |].
  destruct Hin as [<- | Hin].
  - exists y. split; [now left | exact Hxy].
  - destruct (IH Hin) as [b [Hb HR]]. exists b. split; [now right | exact HR].
Qed.

Lemma Forall2_In_r {A B : Type} (R : A -> B -> Prop) (l : list A)
      (l' : list B) (b : B) :
  Forall2 R l l' -> In b l' -> exists a, In a l /\ R a b.
Proof.
  induction 1 as [| x y l l' Hxy _ IH]; intros Hin; [contradiction |].
  destruct Hin as [<- | Hin].
  - exists x. split; [now left | exact Hxy].
  - destruct (IH Hin) as [a [Ha HR]]. exists a. split; [now right | exact HR].
Qed.

Lemma Forall2_sorted {A B : Type} (R : A -> B -> Prop)
      (P : A -> A -> Prop) (Q : B -> B -> Prop) (l : list A) (l' : list B) :
  (forall a b a' b', R a a' -> R b b' -> P a b -> Q a' b') ->
  Forall2 R l l' -> StronglySorted P l -> StronglySorted Q l'.
Proof.
  intros HPQ. induction 1 as [| x y l l' Hxy Hall IH]; intros Hs;
    [constructor |].
  inversion Hs as [| ? ? Hl Hx]; subst.
  constructor; [now apply IH |].
  apply Forall_forall. intros b Hb.
  destruct (Forall2_In_r _ _ _ _ Hall Hb) as [a [Ha HR]].
  rewrite Forall_forall in Hx. exact (HPQ _ _ _ _ Hxy HR (Hx a Ha)).
Qed.

(** X16. Only the owner of a flat sees all the messages on it.  When
    [getAllMessages] succeeds it leaves the store as it was and tells
    whether the caller owns the flat; every message of the answer is a
    stored message on that flat, and is one the caller sent unless the
    caller is the owner; every stored message on the flat that the
    caller may see -- all of them for the owner, the caller's own for
    anyone else -- is in the answer; and the answer runs from the oldest
    message to the newest. *)
Theorem getAllMessages_shows_ones_own
        (isValid : string -> bool)
        (sortDocs : forall A : Type, (A -> A -> comparison) -> list A -> list A)
        (flat : string) (userId : ObjectId) (w w' : Api.World)
        (data : list MessageController.FormattedMessage) (isOwner : bool) :
  (forall selected : Message -> bool,
      sortedBy (compareBy MessageController.messageField [("createdAt", Asc)])
               (List.filter selected (Messages (Api.db w)))
               (sortDocs Message
                  (compareBy MessageController.messageField
                             [("createdAt", Asc)])
                  (List.filter selected (Messages (Api.db w))))) ->
  MessageController.getAllMessages isValid sortDocs flat userId w
  = (Api.Success 200 (data, isOwner), w') ->
  Api.db w' = Api.db w
  /\ (exists f, Api.findFlat (Api.db w) flat = Some f
                /\ isOwner = (owner f =? userId))
  /\ (forall fm, In fm data ->
        MessageController.fm_flatId fm = flat
        /\ (isOwner = false -> MessageController.fm_senderId fm = userId)
        /\ exists m, In m (Messages (Api.db w))
                     /\ message_id m = MessageController.fm_id fm
                     /\ content m = MessageController.fm_content fm
                     /\ senderId m = MessageController.fm_senderId fm)
  /\ (forall m, In m (Messages (Api.db w)) -> flatId m = flat ->
                isOwner = true \/ senderId m = userId ->
                exists fm, In fm data
                           /\ MessageController.fm_id fm = message_id m
                           /\ MessageController.fm_content fm = content m)
  /\ StronglySorted
       (fun a b => (MessageController.fm_createdAt a
                    <= MessageController.fm_createdAt b)%Z)
       data.
Proof.
  intros Hsort.
  unfold MessageController.getAllMessages, Api.tryCatch.
  unfold Api.mbind at 1.
  destruct (isValid flat) eqn:Hv.
  2:{ unfold Api.Flat_findById, Api.mbind, Api.call. rewrite Hv.
      discriminate. }
  rewrite (Flat_findById_valid _ _ _ Hv).
  destruct (Api.findFlat (Api.db w) flat) as [f |] eqn:Hf; [| discriminate].
  set (w0 := Api.mkWorld (Api.db w) (Api.calls w ++ [Api.FlatFindById flat])).
  set (selected := fun m : Message =>
                     if owner f =? userId then flatId m =? flat
                     else (flatId m =? flat) && (senderId m =? userId)).
  set (cmp := compareBy MessageController.messageField [("createdAt", Asc)]).
  set (found := sortDocs Message cmp
                         (List.filter selected (Messages (Api.db w)))).
  assert (Hfind : (if owner f =? userId
                   then MessageController.Message_find
                          sortDocs (fun m => flatId m =? flat)
                   else MessageController.Message_find
                          sortDocs (fun m => (flatId m =? flat)
                                             && (senderId m =? userId))) w0
                  = (Ok found, w0)).
  { unfold found, selected, MessageController.Message_find, Api.mbind,
      Api.getDb, Api.ret.
    destruct (owner f =? userId); reflexivity. }
  unfold Api.mbind at 1. rewrite Hfind.
  unfold Api.mbind at 1. unfold Api.getDb at 1. unfold Api.mbind at 1.
  destruct (MessageController.mapM _ found w0) as [[fms | e] w1] eqn:E;
    [| discriminate].
  cbn [Api.ret]. intros H. inversion H; subst fms isOwner w'. clear H.
  destruct (mapM_format _ _ _ _ _ E) as [-> Hall].
  destruct (Hsort selected) as [Hperm Hsorted]. fold cmp found in Hperm, Hsorted.
  split; [reflexivity |].
  split; [exists f; split; reflexivity |].
  split; [| split].
  - intros fm Hfm.
    destruct (Forall2_In_r _ _ _ _ Hall Hfm)
      as (m & Hm & Hid & Hflat & Hsender & Hcontent & _).
    apply (Permutation_in _ (Permutation_sym Hperm)) in Hm.
    apply filter_In in Hm. destruct Hm as [Hm Hsel]. unfold selected in Hsel.
    rewrite Hflat, Hsender.
    destruct (owner f =? userId).
    + apply String.eqb_eq in Hsel.
      split; [exact Hsel |]. split; [discriminate |].
      exists m. auto.
    + apply andb_true_iff in Hsel. destruct Hsel as [H1 H2].
      apply String.eqb_eq in H1, H2.
      split; [exact H1 |]. split; [intros _; exact H2 |].
      exists m. auto.
  - intros m Hm Hflat Hmay.
    assert (Hsel : selected m = true).
    { unfold selected. apply String.eqb_eq in Hflat. rewrite Hflat.
      destruct (owner f =? userId); [reflexivity |].
      destruct Hmay as [H | H]; [discriminate H |].
      apply String.eqb_eq in H. now rewrite H. }
    assert (Hin : In m found).
    { apply (Permutation_in _ Hperm). apply filter_In. auto. }
    destruct (Forall2_In_l _ _ _ _ Hall Hin)
      as (fm & Hfm & Hid & _ & _ & Hcontent & _).
    exists fm. auto.
  - refine (Forall2_sorted _ _ _ _ _ _ Hall Hsorted).
    intros a b a' b' (_ & _ & _ & _ & Ha) (_ & _ & _ & _ & Hb) Hab.
    rewrite Ha, Hb. unfold cmp in Hab. cbn in Hab.
    destruct (message_createdAt a ?= message_createdAt b)%Z eqn:Ec.
    + apply Z.compare_eq in Ec. rewrite Ec. apply Z.le_refl.
    + apply Z.compare_lt_iff in Ec. now apply Z.lt_le_incl.
    + congruence.
Qed.

Lemma getAllMessages_shows_ones_own_witness :
  let w := Api.mkWorld Examples.busyDb [] in
  let flat := flat_id Sample.albaFlat in
  let out :=
    MessageController.getAllMessages Sample.hex24 Sample.insertionSort
                                     flat (user_id Sample.dan) w in
  map MessageController.fm_content (fst (match fst out with
                                         | Api.Success _ d => d
                                         | Api.Failed _ _ => ([], true)
                                         end))
  = [content Examples.hello]
  /\ forall data isOwner,
       fst out = Api.Success 200 (data, isOwner) ->
       isOwner = false
       /\ forall fm, In fm data ->
                     MessageController.fm_senderId fm = user_id Sample.dan.
Proof.
  cbn zeta. split; [reflexivity |].
  intros data isOwner Hout.
  destruct (getAllMessages_shows_ones_own
              Sample.hex24 Sample.insertionSort
              (flat_id Sample.albaFlat) (user_id Sample.dan)
              (Api.mkWorld Examples.busyDb [])
              (snd (MessageController.getAllMessages
                      Sample.hex24 Sample.insertionSort
                      (flat_id Sample.albaFlat) (user_id Sample.dan)
                      (Api.mkWorld Examples.busyDb [])))
              data isOwner)
    as (_ & (f & Hf & Howner) & Hshown & _ & _).
  - intros selected. split; [apply insertionSort_permutes |].
    cbn [Api.db Examples.busyDb Messages List.filter].
    destruct (selected Examples.hello), (selected Examples.reply);
      vm_compute; repeat constructor; discriminate.
  - rewrite <- Hout. apply surjective_pairing.
  - assert (Hfalse : isOwner = false).
    { rewrite Howner. vm_compute in Hf. inversion Hf; subst f. reflexivity. }
    split; [exact Hfalse |].
    intros fm Hfm. destruct (Hshown fm Hfm) as (_ & Hown & _).
    exact (Hown Hfalse).
Defined.

(* ================================================================== *)
(** * The flats of the caller                                          *)
(* ================================================================== *)

(** X17. [getMyFlats] answers the caller's flats, all of them and no
    others, each as often as it is stored, the newest first; [count] is
    their number, and the store is left as it was. *)
Theorem getMyFlats_answers_the_callers_flats
        (sortDocs : forall A : Type, (A -> A -> comparison) -> list A -> list A)
        (userId : ObjectId) (w : Api.World) :
  let owned := List.filter (fun f => owner f =? userId) (Flats (Api.db w)) in
  sortedBy (compareBy flatField [("createdAt", Desc)]) owned
           (sortDocs Flat (compareBy flatField [("createdAt", Desc)]) owned) ->
  exists flats,
    FlatController.getMyFlats sortDocs userId w
    = (Api.Success 200 (List.length flats, flats), w)
    /\ Permutation owned flats
    /\ (forall f, In f flats <-> In f (Flats (Api.db w)) /\ owner f = userId)
    /\ StronglySorted (fun a b => (flat_createdAt b <= flat_createdAt a)%Z)
                      flats.
Proof.
  cbn zeta. intros [Hperm Hsorted].
  eexists. split; [reflexivity |]. split; [exact Hperm |]. split.
  - intros f. split.
    + intros Hf. apply (Permutation_in _ (Permutation_sym Hperm)) in Hf.
      apply filter_In in Hf. destruct Hf as [Hin Ho].
      apply String.eqb_eq in Ho. auto.
    + intros [Hin Ho]. apply (Permutation_in _ Hperm).
      apply filter_In. split; [exact Hin | now apply String.eqb_eq].
  - eapply StronglySorted_among; [| exact Hsorted].
    intros a b _ _ Hab. cbn in Hab.
    destruct (flat_createdAt b ?= flat_createdAt a)%Z eqn:Ec.
    + apply Z.compare_eq in Ec. rewrite Ec. apply Z.le_refl.
    + apply Z.compare_lt_iff in Ec. now apply Z.lt_le_incl.
    + congruence.
Qed.

Lemma getMyFlats_answers_the_callers_flats_witness :
  let w := Api.mkWorld Sample.threeFlats [] in
  fst (FlatController.getMyFlats Sample.insertionSort (user_id Sample.ana) w)
  = Api.Success 200 (3, [Sample.iasiFlat; Sample.clujFlat; Sample.albaFlat])
  /\ exists flats,
       FlatController.getMyFlats Sample.insertionSort (user_id Sample.ana) w
       = (Api.Success 200 (List.length flats, flats), w)
       /\ Permutation (Flats Sample.threeFlats) flats
       /\ (forall f, In f flats <->
                     In f (Flats Sample.threeFlats)
                     /\ owner f = user_id Sample.ana)
       /\ StronglySorted (fun a b => (flat_createdAt b <= flat_createdAt a)%Z)
                         flats.
Proof.
  cbn zeta. split; [reflexivity |].
  apply (getMyFlats_answers_the_callers_flats
           Sample.insertionSort (user_id Sample.ana)
           (Api.mkWorld Sample.threeFlats [])).
  split; [apply insertionSort_permutes |].
  vm_compute. repeat constructor; discriminate.
Defined.

(* ================================================================== *)
(** * Registration and the check of an email                           *)
(* ================================================================== *)

Section EmailFacts.

Variable nameOk : string -> bool.
Variable isEmail : string -> bool.
Variable passwordOk : string -> bool.
Variable bcryptHash : string -> nat -> string.

(** [save] of a new document, case by case. *)
Lemma save_new_cases (now : Z) (today : Date) (doc : Account.UserDoc)
      (w : Api.World) :
  Account.save nameOk isEmail passwordOk bcryptHash now today doc w
  = let w0 := Api.mkWorld (Api.db w)
                          (Api.calls w ++ [Api.UserCreate (Account.doc_email doc)]) in
    if negb (Account.validate nameOk isEmail passwordOk today doc)
    then (Throw "ValidationError", w0)
    else
      match Account.stored now (Account.preSave bcryptHash doc) with
      | None => (Throw "ValidationError", w0)
      | Some user =>
          if existsb (fun u => email u =? email user) (Users (Api.db w))
          then (Throw "E11000", w0)
          else (Ok user,
                Api.mkWorld
                  (mkDb (Flats (Api.db w)) (Users (Api.db w) ++ [user])
                        (Messages (Api.db w)))
                  (Api.calls w0))
      end.
Proof.
  unfold Account.save, Api.mbind, Api.call. cbn zeta.
  destruct (negb (Account.validate nameOk isEmail passwordOk today doc));
    [reflexivity |].
  destruct (Account.stored now (Account.preSave bcryptHash doc)) as [user |];
    [| reflexivity].
  cbn [Api.getDb Api.db].
  destruct (existsb _ _); reflexivity.
Qed.

(** The stored email of a new account is the email of the body, in lower
    case and trimmed; it is not empty and it passed [isEmail]. *)
Lemma stored_new_email (newId : ObjectId) (now : Z) (today : Date)
      (body : Account.Body) (u : User) :
  Account.validate nameOk isEmail passwordOk today
                   (Account.newUser newId body) = true ->
  Account.stored now (Account.preSave bcryptHash (Account.newUser newId body))
  = Some u ->
  exists e, Account.body_email body = Some e
            /\ email u = JS.trim (JS.toLowerCase e)
            /\ email u <> ""
            /\ isEmail (email u) = true.
Proof.
  intros Hv Hs.
  assert (Hmail : Account.doc_email
                    (Account.preSave bcryptHash (Account.newUser newId body))
                  = Account.doc_email (Account.newUser newId body)).
  { unfold Account.preSave. now destruct (negb _). }
  assert (Hu : Account.doc_email (Account.newUser newId body) = Some (email u)).
  { rewrite <- Hmail. unfold Account.stored in Hs.
    set (doc := Account.preSave bcryptHash (Account.newUser newId body)) in *.
    destruct (Account.doc_firstName doc), (Account.doc_lastName doc),
      (Account.doc_birthDate doc), (Account.doc_email doc),
      (Account.doc_password doc); try discriminate.
    inversion Hs. reflexivity. }
  unfold Account.validate in Hv. rewrite Hu in Hv.
  repeat (apply andb_true_iff in Hv; destruct Hv as [Hv ?]).
  cbn [Account.newUser Account.doc_email] in Hu.
  destruct (Account.body_email body) as [e |]; [| discriminate].
  cbn [option_map] in Hu. inversion Hu as [He].
  exists e. split; [reflexivity |]. split; [reflexivity |].
  match goal with
  | H : (negb (email u =? "") && isEmail (email u)) = true |- _ =>
      apply andb_true_iff in H; destruct H as [Hne Hok]
  end.
  rewrite He. split; [| exact Hok].
  apply negb_true_iff in Hne. now apply String.eqb_neq.
Qed.

End EmailFacts.

Lemma find_app_last {A : Type} (p : A -> bool) (l : list A) (x : A) :
  p x = true -> exists y, find p (l ++ [x]) = Some y.
Proof.
  intros Hx. induction l as [| a l IH]; cbn [app find].
  - rewrite Hx. now exists x.
  - destruct (p a); [now exists a | exact IH].
Qed.

(** X18. After a registration the email is taken, however it is
    spelled.  When [register] has succeeded for a body with the email
    [e], [checkEmail] answers [available: false] for every email that is
    [e] up to the case of its letters and the white space around it. *)
Theorem registered_email_is_taken
        (nameOk isEmail passwordOk : string -> bool)
        (bcryptHash : string -> nat -> string)
        (newId : ObjectId) (now : Z) (today : Date) (body : Account.Body)
        (w w' : Api.World) (user : User) (e e' : string) :
  Account.register nameOk isEmail passwordOk bcryptHash
                   newId now today body w = (Api.Success 200 user, w') ->
  Account.body_email body = Some e ->
  JS.trim (JS.toLowerCase e') = JS.trim (JS.toLowerCase e) ->
  AuthController.checkEmail isEmail (Some e') w' = (Api.Success 200 false, w').
Proof.
  intros Hrun He Hsame.
  unfold Account.register, Api.tryCatch, Api.mbind, Account.User_create in Hrun.
  rewrite save_new_cases in Hrun. cbn zeta in Hrun.
  destruct (Account.validate nameOk isEmail passwordOk today
              (Account.newUser newId body)) eqn:Hv; cbn [negb] in Hrun;
    [| discriminate].
  destruct (Account.stored now _) as [u |] eqn:Hs; [| discriminate].
  destruct (existsb _ _); [discriminate |].
  cbn [Api.ret] in Hrun. inversion Hrun; subst user w'. clear Hrun.
  destruct (stored_new_email _ _ _ _ _ _ _ _ _ Hv Hs)
    as (e0 & He0 & Hmail & Hne & Hok).
  rewrite He in He0. inversion He0; subst e0.
  unfold AuthController.checkEmail, Api.tryCatch, Api.mbind, Api.getDb.
  assert (He' : (e' =? "") = false).
  { apply String.eqb_neq. intros ->. apply Hne.
    rewrite Hmail, <- Hsame. reflexivity. }
  rewrite He', Hsame, <- Hmail, Hok. cbn [negb Api.db Users].
  destruct (find_app_last (fun v => email v =? email u) (Users (Api.db w)) u
                          (String.eqb_refl _)) as [y ->].
  reflexivity.
Qed.

Lemma registered_email_is_taken_witness :
  let body :=
    Account.mkBody (Some "Ion") (Some "Pop") (Some (mkDate 1990 1 1))
                   (Some "Ion@Example.com") (Some "secret1!") None
                   None None in
  let run :=
    Account.register Sample.asciiNameOk Sample.asciiIsEmail
                     Sample.asciiPasswordOk Sample.plainHash
                     "64b000000000000000000009" 9000 Sample.today body
                     (Api.mkWorld Sample.sampleDb []) in
  Api.statusOf (fst run) = 200
  /\ AuthController.checkEmail Sample.asciiIsEmail (Some " ION@example.COM ")
                               (snd run)
     = (Api.Success 200 false, snd run).
Proof.
  cbn zeta. split; [reflexivity |].
  eapply (registered_email_is_taken
            Sample.asciiNameOk Sample.asciiIsEmail
            Sample.asciiPasswordOk Sample.plainHash
            "64b000000000000000000009" 9000 Sample.today
            (Account.mkBody (Some "Ion") (Some "Pop") (Some (mkDate 1990 1 1))
                            (Some "Ion@Example.com") (Some "secret1!") None
                            None None)
            (Api.mkWorld Sample.sampleDb []) _ _
            "Ion@Example.com" " ION@example.COM ").
  - vm_compute. reflexivity.
  - reflexivity.
  - reflexivity.
Defined.



(** X20. Registration keeps the emails of the accounts apart: when no
    two accounts have the same email before a call of [register], no two
    have after it, whatever the call answers. *)
Theorem register_keeps_emails_apart
        (nameOk isEmail passwordOk : string -> bool)
        (bcryptHash : string -> nat -> string)
        (newId : ObjectId) (now : Z) (today : Date) (body : Account.Body)
        (w : Api.World) :
  NoDup (map email (Users (Api.db w))) ->
  NoDup (map email
             (Users (Api.db (snd (Account.register
                                    nameOk isEmail passwordOk bcryptHash
                                    newId now today body w))))).
Proof.
  intros Hnd.
  unfold Account.register, Api.tryCatch, Api.mbind, Account.User_create.
  rewrite save_new_cases. cbn zeta.
  destruct (negb _); [exact Hnd |].
  destruct (Account.stored now _) as [u |]; [| exact Hnd].
  destruct (existsb _ _) eqn:Hex; [exact Hnd |].
  cbn [Api.ret snd Api.db Users]. rewrite map_app. cbn [map].
  apply NoDup_snoc; [exact Hnd |].
  intros Hin. apply in_map_iff in Hin. destruct Hin as [v [Hv Hin]].
  assert (existsb (fun x => email x =? email u) (Users (Api.db w)) = true).
  { apply existsb_exists. exists v. split; [exact Hin |].
    now apply String.eqb_eq. }
  congruence.
Qed.

Lemma register_keeps_emails_apart_witness :
  let body :=
    Account.mkBody (Some "Ana") (Some "Pop") (Some (mkDate 1990 1 1))
                   (Some " ANA@example.com") (Some "secret1!") None
                   None None in
  let run :=
    Account.register Sample.asciiNameOk Sample.asciiIsEmail
                     Sample.asciiPasswordOk Sample.plainHash
                     "64b000000000000000000009" 9000 Sample.today body
                     (Api.mkWorld Sample.sampleDb []) in
  fst run = Api.Failed 400 "Email already exists"
  /\ NoDup (map email (Users (Api.db (snd run)))).
Proof.
  cbn zeta. split; [reflexivity |].
  apply (register_keeps_emails_apart
           Sample.asciiNameOk Sample.asciiIsEmail
           Sample.asciiPasswordOk Sample.plainHash
           "64b000000000000000000009" 9000 Sample.today
           (Account.mkBody (Some "Ana") (Some "Pop") (Some (mkDate 1990 1 1))
                           (Some " ANA@example.com") (Some "secret1!") None
                           None None)
           (Api.mkWorld Sample.sampleDb [])).
  repeat constructor; cbn; intuition discriminate.
Defined.

(* ================================================================== *)
(** * Tokens issued around a change of password                        *)
(* ================================================================== *)

(** X21. [isPasswordChanged] compares in whole seconds.  For a password
    changed at the millisecond [changed >= 0], a token issued at the
    second [issued] counts as older than the change exactly when the
    change came a whole second later, [(issued + 1) * 1000 <= changed]:
    a token issued in the second of the change, even before it, stays
    good.  Without a recorded change no token counts as older. *)
Theorem isPasswordChanged_in_whole_seconds (changed issued : Z) :
  (0 <= changed)%Z ->
  (UserModel.isPasswordChanged (Some changed) issued = true
   <-> ((issued + 1) * 1000 <= changed)%Z)
  /\ UserModel.isPasswordChanged None issued = false.
Proof.
  intros Hpos. split; [| reflexivity].
  unfold UserModel.isPasswordChanged.
  rewrite Z.quot_div_nonneg by lia.
  pose proof (Z.div_mod changed 1000 ltac:(lia)) as Hdm.
  pose proof (Z.mod_pos_bound changed 1000 ltac:(lia)) as Hr.
  rewrite Z.ltb_lt. lia.
Qed.

Lemma isPasswordChanged_in_whole_seconds_witness :
  UserModel.isPasswordChanged (Some 1700000000999%Z) 1700000000%Z = false
  /\ (UserModel.isPasswordChanged (Some 1700000001000%Z) 1700000000%Z = true
      <-> ((1700000000 + 1) * 1000 <= 1700000001000)%Z).
Proof.
  split; [reflexivity |].
  apply (isPasswordChanged_in_whole_seconds 1700000001000 1700000000).
  lia.
Defined.

(* ================================================================== *)
(** * The place of the image preview                                   *)
(* ================================================================== *)

Lemma place_bounds (client extent inner : Z) :
  (12 <= ImageHover.place client extent inner)%Z
  /\ ((12 <= inner - extent - 17)%Z ->
      (ImageHover.place client extent inner + extent + 17 <= inner)%Z).
Proof.
  unfold ImageHover.place. cbn zeta.
  destruct (client + 12 + extent >? inner)%Z;
    [destruct (client - extent - 12 <? 12)%Z |]; lia.
Qed.

(** X22. The preview stays inside the window.  After the pointer has
    entered the zoom icon in a window at least 850 pixels wide, every
    move of the pointer in that window, wherever the pointer is, puts the
    preview at least 12 pixels from the left and from the top edge and
    lets it end at least 17 pixels before the right edge; it ends 17
    pixels before the bottom edge too when the window is high enough for
    the preview and its margins. *)
Theorem preview_stays_inside_the_window
        (window : ImageHover.Window) (enter move : ImageHover.MouseEvent)
        (image : string) (h : ImageHover.Hover) :
  (850 <= ImageHover.innerWidth window)%Z ->
  let shown :=
    ImageHover.onMouseMove window move
                           (ImageHover.onMouseEnter window enter image h) in
  let size := ImageHover.previewSize shown in
  ImageHover.previewImage shown = Some image
  /\ exists p,
       ImageHover.hoverPosition shown = Some p
       /\ (12 <= ImageHover.x p)%Z /\ (12 <= ImageHover.y p)%Z
       /\ (ImageHover.x p + ImageHover.width size + 17
           <= ImageHover.innerWidth window)%Z
       /\ ((ImageHover.height size + 29 <= ImageHover.innerHeight window)%Z ->
           (ImageHover.y p + ImageHover.height size + 17
            <= ImageHover.innerHeight window)%Z).
Proof.
  intros Hwide. cbn zeta.
  unfold ImageHover.onMouseMove, ImageHover.onMouseEnter.
  assert ((ImageHover.innerWidth window <? 850)%Z = false) as ->
      by (apply Z.ltb_ge; lia).
  cbn [ImageHover.previewImage ImageHover.hoverPosition ImageHover.previewSize].
  split; [reflexivity |]. eexists. split; [reflexivity |].
  cbn [ImageHover.x ImageHover.y].
  set (size := if ((850 <=? ImageHover.innerWidth window)
                   && (ImageHover.innerWidth window <? 1200))%Z
               then ImageHover.mkSize 350 350
               else if ((1200 <=? ImageHover.innerWidth window)
                        && (ImageHover.innerWidth window <? 1500))%Z
                    then ImageHover.mkSize 400 400
                    else ImageHover.mkSize 500 500).
  assert (Hfit : (12 <= ImageHover.innerWidth window
                        - ImageHover.width size - 17)%Z).
  { unfold size.
    destruct (850 <=? ImageHover.innerWidth window)%Z eqn:E1;
      destruct (ImageHover.innerWidth window <? 1200)%Z eqn:E2;
      destruct (1200 <=? ImageHover.innerWidth window)%Z eqn:E3;
      destruct (ImageHover.innerWidth window <? 1500)%Z eqn:E4;
      cbn [andb ImageHover.width]; lia. }
  pose proof (place_bounds (ImageHover.clientX move) (ImageHover.width size)
                           (ImageHover.innerWidth window)) as [Hx1 Hx2].
  pose proof (place_bounds (ImageHover.clientY move) (ImageHover.height size)
                           (ImageHover.innerHeight window)) as [Hy1 Hy2].
  split; [exact Hx1 |]. split; [exact Hy1 |].
  split; [exact (Hx2 Hfit) |].
  intros Hhigh. apply Hy2. lia.
Qed.

Lemma preview_stays_inside_the_window_witness :
  let window := ImageHover.mkWindow 1280 720 in
  let shown :=
    ImageHover.onMouseMove
      window (ImageHover.mkMouseEvent 1270 700)
      (ImageHover.onMouseEnter window (ImageHover.mkMouseEvent 1260 690)
                               "https://img/1" ImageHover.initial) in
  ImageHover.hoverPosition shown = Some (ImageHover.mkPosition 858 288)
  /\ ImageHover.previewImage shown = Some "https://img/1"
  /\ exists p,
       ImageHover.hoverPosition shown = Some p
       /\ (12 <= ImageHover.x p)%Z /\ (12 <= ImageHover.y p)%Z
       /\ (ImageHover.x p + ImageHover.width (ImageHover.previewSize shown)
           + 17 <= 1280)%Z
       /\ ((ImageHover.height (ImageHover.previewSize shown) + 29 <= 720)%Z ->
           (ImageHover.y p + ImageHover.height (ImageHover.previewSize shown)
            + 17 <= 720)%Z).
Proof.
  cbn zeta. split; [reflexivity |].
  apply (preview_stays_inside_the_window
           (ImageHover.mkWindow 1280 720)
           (ImageHover.mkMouseEvent 1260 690)
           (ImageHover.mkMouseEvent 1270 700)
           "https://img/1" ImageHover.initial).
  cbn. lia.
Defined.

(* ================================================================== *)
(** * A message that was sent is read back                             *)
(* ================================================================== *)

(** What a successful [addMessage] has done. *)
Lemma addMessage_success
      (isValid : string -> bool) (newId : ObjectId) (now : Z)
      (flat : string) (sender : ObjectId) (body : option string)
      (w w' : Api.World) (message : Message) :
  Api.addMessage isValid newId now flat sender body w
  = (Api.Success 201 message, w') ->
  exists f c,
    isValid flat = true
    /\ Api.findFlat (Api.db w) flat = Some f
    /\ owner f <> sender
    /\ body = Some c
    /\ message = mkMessage newId (JS.trim c) flat sender now
    /\ Api.db w'
       = mkDb (map (fun g => Api.pushMessage flat newId g now)
                   (Flats (Api.db w)))
              (Users (Api.db w))
              (Messages (Api.db w) ++ [message]).
Proof.
  unfold Api.addMessage, Api.tryCatch.
  unfold Api.mbind at 1.
  destruct (isValid flat) eqn:Hv.
  2:{ unfold Api.Flat_findById, Api.mbind, Api.call. rewrite Hv.
      discriminate. }
  rewrite (Flat_findById_valid _ _ _ Hv).
  destruct (Api.findFlat (Api.db w) flat) as [f |] eqn:Hf; [| discriminate].
  destruct (owner f =? sender) eqn:Ho; [discriminate |].
  apply String.eqb_neq in Ho.
  unfold Api.mbind at 1. unfold Api.Message_create.
  unfold Api.mbind at 1. unfold Api.call at 1.
  destruct body as [c |]; [| discriminate].
  rewrite Hv. cbn [negb]. rewrite orb_false_r.
  destruct ((JS.trim c =? "") || (1000 <? String.length (JS.trim c))%nat);
    [discriminate |].
  unfold Api.mbind at 1 2. unfold Api.getDb, Api.putDb, Api.ret.
  cbn [Api.db Api.calls].
  unfold Api.mbind at 1.
  rewrite (Flat_pushMessage_valid _ _ _ _ _ Hv).
  cbn [Api.db Api.calls Flats Users Messages message_id].
  intros H. inversion H; subst message w'. clear H.
  exists f, c. repeat split; auto.
Qed.

Lemma find_message_fresh (id : ObjectId) (message : Message)
      (l : list Message) :
  message_id message <> id ->
  find (fun m => message_id m =? id) (l ++ [message])
  = find (fun m => message_id m =? id) l.
Proof.
  intros Hne. induction l as [| m l IH]; cbn [app find].
  - apply String.eqb_neq in Hne. now rewrite Hne.
  - destruct (message_id m =? id); [reflexivity | exact IH].
Qed.

Lemma find_message_new (message : Message) (l : list Message) :
  (forall m, In m l -> message_id m <> message_id message) ->
  find (fun m => message_id m =? message_id message) (l ++ [message])
  = Some message.
Proof.
  intros Hfresh. induction l as [| m l IH]; cbn [app find].
  - now rewrite String.eqb_refl.
  - assert ((message_id m =? message_id message) = false) as ->.
    { apply String.eqb_neq. apply Hfresh. now left. }
    apply IH. intros x Hx. apply Hfresh. now right.
Qed.

Lemma flat_map_same_in {A B : Type} (g h : A -> list B) (l : list A) :
  (forall a, In a l -> g a = h a) -> flat_map g l = flat_map h l.
Proof.
  induction l as [| a l IH]; intros H; [reflexivity |].
  cbn [flat_map]. rewrite (H a (or_introl eq_refl)). f_equal.
  apply IH. intros b Hb. apply H. now right.
Qed.

(** X23. A message that was sent is read back with the flat, whoever
    asks for the flat.  After a successful [addMessage], whose new
    message got an identifier that no message has and that the flat does
    not yet list, [getFlatById] on that flat succeeds, and the messages
    it populates are those it populated before, followed by the new
    message with its content. *)
Theorem sent_message_is_read_back
        (isValid : string -> bool) (newId : ObjectId) (now : Z)
        (flat : string) (sender : ObjectId) (body : option string)
        (w w1 : Api.World) (message : Message) (f : Flat) :
  Api.addMessage isValid newId now flat sender body w
  = (Api.Success 201 message, w1) ->
  Api.findFlat (Api.db w) flat = Some f ->
  (forall m, In m (Messages (Api.db w)) -> message_id m <> newId) ->
  ~ In newId (messages f) ->
  exists p w2,
    Api.getFlatById isValid flat w1 = (Api.Success 200 p, w2)
    /\ Api.db w2 = Api.db w1
    /\ Api.populatedMessages p
       = Api.populatedMessages (Api.populateFlat (Api.db w) f) ++ [message].
Proof.
  intros Hadd Hf Hfresh Hunlisted.
  destruct (addMessage_success _ _ _ _ _ _ _ _ _ Hadd)
    as (f0 & c & Hv & Hf0 & _ & _ & Hm & Hdb).
  rewrite Hf in Hf0. inversion Hf0; subst f0. clear Hf0.
  destruct (find_pushMessage flat newId now _ _ Hf)
    as (f' & Hf' & Hmess & _ & _).
  assert (Hid : message_id message = newId) by (subst message; reflexivity).
  unfold Api.getFlatById, Api.tryCatch, Api.mbind.
  rewrite Hv. cbn [negb]. rewrite (Flat_findById_valid _ _ _ Hv).
  unfold Api.findFlat. rewrite Hdb. cbn [Flats]. rewrite Hf'.
  cbn [Api.getDb Api.ret Api.db].
  eexists. eexists. split; [reflexivity |]. split; [reflexivity |].
  unfold Api.populateFlat. cbn [Api.populatedMessages Messages].
  rewrite Hmess, flat_map_app. cbn [flat_map].
  assert (Hnew : find (fun m => message_id m =? newId)
                      (Messages (Api.db w) ++ [message]) = Some message).
  { rewrite <- Hid. apply find_message_new.
    intros m Hin. rewrite Hid. now apply Hfresh. }
  rewrite Hnew, app_nil_r. f_equal.
  apply flat_map_same_in. intros id Hin.
  rewrite find_message_fresh; [reflexivity |].
  rewrite Hid. intros ->. exact (Hunlisted Hin).
Qed.

Lemma sent_message_is_read_back_witness :
  let w := Api.mkWorld Sample.sampleDb [] in
  let flat := flat_id Sample.albaFlat in
  let newId := "64d000000000000000000001" in
  let sent :=
    Api.addMessage Sample.hex24 newId 5000 flat (user_id Sample.dan)
                   (Some " Hello ") w in
  let message := mkMessage newId "Hello" flat (user_id Sample.dan) 5000 in
  fst sent = Api.Success 201 message
  /\ exists p w2,
       Api.getFlatById Sample.hex24 flat (snd sent) = (Api.Success 200 p, w2)
       /\ Api.db w2 = Api.db (snd sent)
       /\ Api.populatedMessages p
          = Api.populatedMessages
              (Api.populateFlat (Api.db w) Sample.albaFlat) ++ [message].
Proof.
  cbn zeta. split; [reflexivity |].
  apply (sent_message_is_read_back
           Sample.hex24 "64d000000000000000000001" 5000
           (flat_id Sample.albaFlat) (user_id Sample.dan) (Some " Hello ")
           (Api.mkWorld Sample.sampleDb [])).
  - vm_compute. reflexivity.
  - reflexivity.
  - intros m [].
  - intros [].
Defined.

(* ================================================================== *)
(** * The links between the collections                                *)
(* ================================================================== *)

Lemma addMessage_failure
      (isValid : string -> bool) (newId : ObjectId) (now : Z)
      (flat : string) (sender : ObjectId) (body : option string)
      (w w' : Api.World) (r : Api.response Message) :
  Api.addMessage isValid newId now flat sender body w = (r, w') ->
  Api.db w' = Api.db w \/ exists message, r = Api.Success 201 message.
Proof.
  unfold Api.addMessage, Api.tryCatch, Api.Flat_findById, Api.Message_create,
    Api.Flat_pushMessage, Api.mbind, Api.call, Api.getDb, Api.putDb, Api.ret,
    Api.throw.
  destruct (isValid flat); cbn [Api.db];
    [| intros H; inversion H; now left].
  destruct (Api.findFlat (Api.db w) flat) as [f |];
    [| intros H; inversion H; now left].
  destruct (owner f =? sender); [intros H; inversion H; now left |].
  destruct body as [c |]; [| intros H; inversion H; now left].
  cbn [negb]. rewrite orb_false_r.
  destruct ((JS.trim c =? "") || (1000 <? String.length (JS.trim c))%nat);
    intros H; inversion H; [now left | right; eexists; reflexivity].
Qed.

Lemma deleteFlat_failure
      (isValid : string -> bool) (destroy : string -> Api.M unit)
      (now : Z) (flat : string) (userId : ObjectId)
      (w w' : Api.World) (r : Api.response string) :
  (forall image v, Api.db (snd (destroy image v)) = Api.db v) ->
  FlatController.deleteFlat isValid destroy now flat userId w = (r, w') ->
  Api.db w' = Api.db w \/ exists id, r = Api.Success 200 id.
Proof.
  intros Hdestroy.
  unfold FlatController.deleteFlat, Api.tryCatch.
  destruct (isValid flat) eqn:Hv; cbn [negb];
    [| intros H; inversion H; now left].
  rewrite (mbind_Ok _ _ _ _ _ (Flat_findById_valid _ _ _ Hv)).
  destruct (Api.findFlat (Api.db w) flat) as [f |];
    [| intros H; inversion H; now left].
  destruct (owner f =? userId); cbn [negb];
    [| intros H; inversion H; now left].
  set (w0 := Api.mkWorld (Api.db w) (Api.calls w ++ [Api.FlatFindById flat])).
  destruct ((if negb (public_id (image f) =? "")
             then destroy (public_id (image f)) else Api.ret tt) w0)
    as [[[] | e] w1] eqn:E.
  - rewrite (mbind_Ok _ _ _ _ _ E).
    unfold Documents.Message_deleteMany_flatId, Documents.User_pullFavorite,
      Documents.User_pullAdded, Documents.Flat_findByIdAndDelete,
      Api.mbind, Api.getDb, Api.putDb, Api.ret.
    intros H. inversion H. right. eexists. reflexivity.
  - rewrite (mbind_Throw _ _ _ _ _ E). intros H. inversion H; subst. left.
    destruct (negb (public_id (image f) =? "")).
    + pose proof (Hdestroy (public_id (image f)) w0) as Hk.
      rewrite E in Hk. exact Hk.
    + inversion E.
Qed.

(** X24. The handlers keep the links between the collections.  When
    every message is on a stored flat and was sent from a stored account,
    this is still so after a call of [addMessage] by the holder of a
    stored account, of [deleteFlat], of [deleteUserById] and of
    [deleteProfile], whatever the call answers and even when the image
    service fails in the middle of it.  (The image service may do what it
    will, except write to the store.) *)
Theorem messages_stay_linked
        (isValid : string -> bool) (destroy : string -> Api.M unit)
        (newId : ObjectId) (now : Z) (flat : string) (userId : ObjectId)
        (body : option string) (w : Api.World) :
  (forall image v, Api.db (snd (destroy image v)) = Api.db v) ->
  Documents.linked (Api.db w) ->
  ((exists u, In u (Users (Api.db w)) /\ user_id u = userId) ->
   Documents.linked
     (Api.db (snd (Api.addMessage isValid newId now flat userId body w))))
  /\ Documents.linked
       (Api.db (snd (FlatController.deleteFlat
                       isValid destroy now flat userId w)))
  /\ Documents.linked
       (Api.db (snd (AdminController.deleteUserById
                       isValid destroy now userId w)))
  /\ Documents.linked
       (Api.db (snd (AuthController.deleteProfile destroy now userId w))).
Proof.
  intros Hdestroy Hlinked. split; [| split; [| split]].
  - intros (sender & Hsender & Hsid).
    destruct (Api.addMessage isValid newId now flat userId body w)
      as [r w'] eqn:E. cbn [snd].
    destruct (addMessage_failure _ _ _ _ _ _ _ _ _ E) as [-> | [message ->]];
      [exact Hlinked |].
    destruct (addMessage_success _ _ _ _ _ _ _ _ _ E)
      as (f & c & _ & Hf & _ & _ & Hm & ->).
    destruct (find_flat_id _ _ _ Hf) as [Hfid Hfin].
    assert (Hids : forall g, In g (Flats (Api.db w)) ->
                     exists g', In g' (map (fun g => Api.pushMessage
                                                       flat newId g now)
                                           (Flats (Api.db w)))
                                /\ flat_id g' = flat_id g).
    { intros g Hg. exists (Api.pushMessage flat newId g now).
      split; [exact (in_map (fun g => Api.pushMessage flat newId g now)
                            _ _ Hg) |].
      unfold Api.pushMessage. now destruct (flat_id g =? flat). }
    intros m Hin. cbn [Messages Flats Users] in *.
    apply in_app_or in Hin. destruct Hin as [Hin | [<- | []]].
    + destruct (Hlinked m Hin) as [(g & Hg & Hgid) Hu].
      split; [| exact Hu].
      destruct (Hids g Hg) as (g' & Hg' & Hid'). exists g'.
      split; [exact Hg' | congruence].
    + subst message. cbn [flatId senderId]. split.
      * destruct (Hids f Hfin) as (g' & Hg' & Hid'). exists g'.
        split; [exact Hg' | congruence].
      * now exists sender.
  - destruct (FlatController.deleteFlat isValid destroy now flat userId w)
      as [r w'] eqn:E. cbn [snd].
    destruct (deleteFlat_failure _ _ _ _ _ _ _ _ Hdestroy E)
      as [-> | [id ->]]; [exact Hlinked |].
    destruct (deleteFlat_success _ _ _ _ _ _ _ _ Hdestroy E) as [_ ->].
    apply (linked_after (Api.db w)); [exact Hlinked | | |];
      cbn [Flats Users Messages].
    + apply incl_filter.
    + intros m g Hm Hg Hid. exists g. split; [| exact Hid].
      apply filter_In. split; [exact Hg |].
      apply filter_In in Hm. destruct Hm as [_ Hm].
      now rewrite Hid.
    + intros m u _ Hu Hid.
      refine (same_ids_found _ _ _ _ _ Hu Hid).
      rewrite !map_map. apply map_ext. intros v.
      destruct (pullAdded_fields now userId flat
                  (Documents.pullFavorite now flat v)) as (_ & -> & _).
      now destruct (pullFavorite_favorites now flat v) as (_ & -> & _).
  - destruct (AdminController.deleteUserById isValid destroy now userId w)
      as [r w'] eqn:E. cbn [snd]. revert E.
    unfold AdminController.deleteUserById, Api.tryCatch.
    destruct (isValid userId) eqn:Hv.
    2:{ rewrite (mbind_Throw _ _ _ _ _ (User_findById_invalid _ _ _ Hv)).
        intros H. inversion H. exact Hlinked. }
    rewrite (mbind_Ok _ _ _ _ _ (User_findById_valid _ _ _ Hv)).
    destruct (Api.findUser (Api.db w) userId) as [u |];
      [| intros H; inversion H; exact Hlinked].
    set (w0 := Api.mkWorld (Api.db w)
                           (Api.calls w ++ [Api.UserFindById userId])).
    destruct (Api.mbind (Documents.Message_deleteMany_senderId userId) _ w0)
      as [r0 w1] eqn:E0.
    intros H.
    assert (Hw : w' = w1) by (destruct r0; inversion H; reflexivity).
    subst w'.
    refine (cascade_keeps_links destroy Hdestroy _ _ _ _ _ _ _ E0 Hlinked).
    intros o v. reflexivity.
  - destruct (AuthController.deleteProfile destroy now userId w)
      as [r w'] eqn:E. cbn [snd]. revert E.
    unfold AuthController.deleteProfile, Api.tryCatch.
    destruct (Api.mbind (Documents.Message_deleteMany_senderId userId) _ w)
      as [r0 w1] eqn:E0.
    intros H.
    assert (Hw : w' = w1) by (destruct r0; inversion H; reflexivity).
    subst w'.
    refine (cascade_keeps_links destroy Hdestroy _ _ _ _ _ _ _ E0 Hlinked).
    intros [o |] v; reflexivity.
Qed.

Lemma messages_stay_linked_witness :
  let w := Api.mkWorld Examples.busyDb [] in
  Documents.linked (Api.db w)
  /\ Documents.linked
       (Api.db (snd (Api.addMessage Sample.hex24 "64e000000000000000000003"
                                    9000 (flat_id Sample.clujFlat)
                                    (user_id Examples.eva) (Some "Hello") w)))
  /\ Documents.linked
       (Api.db (snd (FlatController.deleteFlat
                       Sample.hex24 Examples.destroyOk 9000
                       (flat_id Sample.clujFlat) (user_id Examples.eva) w)))
  /\ Documents.linked
       (Api.db (snd (AdminController.deleteUserById
                       Sample.hex24 Examples.destroyOk 9000
                       (user_id Examples.eva) w)))
  /\ Documents.linked
       (Api.db (snd (AuthController.deleteProfile
                       Examples.destroyOk 9000 (user_id Examples.eva) w))).
Proof.
  cbn zeta.
  assert (Hlinked : Documents.linked
                      (Api.db (Api.mkWorld Examples.busyDb []))).
  { intros m [<- | [<- | []]]; split.
    - eexists. split; [left; reflexivity | reflexivity].
    - eexists. split; [right; left; reflexivity | reflexivity].
    - eexists. split; [left; reflexivity | reflexivity].
    - eexists. split; [right; right; left; reflexivity | reflexivity]. }
  split; [exact Hlinked |].
  destruct (messages_stay_linked
              Sample.hex24 Examples.destroyOk "64e000000000000000000003"
              9000 (flat_id Sample.clujFlat) (user_id Examples.eva)
              (Some "Hello") (Api.mkWorld Examples.busyDb [])
              (fun _ _ => eq_refl) Hlinked)
    as (Hadd & Hflat & Huser & Hprofile).
  split; [| split; [exact Hflat | split; [exact Huser | exact Hprofile]]].
  apply Hadd. exists Examples.eva.
  split; [right; right; left; reflexivity | reflexivity].
Defined.

Lemma mapM_format_total (d : Db) (l : list Message) (w : Api.World) :
  (forall m, In m l -> Api.findUser d (senderId m) <> None) ->
  exists data,
    MessageController.mapM (MessageController.format d) l w = (Ok data, w).
Proof.
  induction l as [| m l IH]; intros H; cbn [MessageController.mapM].
  - now exists [].
  - destruct IH as [rest Hrest]; [intros x Hx; apply H; now right |].
    unfold Api.mbind at 1. unfold MessageController.format at 1.
    destruct (Api.findUser d (senderId m)) as [sender |] eqn:Hs.
    + cbn [Api.ret]. rewrite (mbind_Ok _ _ _ _ _ Hrest).
      eexists. reflexivity.
    + exfalso. exact (H m (or_introl eq_refl) Hs).
Qed.

Lemma mapM_format_fails (d : Db) (l : list Message) (w : Api.World)
      (m : Message) :
  In m l -> Api.findUser d (senderId m) = None ->
  MessageController.mapM (MessageController.format d) l w
  = (Throw "TypeError", w).
Proof.
  induction l as [| x l IH]; intros Hin Hnone; [contradiction |].
  cbn [MessageController.mapM]. unfold Api.mbind at 1.
  unfold MessageController.format at 1.
  destruct (Api.findUser d (senderId x)) as [sender |] eqn:Hs.
  - cbn [Api.ret]. destruct Hin as [-> | Hin]; [congruence |].
    now rewrite (mbind_Throw _ _ _ _ _ (IH Hin Hnone)).
  - reflexivity.
Qed.

(** X25. [getAllMessages] fails on a message whose sender is gone, and on
    nothing else the store holds.  For an identifier that has the format
    and is written as the store prints identifiers, on a store where
    every message was sent from a stored account the answer is 200 when
    the flat exists and 404 when it does not; but
    when a message on the flat was sent from an account that is no longer
    stored, the owner of the flat is answered with 500.  An identifier
    that has not the format is answered with 500 too: there is no check
    of the format as in [getFlatById]. *)
Theorem getAllMessages_needs_the_senders
        (isValid : string -> bool)
        (sortDocs : forall A : Type, (A -> A -> comparison) -> list A -> list A)
        (sortDocs_permutes :
           forall (A : Type) (cmp : A -> A -> comparison) (l : list A),
             Permutation l (sortDocs A cmp l))
        (flat : string) (userId : ObjectId) (w : Api.World) :
  let answer :=
    fst (MessageController.getAllMessages isValid sortDocs flat userId w) in
  (isValid flat = false -> Api.statusOf answer = 500)
  /\ (isValid flat = true ->
      Documents.printed flat ->
      Documents.linked (Api.db w) ->
      Api.statusOf answer
      = match Api.findFlat (Api.db w) flat with
        | Some _ => 200
        | None => 404
        end)
  /\ (forall f m,
         isValid flat = true ->
         Api.findFlat (Api.db w) flat = Some f -> owner f = userId ->
         In m (Messages (Api.db w)) -> flatId m = flat ->
         Api.findUser (Api.db w) (senderId m) = None ->
         Api.statusOf answer = 500).
Proof.
  cbn zeta. unfold MessageController.getAllMessages, Api.tryCatch.
  split; [| split].
  - intros Hv.
    assert (Hthrow : Api.Flat_findById isValid flat w
                     = (Throw "CastError",
                        Api.mkWorld (Api.db w)
                                    (Api.calls w ++ [Api.FlatFindById flat]))).
    { unfold Api.Flat_findById, Api.mbind, Api.call. now rewrite Hv. }
    rewrite (mbind_Throw _ _ _ _ _ Hthrow). reflexivity.
  - intros Hv _ Hlinked.
    rewrite (mbind_Ok _ _ _ _ _ (Flat_findById_valid _ _ _ Hv)).
    destruct (Api.findFlat (Api.db w) flat) as [f |]; [| reflexivity].
    set (w0 := Api.mkWorld (Api.db w) (Api.calls w ++ [Api.FlatFindById flat])).
    set (selected := fun m : Message =>
                       if owner f =? userId then flatId m =? flat
                       else (flatId m =? flat) && (senderId m =? userId)).
    set (found := sortDocs Message
                           (compareBy MessageController.messageField
                                      [("createdAt", Asc)])
                           (List.filter selected (Messages (Api.db w)))).
    assert (Hfind : (if owner f =? userId
                     then MessageController.Message_find
                            sortDocs (fun m => flatId m =? flat)
                     else MessageController.Message_find
                            sortDocs (fun m => (flatId m =? flat)
                                               && (senderId m =? userId))) w0
                    = (Ok found, w0)).
    { unfold found, selected, MessageController.Message_find, Api.mbind,
        Api.getDb, Api.ret.
      destruct (owner f =? userId); reflexivity. }
    rewrite (mbind_Ok _ _ _ _ _ Hfind).
    rewrite (mbind_Ok Api.getDb _ w0 (Api.db w0) w0 eq_refl).
    destruct (mapM_format_total (Api.db w0) found w0) as [data Hdata].
    { intros m Hm Hnone.
      apply (Permutation_in _ (Permutation_sym (sortDocs_permutes _ _ _)))
        in Hm.
      apply filter_In in Hm. destruct Hm as [Hm _].
      destruct (Hlinked m Hm) as [_ (u & Hu & Hid)].
      apply find_user_none in Hnone. apply Hnone.
      rewrite <- Hid. now apply in_map. }
    rewrite (mbind_Ok _ _ _ _ _ Hdata). reflexivity.
  - intros f m Hv Hf Ho Hm Hflat Hnone.
    rewrite (mbind_Ok _ _ _ _ _ (Flat_findById_valid _ _ _ Hv)), Hf.
    apply String.eqb_eq in Ho. rewrite Ho.
    set (w0 := Api.mkWorld (Api.db w) (Api.calls w ++ [Api.FlatFindById flat])).
    set (found := sortDocs Message
                           (compareBy MessageController.messageField
                                      [("createdAt", Asc)])
                           (List.filter (fun m => flatId m =? flat)
                                        (Messages (Api.db w)))).
    rewrite (mbind_Ok (MessageController.Message_find
                         sortDocs (fun m => flatId m =? flat))
                      _ w0 found w0 eq_refl).
    rewrite (mbind_Ok Api.getDb _ w0 (Api.db w0) w0 eq_refl).
    assert (Hin : In m found).
    { apply (Permutation_in _ (sortDocs_permutes _ _ _)).
      apply filter_In. split; [exact Hm | now apply String.eqb_eq]. }
    rewrite (mbind_Throw _ _ _ _ _
               (mapM_format_fails (Api.db w0) found w0 m Hin Hnone)).
    reflexivity.
Qed.

Lemma getAllMessages_needs_the_senders_witness :
  let answer db user :=
    fst (MessageController.getAllMessages
           Sample.hex24 Sample.insertionSort
           (flat_id Sample.albaFlat) user (Api.mkWorld db [])) in
  Api.statusOf (answer Examples.busyDb (user_id Sample.ana)) = 200
  /\ Api.statusOf (answer Examples.leftoverDb (user_id Sample.ana)) = 500.
Proof.
  cbn zeta.
  destruct (getAllMessages_needs_the_senders
              Sample.hex24 Sample.insertionSort insertionSort_permutes
              (flat_id Sample.albaFlat) (user_id Sample.ana)
              (Api.mkWorld Examples.busyDb [])) as (_ & Hlinked & _).
  destruct (getAllMessages_needs_the_senders
              Sample.hex24 Sample.insertionSort insertionSort_permutes
              (flat_id Sample.albaFlat) (user_id Sample.ana)
              (Api.mkWorld Examples.leftoverDb [])) as (_ & _ & Hgone).
  split.
  - apply Hlinked; [reflexivity | split; reflexivity |].
    intros m [<- | [<- | []]]; split.
    + eexists. split; [left; reflexivity | reflexivity].
    + eexists. split; [right; left; reflexivity | reflexivity].
    + eexists. split; [left; reflexivity | reflexivity].
    + eexists. split; [right; right; left; reflexivity | reflexivity].
  - apply (Hgone Sample.albaFlat Examples.hello);
      [reflexivity | reflexivity | reflexivity | left; reflexivity
       | reflexivity | reflexivity].
Defined.

(* ================================================================== *)
(** * The password of a new account                                    *)
(* ================================================================== *)

Lemma stored_hashed_password (bcryptHash : string -> nat -> string)
      (now : Z) (doc : Account.UserDoc) (u : User) :
  Account.isModified "password" doc = true ->
  Account.stored now (Account.preSave bcryptHash doc) = Some u ->
  exists p, Account.doc_password doc = Some p
            /\ password u = bcryptHash p 12.
Proof.
  intros Hmod. unfold Account.preSave. rewrite Hmod. cbn [negb].
  unfold Account.stored.
  cbn [Account.doc_password Account.doc_id
       Account.doc_firstName Account.doc_lastName Account.doc_birthDate
       Account.doc_email Account.doc_role Account.doc_favoriteFlats
       Account.doc_addedFlats].
  destruct (Account.doc_firstName doc), (Account.doc_lastName doc),
    (Account.doc_birthDate doc), (Account.doc_email doc),
    (Account.doc_password doc) as [p |]; try discriminate.
  cbn [option_map]. intros H. inversion H. now exists p.
Qed.

(** X26. Registration stores the hash of the password and answers
    without it.  When [register] succeeds, the body gave a password; the
    one account that was added holds [bcrypt.hash] of that password,
    trimmed, with 12 rounds; and the answer is this account with its
    password taken out. *)
Theorem registered_password_is_hashed
        (nameOk isEmail passwordOk : string -> bool)
        (bcryptHash : string -> nat -> string)
        (newId : ObjectId) (now : Z) (today : Date) (body : Account.Body)
        (w w' : Api.World) (answer : User) :
  Account.register nameOk isEmail passwordOk bcryptHash
                   newId now today body w = (Api.Success 200 answer, w') ->
  exists p u,
    Account.body_password body = Some p
    /\ Users (Api.db w') = Users (Api.db w) ++ [u]
    /\ password u = bcryptHash (JS.trim p) 12
    /\ answer = Account.withoutPassword u
    /\ password answer = "".
Proof.
  unfold Account.register, Api.tryCatch, Api.mbind, Account.User_create.
  rewrite save_new_cases. cbn zeta.
  destruct (Account.validate nameOk isEmail passwordOk today
              (Account.newUser newId body)) eqn:Hv; cbn [negb];
    [| discriminate].
  destruct (Account.stored now _) as [u |] eqn:Hs; [| discriminate].
  destruct (existsb _ _); [discriminate |].
  cbn [Api.ret]. intros H. inversion H; subst answer w'. clear H.
  pose proof (validate_password _ _ _ _ _ Hv) as Hp.
  assert (Hgiven : exists p, Account.body_password body = Some p).
  { destruct body as [first last dob mail pass r fav added].
    cbn [Account.newUser Account.doc_password Account.body_password] in *.
    destruct pass as [p |]; [now exists p | now contradiction Hp]. }
  destruct Hgiven as [p Hgiven].
  assert (Hmod : Account.isModified "password" (Account.newUser newId body)
                 = true).
  { apply newUser_password_modified. rewrite Hgiven. discriminate. }
  destruct (stored_hashed_password _ _ _ _ Hmod Hs) as (p' & Hp' & Hhash).
  cbn [Account.newUser Account.doc_password] in Hp'.
  rewrite Hgiven in Hp'. cbn [option_map] in Hp'. inversion Hp'; subst p'.
  exists p, u. repeat split; assumption || reflexivity.
Qed.

Lemma registered_password_is_hashed_witness :
  let body :=
    Account.mkBody (Some "Ion") (Some "Pop") (Some (mkDate 1990 1 1))
                   (Some "Ion@Example.com") (Some " secret1! ") None
                   None None in
  let run :=
    Account.register Sample.asciiNameOk Sample.asciiIsEmail
                     Sample.asciiPasswordOk Sample.plainHash
                     "64b000000000000000000009" 9000 Sample.today body
                     (Api.mkWorld Sample.sampleDb []) in
  Api.statusOf (fst run) = 200
  /\ map password (Users (Api.db (snd run)))
     = map password (Users Sample.sampleDb)
         ++ [Sample.plainHash "secret1!" 12].
Proof.
  cbn zeta. split; [reflexivity |].
  destruct (registered_password_is_hashed
              Sample.asciiNameOk Sample.asciiIsEmail
              Sample.asciiPasswordOk Sample.plainHash
              "64b000000000000000000009" 9000 Sample.today
              (Account.mkBody (Some "Ion") (Some "Pop")
                              (Some (mkDate 1990 1 1))
                              (Some "Ion@Example.com") (Some " secret1! ")
                              None None None)
              (Api.mkWorld Sample.sampleDb [])
              (snd (Account.register
                      Sample.asciiNameOk Sample.asciiIsEmail
                      Sample.asciiPasswordOk Sample.plainHash
                      "64b000000000000000000009" 9000 Sample.today
                      (Account.mkBody (Some "Ion") (Some "Pop")
                                      (Some (mkDate 1990 1 1))
                                      (Some "Ion@Example.com")
                                      (Some " secret1! ") None None None)
                      (Api.mkWorld Sample.sampleDb [])))
              (Account.withoutPassword
                 (mkUser "64b000000000000000000009" "Ion" "Pop"
                         (mkDate 1990 1 1) "ion@example.com"
                         (Sample.plainHash "secret1!" 12) "user" []
                         (Some []) 9000 9000)))
    as (p & u & Hp & Husers & Hhash & _).
  - vm_compute. reflexivity.
  - rewrite Husers, map_app. cbn [map]. rewrite Hhash.
    inversion Hp. reflexivity.
Defined.

(* ================================================================== *)
(** * What a message may hold, and who may register                    *)
(* ================================================================== *)

(** X27. No blank message is stored, and a blank message is no client
    error.  A message whose content is absent, blank, or longer than
    1000 characters once trimmed, sent to an existing flat by someone
    who does not own it, is answered with 500 (not with 400) and leaves
    the store as it was; and when every stored message has a content of
    1 to 1000 characters before a call of [addMessage], every stored
    message has after it, whatever the call answers. *)
Theorem addMessage_stores_no_blank_message
        (isValid : string -> bool) (newId : ObjectId) (now : Z)
        (flat : string) (sender : ObjectId) (body : option string)
        (w : Api.World) :
  (forall f, isValid flat = true ->
             Api.findFlat (Api.db w) flat = Some f -> owner f <> sender ->
             match body with
             | None => True
             | Some c => JS.trim c = ""
                         \/ 1000 < String.length (JS.trim c)
             end ->
             exists w',
               Api.addMessage isValid newId now flat sender body w
               = (Api.Failed 500 "Server error while sending message", w')
               /\ Api.db w' = Api.db w)
  /\
  ((forall m, In m (Messages (Api.db w)) ->
              1 <= String.length (content m) <= 1000) ->
   forall m,
     In m (Messages
             (Api.db (snd (Api.addMessage isValid newId now flat sender
                                          body w)))) ->
     1 <= String.length (content m) <= 1000).
Proof.
  split.
  - intros f Hv Hf Ho Hbody.
    apply String.eqb_neq in Ho.
    unfold Api.addMessage, Api.tryCatch.
    rewrite (mbind_Ok _ _ _ _ _ (Flat_findById_valid _ _ _ Hv)), Hf, Ho.
    unfold Api.Message_create, Api.mbind, Api.call, Api.throw.
    destruct body as [c |]; [| eexists; split; reflexivity].
    assert (Hbad : (JS.trim c =? "")
                   || (1000 <? String.length (JS.trim c))%nat
                   || negb (isValid flat) = true).
    { destruct Hbody as [He | Hl].
      - rewrite He. reflexivity.
      - apply Nat.ltb_lt in Hl. rewrite Hl. now rewrite orb_true_r. }
    rewrite Hbad. eexists. split; reflexivity.
  - intros Hinv m.
    destruct (Api.addMessage isValid newId now flat sender body w)
      as [r w'] eqn:E. cbn [snd].
    destruct (addMessage_failure _ _ _ _ _ _ _ _ _ E) as [-> | [message ->]];
      [apply Hinv |].
    revert E.
    unfold Api.addMessage, Api.tryCatch, Api.Flat_findById, Api.Message_create,
      Api.Flat_pushMessage, Api.mbind, Api.call, Api.getDb, Api.putDb, Api.ret,
      Api.throw.
    destruct (isValid flat); cbn [Api.db]; [| discriminate].
    destruct (Api.findFlat (Api.db w) flat) as [f |]; [| discriminate].
    destruct (owner f =? sender); [discriminate |].
    destruct body as [c |]; [| discriminate].
    cbn [negb]. rewrite orb_false_r.
    destruct (JS.trim c =? "") eqn:He; [discriminate |].
    destruct (1000 <? String.length (JS.trim c))%nat eqn:Hl; [discriminate |].
    cbn [orb]. intros H. inversion H; subst message w'. clear H.
    cbn [Api.db Messages]. intros Hin. apply in_app_or in Hin.
    destruct Hin as [Hin | [<- | []]]; [now apply Hinv |].
    cbn [content]. apply Nat.ltb_ge in Hl. split; [| exact Hl].
    apply String.eqb_neq in He. destruct (JS.trim c); [congruence |].
    cbn [String.length]. lia.
Qed.

Lemma addMessage_stores_no_blank_message_witness :
  let w := Api.mkWorld Sample.sampleDb [] in
  exists w',
    Api.addMessage Sample.hex24 "64e000000000000000000003" 9000
                   (flat_id Sample.albaFlat) (user_id Sample.dan)
                   (Some "   ") w
    = (Api.Failed 500 "Server error while sending message", w')
    /\ Api.db w' = Api.db w.
Proof.
  cbn zeta.
  apply (proj1 (addMessage_stores_no_blank_message
                  Sample.hex24 "64e000000000000000000003" 9000
                  (flat_id Sample.albaFlat) (user_id Sample.dan)
                  (Some "   ") (Api.mkWorld Sample.sampleDb []))
               Sample.albaFlat).
  - reflexivity.
  - reflexivity.
  - discriminate.
  - left. reflexivity.
Defined.

(** X28. Who registers is of age.  When [register] succeeds, the body
    gave a birth date, the new account holds it, and on the day of the
    registration the age the schema computes from it -- which is the age
    the user listing shows on that day -- is at least 18 and at most
    120. *)
Theorem registered_account_is_of_age
        (nameOk isEmail passwordOk : string -> bool)
        (bcryptHash : string -> nat -> string)
        (newId : ObjectId) (now : Z) (today : Date) (body : Account.Body)
        (w w' : Api.World) (answer : User) :
  Account.register nameOk isEmail passwordOk bcryptHash
                   newId now today body w = (Api.Success 200 answer, w') ->
  exists dob u,
    Account.body_birthDate body = Some dob
    /\ Users (Api.db w') = Users (Api.db w) ++ [u]
    /\ birthDate u = dob
    /\ (18 <= Account.validatorAge today dob <= 120)%Z
    /\ age (addFields today u) = Account.validatorAge today dob.
Proof.
  unfold Account.register, Api.tryCatch, Api.mbind, Account.User_create.
  rewrite save_new_cases. cbn zeta.
  destruct (Account.validate nameOk isEmail passwordOk today
              (Account.newUser newId body)) eqn:Hv; cbn [negb];
    [| discriminate].
  destruct (Account.stored now _) as [u |] eqn:Hs; [| discriminate].
  destruct (existsb _ _); [discriminate |].
  cbn [Api.ret]. intros H. inversion H; subst answer w'. clear H.
  assert (Hdob : Account.doc_birthDate (Account.newUser newId body)
                 = Some (birthDate u)).
  { assert (Hsame : Account.doc_birthDate
                      (Account.preSave bcryptHash (Account.newUser newId body))
                    = Account.doc_birthDate (Account.newUser newId body)).
    { unfold Account.preSave. now destruct (negb _). }
    rewrite <- Hsame. unfold Account.stored in Hs.
    set (doc := Account.preSave bcryptHash (Account.newUser newId body)) in *.
    destruct (Account.doc_firstName doc), (Account.doc_lastName doc),
      (Account.doc_birthDate doc), (Account.doc_email doc),
      (Account.doc_password doc); try discriminate.
    inversion Hs. reflexivity. }
  unfold Account.validate in Hv.
  repeat (apply andb_true_iff in Hv; destruct Hv as [Hv ?]).
  match goal with
  | H : Account.validBirthDate _ _ = true |- _ =>
      unfold Account.validBirthDate in H; rewrite Hdob in H;
      cbn [Account.newUser Account.isNew negb andb] in H;
      apply andb_true_iff in H; destruct H as [Hmin Hmax]
  end.
  apply negb_true_iff in Hmin, Hmax.
  apply Z.ltb_ge in Hmin, Hmax.
  cbn [Account.newUser Account.doc_birthDate] in Hdob.
  exists (birthDate u), u. split; [exact Hdob |]. split; [reflexivity |].
  split; [reflexivity |]. split; [lia |].
  cbn [addFields age]. symmetry. apply validatorAge_ageExpr.
Qed.

Lemma registered_account_is_of_age_witness :
  let body :=
    Account.mkBody (Some "Ion") (Some "Pop") (Some (mkDate 2008 11 2))
                   (Some "Ion@Example.com") (Some "secret1!") None
                   None None in
  let run :=
    Account.register Sample.asciiNameOk Sample.asciiIsEmail
                     Sample.asciiPasswordOk Sample.plainHash
                     "64b000000000000000000009" 9000 Sample.today body
                     (Api.mkWorld Sample.sampleDb []) in
  Api.statusOf (fst run) = 200
  /\ exists dob u,
       Account.body_birthDate body = Some dob
       /\ Users (Api.db (snd run)) = Users Sample.sampleDb ++ [u]
       /\ birthDate u = dob
       /\ (18 <= Account.validatorAge Sample.today dob <= 120)%Z
       /\ age (addFields Sample.today u)
          = Account.validatorAge Sample.today dob.
Proof.
  cbn zeta. split; [reflexivity |].
  eapply (registered_account_is_of_age
            Sample.asciiNameOk Sample.asciiIsEmail
            Sample.asciiPasswordOk Sample.plainHash
            "64b000000000000000000009" 9000 Sample.today
            (Account.mkBody (Some "Ion") (Some "Pop")
                            (Some (mkDate 2008 11 2))
                            (Some "Ion@Example.com") (Some "secret1!")
                            None None None)
            (Api.mkWorld Sample.sampleDb [])).
  vm_compute. reflexivity.
Defined.

(* ================================================================== *)
(** * No preview on a narrow window                                    *)
(* ================================================================== *)

(** X29. On a window less than 850 pixels wide no preview is shown,
    whatever the pointer and the keys do: starting from the first state
    of the hook, after any sequence of events in such a window there is
    no preview image and no preview position. *)
Theorem no_preview_on_a_narrow_window
        (window : ImageHover.Window) (events : list ImageHover.Event) :
  (ImageHover.innerWidth window < 850)%Z ->
  let h := fold_left (ImageHover.handle window) events ImageHover.initial in
  ImageHover.previewImage h = None /\ ImageHover.hoverPosition h = None.
Proof.
  intros Hnarrow. cbn zeta.
  assert (Hlt : (ImageHover.innerWidth window <? 850)%Z = true)
    by now apply Z.ltb_lt.
  assert (Hinv : forall h,
             ImageHover.previewImage h = None
             /\ ImageHover.hoverPosition h = None ->
             forall event,
               ImageHover.previewImage (ImageHover.handle window h event)
               = None
               /\ ImageHover.hoverPosition (ImageHover.handle window h event)
                  = None).
  { intros h Hh [e image | | e | key]; cbn [ImageHover.handle].
    - unfold ImageHover.onMouseEnter. now rewrite Hlt.
    - split; reflexivity.
    - unfold ImageHover.onMouseMove. now rewrite Hlt.
    - unfold ImageHover.handleKeyDown.
      destruct (key =? "Escape"); [split; reflexivity | exact Hh]. }
  assert (Hall : forall h,
             ImageHover.previewImage h = None
             /\ ImageHover.hoverPosition h = None ->
             ImageHover.previewImage
               (fold_left (ImageHover.handle window) events h) = None
             /\ ImageHover.hoverPosition
                  (fold_left (ImageHover.handle window) events h) = None).
  { induction events as [| event events IH]; intros h Hh; [exact Hh |].
    cbn [fold_left]. apply IH. now apply Hinv. }
  apply Hall. split; reflexivity.
Qed.

Lemma no_preview_on_a_narrow_window_witness :
  let window := ImageHover.mkWindow 800 600 in
  let h :=
    fold_left (ImageHover.handle window)
              [ImageHover.MouseEnter (ImageHover.mkMouseEvent 100 100)
                                     "https://img/1";
               ImageHover.MouseMove (ImageHover.mkMouseEvent 120 110);
               ImageHover.KeyDown "Enter"]
              ImageHover.initial in
  ImageHover.previewImage h = None /\ ImageHover.hoverPosition h = None.
Proof.
  cbn zeta.
  apply (no_preview_on_a_narrow_window
           (ImageHover.mkWindow 800 600)
           [ImageHover.MouseEnter (ImageHover.mkMouseEvent 100 100)
                                  "https://img/1";
            ImageHover.MouseMove (ImageHover.mkMouseEvent 120 110);
            ImageHover.KeyDown "Enter"]).
  reflexivity.
Defined.
